(** * loja-online: the catalog, the cart and the use case of [src/index.js]

    A shallow embedding of the domain classes of the storefront
    ([Product], [CartItem], [ProductRepository], [CartRepository] and
    [ShoppingCartUseCase]) together with the properties of the cart that the
    specification states, followed by the classes that consume them: the
    checkout page ([CheckoutPage]) and the product list and cart panel of
    [ShoppingCartUI].

    Modelling choices.
    - JavaScript objects that are mutated after construction ([CartItem]s, whose
      [quantity] is incremented in place, and the [Array]s stored in
      [CartRepository.items], which [push] extends in place) live in an
      explicit store and are denoted by references, so that a caller who holds
      the array returned by [getItems] shares it with the repository exactly
      as in the source.
    - [Product]s are never mutated after construction and the array held by
      [ProductRepository.products] is only ever replaced as a whole, so both
      are plain values.
    - A JavaScript number that holds a quantity is an integer [Z] (the
      arithmetic of the source is exact on integers of magnitude below 2^53).
      A price or an amount is the rational value [Q] of a finite double, and
      a product or a sum of the source is the exact result rounded to the
      nearest double, ties to even ([round_double]); results of magnitude
      2^1024 and above, where the source has [Infinity], are not modelled.
    - A method is a function from the program state to a completion (normal
      or abrupt, as in ECMAScript) and the state it leaves.
    - What the network and the JSON parser deliver to one [fetchAll] is an
      argument of it; [fetchAll] touches the state only after its last
      [await], so a call is one step of the state at the time it resumes. *)

From Stdlib Require Import ZArith QArith Lia.
From stdpp Require Import base option list numbers strings sorting.

Local Open Scope Z_scope.

(** ** Numbers

    The arithmetic of IEEE 754 binary64 on the rational values of finite
    doubles: 53 bits of precision, the least exponent of a unit in the last
    place is -1074 (subnormal numbers), rounding to nearest with ties to
    even. *)

(** [floor (log2 (n / d))] *)
Definition floor_log2 (n d : positive) : Z :=
  let k := Z.log2 (Zpos n) - Z.log2 (Zpos d) in
  if (if 0 <=? k then Zpos d * 2 ^ k <=? Zpos n else Zpos d <=? Zpos n * 2 ^ (- k))
  then k else k - 1.

(** The integer nearest to [p / r] for [0 <= p] and [0 < r], the even one
    of the two when they are equally near. *)
Definition round_half_even (p r : Z) : Z :=
  let q := p / r in
  let twice := 2 * (p mod r) in
  if twice <? r then q
  else if r <? twice then q + 1
  else if Z.even q then q else q + 1.

(** The double nearest to [n / d]: a multiple of [2 ^ q], where [q] is the
    exponent of the unit in the last place of the binade of [n / d]. *)
Definition round_magnitude (n d : positive) : Q :=
  let e := floor_log2 n d in
  let q := Z.max (e - 52) (-1074) in
  if 0 <=? q
  then inject_Z (round_half_even (Zpos n) (Zpos d * 2 ^ q) * 2 ^ q)
  else Qred (round_half_even (Zpos n * 2 ^ (- q)) (Zpos d) # Z.to_pos (2 ^ (- q))).

(** The double nearest to [x], as a fraction in lowest terms. *)
Definition round_double (x : Q) : Q :=
  match Qnum (Qred x) with
  | Z0 => 0
  | Zpos n => round_magnitude n (Qden (Qred x))
  | Zneg n => - round_magnitude n (Qden (Qred x))
  end.

(** [a + b] and [a * b] on numbers. *)
Definition js_add (a b : Q) : Q := round_double (a + b).
Definition js_mul (a b : Q) : Q := round_double (a * b).

Arguments round_double : simpl never.
Arguments js_add : simpl never.
Arguments js_mul : simpl never.

(** ** Values *)

(** What the [id] of a product, or the argument of a lookup, can hold. The
    remote contract has a JSON number or a JSON string there; a payload can
    also leave the property out ([undefined]) or put [null], a boolean, or
    an object or array, which is known by its identity only. *)
Inductive JsId :=
  | IdNum (n : Z)
  | IdStr (s : string)
  | IdUndefined
  | IdNull
  | IdBool (b : bool)
  | IdObject (o : nat).

(** [a === b] on identifiers: same type and same value, no coercion; two
    objects are equal when they are the same object. *)
Definition strict_eq (a b : JsId) : bool :=
  match a, b with
  | IdNum x, IdNum y => Z.eqb x y
  | IdStr x, IdStr y => String.eqb x y
  | IdUndefined, IdUndefined => true
  | IdNull, IdNull => true
  | IdBool x, IdBool y => Bool.eqb x y
  | IdObject x, IdObject y => Nat.eqb x y
  | _, _ => false
  end.

(** [a !== b]. *)
Definition strict_neq (a b : JsId) : bool := negb (strict_eq a b).

(** The values a [throw] can carry here: what [fetch] or [response.json()]
    rejected with, or a [TypeError] raised by the engine. [FetchError] is
    the error that the specification names, an error that carries the
    underlying cause; no code of the source constructs one. *)
Inductive JsError :=
  | NetworkError (msg : string)
  | SyntaxError (msg : string)
  | TypeError (msg : string)
  | FetchError (cause : JsError).

Module Product.
(** [class Product { constructor(id, title, price, image) }] *)
Record t := new { id : JsId; title : string; price : Q; image : string }.
End Product.

Module CartItem.
(** The fields of a [CartItem] object. *)
Record t := mk { product : Product.t; quantity : Z }.

(** [get total() { return this.product.price * this.quantity; }] *)
Definition total (this : t) : Q :=
  js_mul (Product.price (product this)) (inject_Z (quantity this)).
End CartItem.

(** ** The store *)

(** A reference to a stored object (its address). *)
Definition ref := nat.

(** The program state: the stored [CartItem] objects and [Array] objects, and
    the one field of each of the two repository singletons. *)
Record State := mkState {
  cartItemObjs : list CartItem.t;      (* CartItem objects, by address *)
  arrayObjs : list (list ref);         (* Arrays of CartItem references, by address *)
  products : list Product.t;           (* productRepository.products *)
  items : ref                          (* cartRepository.items *)
}.

(** ** Completions and the method monad *)

Inductive Completion (A : Type) :=
  | Return (a : A)
  | Throw (e : JsError).
Arguments Return {A} a.
Arguments Throw {A} e.

Definition M (A : Type) : Type := State -> Completion A * State.

#[global] Instance M_ret : MRet M := fun A a s => (Return a, s).
#[global] Instance M_bind : MBind M := fun A B f m s =>
  match m s with
  | (Return a, s') => f a s'
  | (Throw e, s') => (Throw e, s')
  end.

Definition throw {A} (e : JsError) : M A := fun s => (Throw e, s).

(** [try { body } catch (error) { handler(error) }] *)
Definition try_catch {A} (body : M A) (handler : JsError -> M A) : M A :=
  fun s =>
    match body s with
    | (Return a, s') => (Return a, s')
    | (Throw e, s') => handler e s'
    end.

(** Reading a property of [undefined]. *)
Definition undefined_access : JsError :=
  TypeError "Cannot read properties of undefined".

(** *** Store primitives *)

(** Allocation of a [CartItem] object. *)
Definition alloc_item (o : CartItem.t) : M ref := fun s =>
  (Return (length (cartItemObjs s)),
   mkState (cartItemObjs s ++ [o]) (arrayObjs s) (products s) (items s)).

(** The fields of the object at [r]. *)
Definition read_item (r : ref) : M CartItem.t := fun s =>
  match cartItemObjs s !! r with
  | Some o => (Return o, s)
  | None => (Throw undefined_access, s)
  end.

(** [r.product] *)
Definition get_product (r : ref) : M Product.t :=
  o ← read_item r; mret (CartItem.product o).

(** [r.quantity] *)
Definition get_quantity (r : ref) : M Z :=
  o ← read_item r; mret (CartItem.quantity o).

(** [r.quantity = q] *)
Definition set_quantity (r : ref) (q : Z) : M unit := fun s =>
  match cartItemObjs s !! r with
  | Some o =>
      (Return tt,
       mkState (<[r := CartItem.mk (CartItem.product o) q]> (cartItemObjs s))
               (arrayObjs s) (products s) (items s))
  | None => (Throw undefined_access, s)
  end.

(** An array literal: allocation of an [Array] object. *)
Definition alloc_array (elems : list ref) : M ref := fun s =>
  (Return (length (arrayObjs s)),
   mkState (cartItemObjs s) (arrayObjs s ++ [elems]) (products s) (items s)).

(** The elements of the array at [a]. *)
Definition read_array (a : ref) : M (list ref) := fun s =>
  match arrayObjs s !! a with
  | Some elems => (Return elems, s)
  | None => (Throw undefined_access, s)
  end.

(** [a.push(r)]: the array at [a] grows in place. *)
Definition push (a : ref) (r : ref) : M unit := fun s =>
  match arrayObjs s !! a with
  | Some elems =>
      (Return tt,
       mkState (cartItemObjs s) (<[a := elems ++ [r]]> (arrayObjs s))
               (products s) (items s))
  | None => (Throw undefined_access, s)
  end.

(** [this.items] of the cart repository, read and assigned. *)
Definition get_items : M ref := fun s => (Return (items s), s).
Definition set_items (a : ref) : M unit := fun s =>
  (Return tt, mkState (cartItemObjs s) (arrayObjs s) (products s) a).

(** [this.products] of the product repository, read and assigned. *)
Definition get_products : M (list Product.t) := fun s => (Return (products s), s).
Definition set_products (ps : list Product.t) : M unit := fun s =>
  (Return tt, mkState (cartItemObjs s) (arrayObjs s) ps (items s)).

(** *** Array methods

    A callback receives an element of the array, here a reference, and may
    read the store. *)

(** [elems.find(callback)]: the first element for which the callback
    returns true, or [undefined]. *)
Fixpoint array_find (callback : ref -> M bool) (elems : list ref) : M (option ref) :=
  match elems with
  | [] => mret None
  | item :: rest =>
      b ← callback item;
      if (b : bool) then mret (Some item) else array_find callback rest
  end.

(** [elems.filter(callback)]: the elements for which the callback returns
    true, in order (the caller stores them in a new array). *)
Fixpoint array_filter (callback : ref -> M bool) (elems : list ref) : M (list ref) :=
  match elems with
  | [] => mret []
  | item :: rest =>
      b ← callback item;
      kept ← array_filter callback rest;
      mret (if (b : bool) then item :: kept else kept)
  end.

(** [elems.reduce(callback, init)] *)
Fixpoint array_reduce {B} (callback : B -> ref -> M B) (elems : list ref) (acc : B) : M B :=
  match elems with
  | [] => mret acc
  | item :: rest =>
      acc' ← callback acc item;
      array_reduce callback rest acc'
  end.

(** ** The remote source

    What the network and the JSON parser deliver during one [fetchAll] is an
    input of the model. A parsed payload is either an array or some other
    JSON value. An element of the array is [null], on which the callback of
    [fetchAll] throws, or an object, of which the model keeps what the
    callback reads: [id], which may be absent or of any JSON type, and
    [title], [price] and [image], which are strings and a number as in the
    remote contract (the code that consumes the catalog calls string and
    number methods on them); the price may be negative. *)

Inductive JsonElem :=
  | JNull
  | JRecord (id : JsId) (title : string) (price : Q) (image : string).

Inductive JsonData :=
  | JArray (elems : list JsonElem)
  | JNotArray.

Inductive Remote :=
  | FetchRejects (e : JsError)       (* [await fetch(url)] throws [e] *)
  | JsonRejects (e : JsError)        (* [await response.json()] throws [e] *)
  | JsonResolves (data : JsonData).  (* both awaits resolve *)

(** The response object: what is left of the exchange once [fetch] resolved. *)
Definition Response := Remote.

(** [await fetch('https://fakestoreapi.com/products')] *)
Definition fetch (w : Remote) : M Response :=
  match w with
  | FetchRejects e => throw e
  | _ => mret w
  end.

(** [await response.json()] *)
Definition response_json (response : Response) : M JsonData :=
  match response with
  | FetchRejects e | JsonRejects e => throw e
  | JsonResolves data => mret data
  end.

(** [p => new Product(p.id, p.title, p.price, p.image)] *)
Definition to_product (p : JsonElem) : M Product.t :=
  match p with
  | JNull => throw (TypeError "Cannot read properties of null")
  | JRecord id title price image => mret (Product.new id title price image)
  end.

(** [elems.map(f)] for a callback that may throw. *)
Fixpoint array_map {A B} (f : A -> M B) (elems : list A) : M (list B) :=
  match elems with
  | [] => mret []
  | x :: rest =>
      y ← f x;
      ys ← array_map f rest;
      mret (y :: ys)
  end.

(** [data.map(...)]: only an array has the method. *)
Definition data_map (data : JsonData) (f : JsonElem -> M Product.t) : M (list Product.t) :=
  match data with
  | JArray elems => array_map f elems
  | JNotArray => throw (TypeError "data.map is not a function")
  end.

(** ** The classes of the source *)

Module CartItemClass.
(** [constructor(product, quantity = 1)]: [None] is an omitted argument. *)
Definition new (product : Product.t) (quantity : option Z) : M ref :=
  alloc_item (CartItem.mk product (default 1 quantity)).

(** [get total()], read through a reference. *)
Definition total (this : ref) : M Q :=
  o ← read_item this; mret (CartItem.total o).
End CartItemClass.

Module ProductRepository.
(** [constructor() { this.products = []; }] *)
Definition constructor : M unit := set_products [].

(** [getById(id) { return this.products.find(p => p.id === id); }] *)
Definition getById (id : JsId) : M (option Product.t) :=
  ps ← get_products;
  mret (List.find (fun p => strict_eq (Product.id p) id) ps).

(** The body of the [try] block of [fetchAll]. *)
Definition fetchAll_try (w : Remote) : M (list Product.t) :=
  response ← fetch w;
  data ← response_json response;
  ps ← data_map data to_product;
  set_products ps;;
  get_products.

(** [fetchAll]: the handler logs (no effect on the state) and rethrows the
    error it caught. *)
Definition fetchAll (w : Remote) : M (list Product.t) :=
  try_catch (fetchAll_try w) (fun error => throw error).
End ProductRepository.

Module CartRepository.
(** [constructor() { this.items = []; }] *)
Definition constructor : M unit :=
  a ← alloc_array []; set_items a.

Definition addItem (cartItem : ref) : M unit :=
  this_items ← get_items;
  elems ← read_array this_items;
  existingItem ← array_find
    (fun item =>
       p ← get_product item;
       q ← get_product cartItem;
       mret (strict_eq (Product.id p) (Product.id q))) elems;
  match existingItem with
  | Some existing =>
      (* existingItem.quantity++ *)
      n ← get_quantity existing;
      set_quantity existing (n + 1)
  | None =>
      push this_items cartItem
  end.

Definition removeItem (productId : JsId) : M unit :=
  this_items ← get_items;
  elems ← read_array this_items;
  kept ← array_filter
    (fun item => p ← get_product item; mret (strict_neq (Product.id p) productId))
    elems;
  a ← alloc_array kept;
  set_items a.

Definition updateQuantity (productId : JsId) (delta : Z) : M unit :=
  this_items ← get_items;
  elems ← read_array this_items;
  found ← array_find
    (fun item => p ← get_product item; mret (strict_eq (Product.id p) productId))
    elems;
  match found with
  | Some item =>
      (* item.quantity += delta *)
      n ← get_quantity item;
      set_quantity item (n + delta);;
      n' ← get_quantity item;
      if n' <=? 0 then removeItem productId else mret tt
  | None => mret tt
  end.

(** [getItems() { return this.items; }]: the live array, not a copy. *)
Definition getItems : M ref := get_items.

Definition getTotal : M Q :=
  this_items ← get_items;
  elems ← read_array this_items;
  array_reduce
    (fun sum item => t ← CartItemClass.total item; mret (js_add sum t)) elems 0%Q.

Definition getItemCount : M Z :=
  this_items ← get_items;
  elems ← read_array this_items;
  array_reduce
    (fun count item => n ← get_quantity item; mret (count + n)) elems 0.

(** [clear() { this.items = []; }]: a fresh array; the old one is left as
    it is. *)
Definition clear : M unit :=
  a ← alloc_array []; set_items a.
End CartRepository.

Module ShoppingCartUseCase.
Definition getProducts (w : Remote) : M (list Product.t) :=
  ProductRepository.fetchAll w.

Definition addToCart (productId : JsId) : M unit :=
  product ← ProductRepository.getById productId;
  match product with
  | Some p =>
      cartItem ← CartItemClass.new p None;
      CartRepository.addItem cartItem
  | None => mret tt
  end.

Definition removeFromCart (productId : JsId) : M unit :=
  CartRepository.removeItem productId.

Definition changeQuantity (productId : JsId) (delta : Z) : M unit :=
  CartRepository.updateQuantity productId delta.

Definition getCartItems : M ref := CartRepository.getItems.
Definition getCartTotal : M Q := CartRepository.getTotal.
Definition getCartItemCount : M Z := CartRepository.getItemCount.

(** [checkout]: the pair [{ items, total }]. *)
Definition checkout : M (ref * Q) :=
  items ← CartRepository.getItems;
  total ← CartRepository.getTotal;
  CartRepository.clear;;
  mret (items, total).
End ShoppingCartUseCase.

(** The state after the two constructors at the end of the script have run
    on an empty store. *)
Definition init : State :=
  snd ((ProductRepository.constructor;; CartRepository.constructor)
         (mkState [] [] [] 0%nat)).

(** ** Observations *)

(** The objects that the elements of an array refer to in a store. *)
Definition deref (objs : list CartItem.t) (elems : list ref) : option (list CartItem.t) :=
  mapM (fun r => objs !! r) elems.

(** What a holder of the array reference [a] sees in state [s]: the objects
    its elements refer to, in order. *)
Definition lines_of (s : State) (a : ref) : option (list CartItem.t) :=
  elems ← arrayObjs s !! a;
  deref (cartItemObjs s) elems.

(** The lines of the cart: the contents of [cartRepository.items]. *)
Definition cart_lines (s : State) : option (list CartItem.t) :=
  lines_of s (items s).

Definition line_id (o : CartItem.t) : JsId := Product.id (CartItem.product o).

(** The state invariant of the cart, with [ls] its lines. *)
Record cart_inv (s : State) (ls : list CartItem.t) : Prop := {
  inv_lines : cart_lines s = Some ls;
  inv_unique : NoDup (line_id <$> ls);
  inv_positive : Forall (fun o => 1 <= CartItem.quantity o) ls
}.

(** The elements of the array of the cart. *)
Definition cart_elems (s : State) : list ref :=
  default [] (arrayObjs s !! items s).

(** [extends s s']: from [s] to [s'] the store only grew, the arrays other
    than the one of the cart and the objects that the cart does not refer
    to are as they were, and what the cart refers to in [s'] it referred to
    in [s] or did not exist then. *)
Record extends (s s' : State) : Prop := {
  ext_objs_length : (length (cartItemObjs s) <= length (cartItemObjs s'))%nat;
  ext_arrays_length : (length (arrayObjs s) <= length (arrayObjs s'))%nat;
  ext_arrays : forall b,
    (b < length (arrayObjs s))%nat -> b <> items s ->
    arrayObjs s' !! b = arrayObjs s !! b;
  ext_objs : forall r,
    (r < length (cartItemObjs s))%nat -> r ∉ cart_elems s ->
    cartItemObjs s' !! r = cartItemObjs s !! r;
  ext_elems : forall r,
    r ∈ cart_elems s' -> r ∈ cart_elems s \/ (length (cartItemObjs s) <= r)%nat;
  ext_items : items s' = items s \/ (length (arrayObjs s) <= items s')%nat
}.

(** ** Sequences of operations *)

(** [addItem(new CartItem(p))]: the only way the source adds to the cart. *)
Definition add_new (p : Product.t) : M unit :=
  cartItem ← CartItemClass.new p None; CartRepository.addItem cartItem.

Inductive Op :=
  | AddItem (p : Product.t)                     (* [addItem(new CartItem(p))] *)
  | AddToCart (productId : JsId)
  | RemoveItem (productId : JsId)
  | AdjustQuantity (productId : JsId) (delta : Z)
  | Clear
  | Checkout
  | FetchAll (w : Remote).

Definition run_op (o : Op) : M unit :=
  match o with
  | AddItem p => add_new p
  | AddToCart productId => ShoppingCartUseCase.addToCart productId
  | RemoveItem productId => CartRepository.removeItem productId
  | AdjustQuantity productId delta => CartRepository.updateQuantity productId delta
  | Clear => CartRepository.clear
  | Checkout => ShoppingCartUseCase.checkout;; mret tt
  | FetchAll w =>
      (* the caller catches, as [loadProducts] does *)
      try_catch (ShoppingCartUseCase.getProducts w;; mret tt) (fun _ => mret tt)
  end.

Fixpoint run_ops (os : list Op) : M unit :=
  match os with
  | [] => mret tt
  | o :: rest => run_op o;; run_ops rest
  end.

(** The total that the [reduce] of [getTotal] computes over lines: from 0,
    line after line, each partial sum rounded. *)
Definition lines_total (ls : list CartItem.t) : Q :=
  List.fold_left (fun sum item => js_add sum (CartItem.total item)) ls 0%Q.

(** [x] is the value of a double: rounding leaves it as it is. *)
Definition is_double (x : Q) : Prop := (round_double x == x)%Q.

(** No step of the total of [ls] rounds when the partial sum so far is
    [acc]: every product of price and quantity and every partial sum is the
    value of a double. *)
Fixpoint exact_from (acc : Q) (ls : list CartItem.t) : Prop :=
  match ls with
  | [] => True
  | o :: rest =>
      is_double (Product.price (CartItem.product o) * inject_Z (CartItem.quantity o)) /\
      is_double (acc + Product.price (CartItem.product o) * inject_Z (CartItem.quantity o)) /\
      exact_from (acc + Product.price (CartItem.product o) * inject_Z (CartItem.quantity o))
                 rest
  end.

(** ** Aggregates, as the specification words them *)

(** The sum of [price × quantity] over the lines, as the specification words
    it. *)
Definition spec_total (ls : list CartItem.t) : Q :=
  foldr (fun o acc =>
           (Product.price (CartItem.product o) * inject_Z (CartItem.quantity o) + acc)%Q)
        0%Q ls.

(** The sum of the quantities over the lines, as the specification words it. *)
Definition spec_itemCount (ls : list CartItem.t) : Z :=
  foldr (fun o acc => CartItem.quantity o + acc) 0 ls.

(** ** What makes a retrieval fail

    [failure_cause w e]: in the exchange [w] a step of [fetchAll] raises [e],
    the network error, the parse error, or the [TypeError] of a payload that
    is not an array of records. *)
Inductive failure_cause : Remote -> JsError -> Prop :=
  | cause_network e : failure_cause (FetchRejects e) e
  | cause_parse e : failure_cause (JsonRejects e) e
  | cause_not_array :
      failure_cause (JsonResolves JNotArray) (TypeError "data.map is not a function")
  | cause_null_element elems :
      In JNull elems ->
      failure_cause (JsonResolves (JArray elems))
                    (TypeError "Cannot read properties of null").

(** ** The contract and the failure, as the specification words them *)

(** An element as the remote contract has it: a record whose [id] is a
    number or a string and whose [price] is not negative. *)
Definition conforms (e : JsonElem) : Prop :=
  match e with
  | JRecord (IdNum _ | IdStr _) _ price _ => (0 <= price)%Q
  | _ => False
  end.

(** A malformed payload: anything but an array of such records. *)
Definition malformed (data : JsonData) : Prop :=
  match data with
  | JArray elems => ~ Forall conforms elems
  | JNotArray => True
  end.

(** The failure that the specification describes: the call throws a
    [FetchError] that carries the underlying cause. *)
Definition fails_with_FetchError (w : Remote) (s : State) : Prop :=
  exists cause s', ProductRepository.fetchAll w s = (Throw (FetchError cause), s').

(** The record that a product was built from. *)
Definition record_of (p : Product.t) : JsonElem :=
  JRecord (Product.id p) (Product.title p) (Product.price p) (Product.image p).

(** ** Sample states

    The catalog and the carts of the scenarios of the specification: product 1
    costs 10.00 and product 2 costs 5.00. *)

Definition sample_payload : Remote :=
  JsonResolves (JArray [JRecord (IdNum 1) "Mochila" (10 # 1) "img/1.png";
                        JRecord (IdNum 2) "Camiseta" (5 # 1) "img/2.png"]).

Definition product1 : Product.t := Product.new (IdNum 1) "Mochila" (10 # 1) "img/1.png".
Definition product2 : Product.t := Product.new (IdNum 2) "Camiseta" (5 # 1) "img/2.png".

(** The state once the catalog is loaded; the cart is empty. *)
Definition shop : State := snd (run_op (FetchAll sample_payload) init).

(** Product 1 added twice. *)
Definition cart_two_of_1 : State :=
  snd (run_ops [AddToCart (IdNum 1); AddToCart (IdNum 1)] shop).

(** Product 1 twice and product 2 once. *)
Definition cart_two_lines : State :=
  snd (run_ops [AddToCart (IdNum 1); AddToCart (IdNum 2); AddToCart (IdNum 1)] shop).

(** A cart that holds two units of product 1 bought at 10.00, after the
    catalog was fetched again and lists product 1 at 12.00. *)
(** The double that the literal 0.1 denotes, a product at that price, and
    the cart with three units of it. *)
Definition tenth : Q := 3602879701896397 # 36028797018963968.

Definition product3 : Product.t := Product.new (IdNum 3) "Caneta" tenth "img/3.png".

Definition cart_three_tenths : State :=
  snd (run_ops [FetchAll (JsonResolves (JArray [record_of product3]));
                AddToCart (IdNum 3); AddToCart (IdNum 3); AddToCart (IdNum 3)] init).

Definition repriced_payload : Remote :=
  JsonResolves (JArray [JRecord (IdNum 1) "Mochila" (12 # 1) "img/1.png"]).

Definition cart_after_reprice : State :=
  snd (run_op (FetchAll repriced_payload) cart_two_of_1).

(** * The checkout page and the browser around it

    [ShoppingCartUI.checkout] and the class [CheckoutPage]. Of the browser
    the model keeps what these methods read and write: the [CheckoutPage]
    objects, [window.currentCheckoutInstance], the elements of the document
    that [initPage] builds (the values of the address inputs, the text of the
    three amounts, the cart summary, the scripts appended to the body), the
    messages passed to [alert] and an assignment to [window.location.href].
    The text that [x.toFixed(2)] produces is kept as [ToFixed2 x], not
    spelled out. Listeners are not stored: an event is a call of the method
    that [setupEventListeners] registered for it. *)

(** ** Values and property lookup *)

(** What the field [shipping] can hold: a number, or the object that
    [Object.prototype] holds under a key. *)
Inductive JsValue :=
  | VNum (x : Q)
  | VObject (key : string).

(** [ToBoolean]. *)
Definition truthy (v : JsValue) : bool :=
  match v with
  | VNum x => negb (Qeq_bool x 0)
  | VObject _ => true
  end.

(** [a || b], with [None] for [undefined]. *)
Definition js_or (a : option JsValue) (b : JsValue) : JsValue :=
  match a with
  | Some v => if truthy v then v else b
  | None => b
  end.

(** The own properties of the object literal in [calculateShipping]. *)
Definition shippingRates : list (string * Q) :=
  [("SP"%string, 10 # 1); ("RJ"%string, 15 # 1); ("MG"%string, 20 # 1)]%Q.

(** The properties that an object literal inherits from [Object.prototype]
    (ECMAScript, with the legacy accessors that browsers have). *)
Definition Object_prototype_keys : list string :=
  ["constructor"; "hasOwnProperty"; "isPrototypeOf"; "propertyIsEnumerable";
   "toLocaleString"; "toString"; "valueOf"; "__proto__";
   "__defineGetter__"; "__defineSetter__"; "__lookupGetter__"; "__lookupSetter__"
  ]%string.

Fixpoint own_property (own : list (string * Q)) (key : string) : option Q :=
  match own with
  | [] => None
  | (k, x) :: rest => if String.eqb k key then Some x else own_property rest key
  end.

(** [obj[key]] on an object literal: an own property, else an inherited
    one, else [undefined]. *)
Definition object_get (own : list (string * Q)) (key : string) : option JsValue :=
  match own_property own key with
  | Some x => Some (VNum x)
  | None =>
      if existsb (String.eqb key) Object_prototype_keys
      then Some (VObject key) else None
  end.

(** ** The objects and the document *)

Module CheckoutPage.
(** The fields of a [CheckoutPage] object. *)
Record t := mk { cartItems : ref; total : Q; shipping : JsValue }.
End CheckoutPage.

(** The text of an amount element: nothing yet, or [x.toFixed(2)]. *)
Inductive Text :=
  | NoText
  | ToFixed2 (x : Q).

(** One [div.cart-item] of the summary: image, title, quantity and the line
    total that is shown through [toFixed(2)]. *)
Record SummaryItem := mkSummaryItem {
  summary_image : string;
  summary_title : string;
  summary_quantity : Z;
  summary_total : Text
}.

(** The elements of the checkout document that the methods touch. *)
Record CheckoutDom := mkCheckoutDom {
  cart_summary : list SummaryItem;   (* the children of #cart-summary *)
  rua_value : string;                (* #rua.value *)
  bairro_value : string;             (* #bairro.value *)
  cidade_value : string;             (* #cidade.value *)
  uf_value : string;                 (* #uf.value *)
  subtotal_text : Text;              (* #subtotal.textContent *)
  shipping_text : Text;              (* #shipping.textContent *)
  total_text : Text;                 (* #total.textContent *)
  body_scripts : list string         (* src of the scripts appended to the body *)
}.

(** The document right after [initPage] has put the container in the body. *)
Definition blank_dom : CheckoutDom :=
  mkCheckoutDom [] "" "" "" "" NoText NoText NoText [].

Record Window := mkWindow {
  app : State;                              (* the repositories and their objects *)
  checkoutPages : list CheckoutPage.t;      (* CheckoutPage objects, by address *)
  currentCheckoutInstance : option ref;     (* window.currentCheckoutInstance *)
  checkout_document : option CheckoutDom;   (* [None] until a page has been built *)
  alerts : list string;                     (* the messages of alert(), oldest first *)
  location_href : option string             (* an assigned window.location.href *)
}.

(** ** The monad of the methods that run in the window *)

Definition W (A : Type) : Type := Window -> Completion A * Window.

#[global] Instance W_ret : MRet W := fun A a w => (Return a, w).
#[global] Instance W_bind : MBind W := fun A B f m w =>
  match m w with
  | (Return a, w') => f a w'
  | (Throw e, w') => (Throw e, w')
  end.

Definition throwW {A} (e : JsError) : W A := fun w => (Throw e, w).

(** A method of the repositories or of the use case, run in the window. *)
Definition lift {A} (m : M A) : W A := fun w =>
  let '(c, s) := m (app w) in
  (c, mkWindow s (checkoutPages w) (currentCheckoutInstance w)
               (checkout_document w) (alerts w) (location_href w)).

(** [alert(msg)] *)
Definition alert (msg : string) : W unit := fun w =>
  (Return tt,
   mkWindow (app w) (checkoutPages w) (currentCheckoutInstance w)
            (checkout_document w) (alerts w ++ [msg]) (location_href w)).

(** [window.location.href = url] *)
Definition set_location_href (url : string) : W unit := fun w =>
  (Return tt,
   mkWindow (app w) (checkoutPages w) (currentCheckoutInstance w)
            (checkout_document w) (alerts w) (Some url)).

(** Allocation of a [CheckoutPage] object. *)
Definition alloc_page (o : CheckoutPage.t) : W ref := fun w =>
  (Return (length (checkoutPages w)),
   mkWindow (app w) (checkoutPages w ++ [o]) (currentCheckoutInstance w)
            (checkout_document w) (alerts w) (location_href w)).

(** The fields of the page at [this]. *)
Definition read_page (this : ref) : W CheckoutPage.t := fun w =>
  match checkoutPages w !! this with
  | Some o => (Return o, w)
  | None => (Throw undefined_access, w)
  end.

(** [this.shipping = v] *)
Definition set_shipping (this : ref) (v : JsValue) : W unit := fun w =>
  match checkoutPages w !! this with
  | Some o =>
      (Return tt,
       mkWindow (app w)
                (<[this := CheckoutPage.mk (CheckoutPage.cartItems o)
                                           (CheckoutPage.total o) v]> (checkoutPages w))
                (currentCheckoutInstance w) (checkout_document w)
                (alerts w) (location_href w))
  | None => (Throw undefined_access, w)
  end.

Definition get_currentCheckoutInstance : W (option ref) := fun w =>
  (Return (currentCheckoutInstance w), w).

Definition set_currentCheckoutInstance (this : ref) : W unit := fun w =>
  (Return tt,
   mkWindow (app w) (checkoutPages w) (Some this)
            (checkout_document w) (alerts w) (location_href w)).

(** [document.body.innerHTML = ''] and the container of [initPage] appended:
    the elements of the page exist and are blank. *)
Definition build_document : W unit := fun w =>
  (Return tt,
   mkWindow (app w) (checkoutPages w) (currentCheckoutInstance w)
            (Some blank_dom) (alerts w) (location_href w)).

(** An assignment to a property of [document.getElementById(...)]: the
    element is [null] while the page has not been built. *)
Definition update_dom (f : CheckoutDom -> CheckoutDom) : W unit := fun w =>
  match checkout_document w with
  | Some d =>
      (Return tt,
       mkWindow (app w) (checkoutPages w) (currentCheckoutInstance w)
                (Some (f d)) (alerts w) (location_href w))
  | None => (Throw (TypeError "Cannot set properties of null"), w)
  end.

Definition set_cart_summary (v : list SummaryItem) : W unit :=
  update_dom (fun d =>
    mkCheckoutDom v (rua_value d) (bairro_value d) (cidade_value d) (uf_value d)
                  (subtotal_text d) (shipping_text d) (total_text d) (body_scripts d)).
Definition set_rua (v : string) : W unit :=
  update_dom (fun d =>
    mkCheckoutDom (cart_summary d) v (bairro_value d) (cidade_value d) (uf_value d)
                  (subtotal_text d) (shipping_text d) (total_text d) (body_scripts d)).
Definition set_bairro (v : string) : W unit :=
  update_dom (fun d =>
    mkCheckoutDom (cart_summary d) (rua_value d) v (cidade_value d) (uf_value d)
                  (subtotal_text d) (shipping_text d) (total_text d) (body_scripts d)).
Definition set_cidade (v : string) : W unit :=
  update_dom (fun d =>
    mkCheckoutDom (cart_summary d) (rua_value d) (bairro_value d) v (uf_value d)
                  (subtotal_text d) (shipping_text d) (total_text d) (body_scripts d)).
Definition set_uf (v : string) : W unit :=
  update_dom (fun d =>
    mkCheckoutDom (cart_summary d) (rua_value d) (bairro_value d) (cidade_value d) v
                  (subtotal_text d) (shipping_text d) (total_text d) (body_scripts d)).
Definition set_subtotal_text (v : Text) : W unit :=
  update_dom (fun d =>
    mkCheckoutDom (cart_summary d) (rua_value d) (bairro_value d) (cidade_value d)
                  (uf_value d) v (shipping_text d) (total_text d) (body_scripts d)).
Definition set_shipping_text (v : Text) : W unit :=
  update_dom (fun d =>
    mkCheckoutDom (cart_summary d) (rua_value d) (bairro_value d) (cidade_value d)
                  (uf_value d) (subtotal_text d) v (total_text d) (body_scripts d)).
Definition set_total_text (v : Text) : W unit :=
  update_dom (fun d =>
    mkCheckoutDom (cart_summary d) (rua_value d) (bairro_value d) (cidade_value d)
                  (uf_value d) (subtotal_text d) (shipping_text d) v (body_scripts d)).

(** [document.body.appendChild(script)] for a script with the given [src]. *)
Definition append_script (src : string) : W unit :=
  update_dom (fun d =>
    mkCheckoutDom (cart_summary d) (rua_value d) (bairro_value d) (cidade_value d)
                  (uf_value d) (subtotal_text d) (shipping_text d) (total_text d)
                  (body_scripts d ++ [src])).

(** ** The postal code *)

(** [0] to [9]. *)
Definition is_digit (c : Ascii.ascii) : bool :=
  ((48 <=? Ascii.nat_of_ascii c)%nat && (Ascii.nat_of_ascii c <=? 57)%nat)%bool.

(** [valor.replace(/\D/g, '')] *)
Fixpoint remove_non_digits (valor : string) : string :=
  match valor with
  | EmptyString => EmptyString
  | String c rest =>
      if is_digit c then String c (remove_non_digits rest) else remove_non_digits rest
  end.

(** [n] characters of class [[0-9]] and then the end of the input. *)
Fixpoint digits_then_end (n : nat) (s : string) : bool :=
  match n, s with
  | O, EmptyString => true
  | S n', String c rest => is_digit c && digits_then_end n' rest
  | _, _ => false
  end.

(** [/^[0-9]{8}$/.test(cep)] *)
Definition validacep_test (cep : string) : bool := digits_then_end 8 cep.

(** What the postal-code service answers through the callback: an object
    with the property [erro], or an address. *)
Inductive ViaCepAnswer :=
  | CepErro
  | CepAddress (logradouro bairro localidade uf : string).

(** ** The class [CheckoutPage] *)

Module CheckoutPageClass.
(** The three assignments of [updateTotals]; an object inherited from
    [Object.prototype] has no [toFixed], so the second one throws. *)
Definition updateTotals (this : ref) : W unit :=
  page ← read_page this;
  set_subtotal_text (ToFixed2 (CheckoutPage.total page));;
  match CheckoutPage.shipping page with
  | VNum x =>
      set_shipping_text (ToFixed2 x);;
      set_total_text (ToFixed2 (js_add (CheckoutPage.total page) x))
  | VObject _ => throwW (TypeError "this.shipping.toFixed is not a function")
  end.

Definition renderCartSummary (this : ref) : W unit :=
  page ← read_page this;
  elems ← lift (read_array (CheckoutPage.cartItems page));
  rendered ← lift (array_map
    (fun item =>
       p ← get_product item;
       n ← get_quantity item;
       t ← CartItemClass.total item;
       mret (mkSummaryItem (Product.image p) (Product.title p) n (ToFixed2 t)))
    elems);
  set_cart_summary rendered.

(** [initPage]; [setupEventListeners] registers [pesquisacep] for the blur
    of the postal code and [handleSubmit] for the submission of the form. *)
Definition initPage (this : ref) : W unit :=
  build_document;;
  renderCartSummary this;;
  updateTotals this.

(** [constructor(cartItems, total)] *)
Definition new (cartItems : ref) (total : Q) : W ref :=
  this ← alloc_page (CheckoutPage.mk cartItems total (VNum 0));
  initPage this;;
  mret this.

Definition limpa_formulario_cep : W unit :=
  set_rua "";; set_bairro "";; set_cidade "";; set_uf "".

Definition calculateShipping (this : ref) (state : string) : W unit :=
  set_shipping this (js_or (object_get shippingRates state) (VNum 30));;
  updateTotals this.

Definition meu_callback (this : ref) (conteudo : ViaCepAnswer) : W unit :=
  match conteudo with
  | CepAddress logradouro bairro localidade uf =>
      set_rua logradouro;;
      set_bairro bairro;;
      set_cidade localidade;;
      set_uf uf;;
      calculateShipping this uf
  | CepErro =>
      limpa_formulario_cep;;
      alert "CEP não encontrado."
  end.

Definition pesquisacep (this : ref) (valor : string) : W unit :=
  let cep := remove_non_digits valor in
  if negb (String.eqb cep "") then
    if validacep_test cep then
      set_rua "...";; set_bairro "...";; set_cidade "...";; set_uf "...";;
      append_script ("https://viacep.com.br/ws/" +:+ cep
                     +:+ "/json/?callback=checkoutPage.meu_callback")
    else
      limpa_formulario_cep;;
      alert "Formato de CEP inválido."
  else limpa_formulario_cep.

(** [handleSubmit(e)] *)
Definition handleSubmit : W unit :=
  alert "Compra finalizada com sucesso! Obrigado por sua compra.";;
  set_location_href "index.html".
End CheckoutPageClass.

(** [window.checkoutPage.meu_callback], the function that the answer of the
    service calls. *)
Definition window_checkoutPage_meu_callback (conteudo : ViaCepAnswer) : W unit :=
  current ← get_currentCheckoutInstance;
  match current with
  | Some this => CheckoutPageClass.meu_callback this conteudo
  | None => mret tt
  end.

Module ShoppingCartUI.
(** [checkout()] of the user interface. *)
Definition checkout : W unit :=
  result ← lift ShoppingCartUseCase.checkout;
  elems ← lift (read_array (fst result));
  if (length elems =? 0)%nat then alert "Seu carrinho está vazio!"
  else
    page ← CheckoutPageClass.new (fst result) (snd result);
    set_currentCheckoutInstance page.
End ShoppingCartUI.

(** ** Events on the checkout page *)

Inductive PageEvent :=
  | Blur (valor : string)                  (* the postal code input loses focus *)
  | Answer (conteudo : ViaCepAnswer)       (* the script of the service runs *)
  | Submit.                                (* the form is submitted *)

Definition handle_event (this : ref) (e : PageEvent) : W unit :=
  match e with
  | Blur valor => CheckoutPageClass.pesquisacep this valor
  | Answer conteudo => window_checkoutPage_meu_callback conteudo
  | Submit => CheckoutPageClass.handleSubmit
  end.

Fixpoint handle_events (this : ref) (es : list PageEvent) : W unit :=
  match es with
  | [] => mret tt
  | e :: rest => handle_event this e;; handle_events this rest
  end.

(** The window when the script has run and the catalog of the samples is
    loaded: no checkout page yet. *)
Definition window_of (s : State) : Window := mkWindow s [] None None [] None.

(** ** What the statements about the checkout page speak of *)

(** The digits of a text, in order. *)
Definition digits_of (valor : string) : list Ascii.ascii :=
  List.filter is_digit (String.list_ascii_of_string valor).

(** The address of the lookup for a postal code. *)
Definition viacep_url (cep : string) : string :=
  "https://viacep.com.br/ws/" +:+ cep +:+ "/json/?callback=checkoutPage.meu_callback".

(** The rate that the table of [calculateShipping] gives a state code. *)
Definition rate_of (state : string) : Q :=
  if String.eqb state "SP" then 10 # 1
  else if String.eqb state "RJ" then 15 # 1
  else if String.eqb state "MG" then 20 # 1
  else 30 # 1.

(** The summary entry of a line. *)
Definition summary_of (o : CartItem.t) : SummaryItem :=
  mkSummaryItem (Product.image (CartItem.product o)) (Product.title (CartItem.product o))
                (CartItem.quantity o) (ToFixed2 (CartItem.total o)).

(** An event that does not deliver a state code which names a property of
    [Object.prototype]. *)
Definition plain_event (e : PageEvent) : Prop :=
  match e with
  | Answer (CepAddress _ _ _ uf) => ~ In uf Object_prototype_keys
  | _ => True
  end.

(** The amounts on the page at [this] agree with its fields: the subtotal
    shown is [total], the shipping shown is the numeric field [shipping],
    one of the rates or 0, and the total shown is their sum. *)
Definition amounts_agree (w : Window) (this : ref) (total : Q) (summary : list SummaryItem)
  : Prop :=
  exists cartItems x d,
    currentCheckoutInstance w = Some this /\
    checkoutPages w !! this = Some (CheckoutPage.mk cartItems total (VNum x)) /\
    In x [0 # 1; 10 # 1; 15 # 1; 20 # 1; 30 # 1]%Q /\
    checkout_document w = Some d /\
    cart_summary d = summary /\
    subtotal_text d = ToFixed2 total /\
    shipping_text d = ToFixed2 x /\
    total_text d = ToFixed2 (js_add total x).

(** Shorthands for a document with other address values, and a window with
    another document or one more alert. *)
Definition with_address (d : CheckoutDom) (r b c u : string) : CheckoutDom :=
  mkCheckoutDom (cart_summary d) r b c u
                (subtotal_text d) (shipping_text d) (total_text d) (body_scripts d).

Definition with_script (d : CheckoutDom) (src : string) : CheckoutDom :=
  mkCheckoutDom (cart_summary d) (rua_value d) (bairro_value d) (cidade_value d)
                (uf_value d) (subtotal_text d) (shipping_text d) (total_text d)
                (body_scripts d ++ [src]).

Definition with_document (w : Window) (d : CheckoutDom) : Window :=
  mkWindow (app w) (checkoutPages w) (currentCheckoutInstance w) (Some d)
           (alerts w) (location_href w).

Definition with_alert (w : Window) (msg : string) : Window :=
  mkWindow (app w) (checkoutPages w) (currentCheckoutInstance w) (checkout_document w)
           (alerts w ++ [msg]) (location_href w).

(** ** A sample page

    The cart with two lines is checked out through the user interface; the
    page of the checkout is object 0. *)
Definition checkout_window : Window :=
  snd (ShoppingCartUI.checkout (window_of cart_two_lines)).

(** * The product list and the cart panel

    The other methods of [ShoppingCartUI]. Of the page the model keeps what
    they read and write: the fields [products], [filteredProducts] and
    [currentPage] of the object, the children of [#products], the element
    [#loading], the values of the search input and of the sort select, the
    targets that the intersection observer watches, and the three elements
    of the cart panel. An element that a template builds is kept as the
    values the template is instantiated with. Styles, transitions and the
    class lists ([animateCartIcon], [toggleCart]) are not kept. *)

(** ** The string methods of the engine *)

Class StringPrototype := {
  toLowerCase : string -> string;          (* [toLowerCase s] is [s.toLowerCase()] *)
  includes : string -> string -> bool      (* [includes s t] is [s.includes(t)] *)
}.

(** The two methods on ASCII text, for the samples. *)
Definition ascii_toLowerCase_char (c : Ascii.ascii) : Ascii.ascii :=
  if ((65 <=? Ascii.nat_of_ascii c)%nat && (Ascii.nat_of_ascii c <=? 90)%nat)%bool
  then Ascii.ascii_of_nat (Ascii.nat_of_ascii c + 32) else c.

Fixpoint ascii_toLowerCase (s : string) : string :=
  match s with
  | EmptyString => EmptyString
  | String c rest => String (ascii_toLowerCase_char c) (ascii_toLowerCase rest)
  end.

Fixpoint ascii_includes (s t : string) : bool :=
  (String.prefix t s ||
   match s with
   | EmptyString => false
   | String _ rest => ascii_includes rest t
   end)%bool.

Definition ascii_strings : StringPrototype :=
  {| toLowerCase := ascii_toLowerCase; includes := ascii_includes |}.

(** ** Array methods on plain values *)

(** [l.slice(start, end)], negative indices counting from the end. *)
Definition array_slice {A} (l : list A) (start final : Z) : list A :=
  let len := Z.of_nat (length l) in
  let k := if start <? 0 then Z.max (len + start) 0 else Z.min start len in
  let final := if final <? 0 then Z.max (len + final) 0 else Z.min final len in
  take (Z.to_nat (final - k)) (drop (Z.to_nat k) l).

(** Where a stable sort puts [x] in front of the sorted elements that came
    after it: before the first one that it does not have to follow. *)
Fixpoint sort_insert {A} (compare : A -> A -> Q) (x : A) (sorted : list A) : list A :=
  match sorted with
  | [] => [x]
  | y :: rest =>
      if Qle_bool (compare x y) 0 then x :: y :: rest
      else y :: sort_insert compare x rest
  end.

(** [l.sort(compare)]: the sort of an array is stable. *)
Fixpoint array_sort {A} (compare : A -> A -> Q) (l : list A) : list A :=
  match l with
  | [] => []
  | x :: rest => sort_insert compare x (array_sort compare rest)
  end.

(** ** The elements and the fields *)

(** A child of [#products]: a skeleton card, the card of a product, or a
    [#load-more-trigger]; [n] tells the triggers apart, each is a new
    element. *)
Inductive Child :=
  | Skeleton
  | ProductElement (product : Product.t)
  | LoadMoreTrigger (n : nat).

(** An [IntersectionObserverEntry] of the observer, whose targets are
    triggers. *)
Record Entry := mkEntry { isIntersecting : bool; target : nat }.

(** The values that the template of a row of the cart panel is
    instantiated with. *)
Record CartRow := mkCartRow {
  row_image : string;
  row_title : string;
  row_id : JsId;
  row_quantity : Z;
  row_total : Text
}.

Record ListView := mkListView {
  this_products : option (list Product.t);          (* this.products *)
  this_filteredProducts : option (list Product.t);  (* this.filteredProducts *)
  this_currentPage : Z;                             (* this.currentPage *)
  productsElement : list Child;                     (* the children of #products *)
  triggers_created : nat;                           (* how many triggers were created *)
  observed : list nat;                              (* the targets of this.observer *)
  loading_display : string;                         (* #loading.style.display *)
  loading_textContent : string;                     (* #loading.textContent *)
  searchInput_value : string;                       (* #search-input.value *)
  sortSelect_value : string                         (* #sort-select.value *)
}.

Record CartPanel := mkCartPanel {
  cartItemsElement : list CartRow;    (* the rows of #cart-items *)
  cartTotalElement : Text;            (* the amount in the text of #cart-total *)
  cartCountElement : option Z         (* the number in the text of #cart-count *)
}.

Record Ui := mkUi {
  ui_app : State;           (* the repositories and their objects *)
  list_view : ListView;
  cart_panel : CartPanel
}.

(** [this.itemsPerPage], assigned once in the constructor. *)
Definition itemsPerPage : Z := 8.

(** ** The monad of the methods of the user interface *)

Definition U (A : Type) : Type := Ui -> Completion A * Ui.

#[global] Instance U_ret : MRet U := fun A a u => (Return a, u).
#[global] Instance U_bind : MBind U := fun A B f m u =>
  match m u with
  | (Return a, u') => f a u'
  | (Throw e, u') => (Throw e, u')
  end.

Definition throwU {A} (e : JsError) : U A := fun u => (Throw e, u).

(** [try { body } catch (error) { handler(error) }] *)
Definition try_catchU {A} (body : U A) (handler : JsError -> U A) : U A :=
  fun u =>
    match body u with
    | (Return a, u') => (Return a, u')
    | (Throw e, u') => handler e u'
    end.

(** A method of the repositories or of the use case, called by the user
    interface. *)
Definition liftU {A} (m : M A) : U A := fun u =>
  let '(c, s) := m (ui_app u) in
  (c, mkUi s (list_view u) (cart_panel u)).

Definition get_view : U ListView := fun u => (Return (list_view u), u).

Definition update_view (f : ListView -> ListView) : U unit := fun u =>
  (Return tt, mkUi (ui_app u) (f (list_view u)) (cart_panel u)).

Definition update_panel (f : CartPanel -> CartPanel) : U unit := fun u =>
  (Return tt, mkUi (ui_app u) (list_view u) (f (cart_panel u))).

Definition set_this_products (ps : list Product.t) : U unit :=
  update_view (fun v =>
    mkListView (Some ps) (this_filteredProducts v) (this_currentPage v)
               (productsElement v) (triggers_created v) (observed v)
               (loading_display v) (loading_textContent v)
               (searchInput_value v) (sortSelect_value v)).
Definition set_this_filteredProducts (ps : list Product.t) : U unit :=
  update_view (fun v =>
    mkListView (this_products v) (Some ps) (this_currentPage v)
               (productsElement v) (triggers_created v) (observed v)
               (loading_display v) (loading_textContent v)
               (searchInput_value v) (sortSelect_value v)).
Definition set_this_currentPage (n : Z) : U unit :=
  update_view (fun v =>
    mkListView (this_products v) (this_filteredProducts v) n
               (productsElement v) (triggers_created v) (observed v)
               (loading_display v) (loading_textContent v)
               (searchInput_value v) (sortSelect_value v)).

(** The children of [#products] replaced ([innerHTML = ...]) or changed. *)
Definition set_productsElement (children : list Child) : U unit :=
  update_view (fun v =>
    mkListView (this_products v) (this_filteredProducts v) (this_currentPage v)
               children (triggers_created v) (observed v)
               (loading_display v) (loading_textContent v)
               (searchInput_value v) (sortSelect_value v)).

(** [this.productsElement.appendChild(element)], for each of [elements]. *)
Definition append_children (elements : list Child) : U unit :=
  update_view (fun v =>
    mkListView (this_products v) (this_filteredProducts v) (this_currentPage v)
               (productsElement v ++ elements) (triggers_created v) (observed v)
               (loading_display v) (loading_textContent v)
               (searchInput_value v) (sortSelect_value v)).

(** [document.createElement('div')] for a trigger: a new element. *)
Definition create_trigger : U nat := fun u =>
  let v := list_view u in
  (Return (triggers_created v),
   mkUi (ui_app u)
        (mkListView (this_products v) (this_filteredProducts v) (this_currentPage v)
                    (productsElement v) (S (triggers_created v)) (observed v)
                    (loading_display v) (loading_textContent v)
                    (searchInput_value v) (sortSelect_value v))
        (cart_panel u)).

(** [this.observer.observe(t)] and [this.observer.unobserve(t)] *)
Definition observe (t : nat) : U unit :=
  update_view (fun v =>
    mkListView (this_products v) (this_filteredProducts v) (this_currentPage v)
               (productsElement v) (triggers_created v)
               (if bool_decide (t ∈ observed v) then observed v else observed v ++ [t])
               (loading_display v) (loading_textContent v)
               (searchInput_value v) (sortSelect_value v)).
Definition unobserve (t : nat) : U unit :=
  update_view (fun v =>
    mkListView (this_products v) (this_filteredProducts v) (this_currentPage v)
               (productsElement v) (triggers_created v)
               (List.filter (fun t' => negb (t' =? t)%nat) (observed v))
               (loading_display v) (loading_textContent v)
               (searchInput_value v) (sortSelect_value v)).

Definition is_trigger (t : nat) (c : Child) : bool :=
  match c with
  | LoadMoreTrigger n => (n =? t)%nat
  | _ => false
  end.

(** [t.remove()]: the trigger leaves its parent, if it has one. *)
Definition remove_trigger (t : nat) : U unit :=
  update_view (fun v =>
    mkListView (this_products v) (this_filteredProducts v) (this_currentPage v)
               (List.filter (fun c => negb (is_trigger t c)) (productsElement v))
               (triggers_created v) (observed v)
               (loading_display v) (loading_textContent v)
               (searchInput_value v) (sortSelect_value v)).

Definition set_loading_display (d : string) : U unit :=
  update_view (fun v =>
    mkListView (this_products v) (this_filteredProducts v) (this_currentPage v)
               (productsElement v) (triggers_created v) (observed v)
               d (loading_textContent v)
               (searchInput_value v) (sortSelect_value v)).
Definition set_loading_textContent (t : string) : U unit :=
  update_view (fun v =>
    mkListView (this_products v) (this_filteredProducts v) (this_currentPage v)
               (productsElement v) (triggers_created v) (observed v)
               (loading_display v) t
               (searchInput_value v) (sortSelect_value v)).

Definition set_cartItemsElement (rows : list CartRow) : U unit :=
  update_panel (fun c => mkCartPanel rows (cartTotalElement c) (cartCountElement c)).
Definition set_cartTotalElement (t : Text) : U unit :=
  update_panel (fun c => mkCartPanel (cartItemsElement c) t (cartCountElement c)).
Definition set_cartCountElement (n : Z) : U unit :=
  update_panel (fun c => mkCartPanel (cartItemsElement c) (cartTotalElement c) (Some n)).

(** ** The class [ShoppingCartUI]: the list and the panel *)

Module ShoppingCartUIClass.
Section methods.
Context `{StringPrototype}.

Definition displaySkeletonLoading : U unit :=
  set_productsElement (replicate (Z.to_nat itemsPerPage) Skeleton).

Definition displayProducts : U unit :=
  v ← get_view;
  let startIndex := (this_currentPage v - 1) * itemsPerPage in
  let endIndex := startIndex + itemsPerPage in
  match this_filteredProducts v with
  | None => throwU undefined_access
  | Some filteredProducts =>
      let productsToShow := array_slice filteredProducts startIndex endIndex in
      let newProductElements := ProductElement <$> productsToShow in
      (if this_currentPage v =? 1 then set_productsElement [] else mret tt);;
      append_children newProductElements;;
      if this_currentPage v * itemsPerPage <? Z.of_nat (length filteredProducts) then
        loadMoreTrigger ← create_trigger;
        append_children [LoadMoreTrigger loadMoreTrigger];;
        observe loadMoreTrigger
      else mret tt
  end.

(** The filter and the sort of [filterAndSortProducts]: what is assigned to
    [this.filteredProducts]. Of the number that a comparator returns the
    sort uses the sign only, and the difference of two doubles rounds to
    zero only when it is zero, so the sign of [a.price - b.price] is the
    sign of the exact difference, which the comparators here return. *)
Definition filtered_and_sorted (products : list Product.t) (search sortValue : string)
  : list Product.t :=
  let filteredProducts :=
    List.filter
      (fun product =>
         includes (toLowerCase (Product.title product)) (toLowerCase search))
      products in
  if String.eqb sortValue "price-asc" then
    array_sort (fun a b => Product.price a - Product.price b)%Q filteredProducts
  else if String.eqb sortValue "price-desc" then
    array_sort (fun a b => Product.price b - Product.price a)%Q filteredProducts
  else filteredProducts.

Definition filterAndSortProducts : U unit :=
  v ← get_view;
  match this_products v with
  | None => throwU undefined_access
  | Some products =>
      set_this_filteredProducts
        (filtered_and_sorted products (searchInput_value v) (sortSelect_value v));;
      set_this_currentPage 1;;
      displayProducts
  end.

(** [loadProducts] after its [await]: [w] is what the network delivered. *)
Definition loadProducts_resume (w : Remote) : U unit :=
  try_catchU
    (products ← liftU (ShoppingCartUseCase.getProducts w);
     set_this_products products;;
     filterAndSortProducts;;
     set_loading_display "none")
    (fun error =>
       set_loading_textContent
         "Erro ao carregar produtos. Por favor, tente novamente mais tarde.").

Definition loadProducts (w : Remote) : U unit :=
  displaySkeletonLoading;;
  loadProducts_resume w.

Fixpoint handleIntersection (entries : list Entry) : U unit :=
  match entries with
  | [] => mret tt
  | entry :: rest =>
      (if isIntersecting entry then
         unobserve (target entry);;
         remove_trigger (target entry);;
         v ← get_view;
         set_this_currentPage (this_currentPage v + 1);;
         displayProducts
       else mret tt);;
      handleIntersection rest
  end.

Definition updateCart : U unit :=
  items ← liftU ShoppingCartUseCase.getCartItems;
  elems ← liftU (read_array items);
  rows ← liftU (array_map
    (fun item =>
       p ← get_product item;
       n ← get_quantity item;
       t ← CartItemClass.total item;
       mret (mkCartRow (Product.image p) (Product.title p) (Product.id p) n (ToFixed2 t)))
    elems);
  set_cartItemsElement rows;;
  total ← liftU ShoppingCartUseCase.getCartTotal;
  set_cartTotalElement (ToFixed2 total);;
  count ← liftU ShoppingCartUseCase.getCartItemCount;
  set_cartCountElement count.

(** [addToCart(productId)]; [animateCartIcon] changes a class list only. *)
Definition addToCart (productId : JsId) : U unit :=
  liftU (ShoppingCartUseCase.addToCart productId);;
  updateCart.

Definition removeFromCart (productId : JsId) : U unit :=
  liftU (ShoppingCartUseCase.removeFromCart productId);;
  updateCart.

Definition changeQuantity (productId : JsId) (delta : Z) : U unit :=
  liftU (ShoppingCartUseCase.changeQuantity productId delta);;
  updateCart.
End methods.
End ShoppingCartUIClass.

(** ** What happens to the list *)

(** The trigger that is in the list, if there is one. *)
Definition live_trigger (u : Ui) : option nat :=
  List.find (fun c => match c with LoadMoreTrigger _ => true | _ => false end)
            (productsElement (list_view u))
  ≫= fun c => match c with LoadMoreTrigger t => Some t | _ => None end.

(** The visitor scrolls until the trigger comes into view: the observer
    calls [handleIntersection] with an entry for it. Without a trigger in
    the list nothing is called. *)
Definition trigger_seen : U unit := fun u =>
  match live_trigger u with
  | Some t => ShoppingCartUIClass.handleIntersection [mkEntry true t] u
  | None => (Return tt, u)
  end.

Fixpoint times (n : nat) (m : U unit) : U unit :=
  match n with
  | O => mret tt
  | S n' => m;; times n' m
  end.

(** A call of one of the three cart methods of the user interface with an
    identifier. The inline handlers of the buttons, which write the
    identifier into the text of the call, are not part of the model. *)
Inductive PanelOp :=
  | PanelAdd (productId : JsId)
  | PanelRemove (productId : JsId)
  | PanelChange (productId : JsId) (delta : Z).

Definition run_panel_op (o : PanelOp) : U unit :=
  match o with
  | PanelAdd productId => ShoppingCartUIClass.addToCart productId
  | PanelRemove productId => ShoppingCartUIClass.removeFromCart productId
  | PanelChange productId delta => ShoppingCartUIClass.changeQuantity productId delta
  end.

(** ** What the statements about the list and the panel speak of *)

(** The row of a line. *)
Definition row_of (o : CartItem.t) : CartRow :=
  mkCartRow (Product.image (CartItem.product o)) (Product.title (CartItem.product o))
            (line_id o) (CartItem.quantity o) (ToFixed2 (CartItem.total o)).

(** The cards of the first [n] pages of [ps], then the trigger [t] if more
    pages remain. *)
Definition pages_shown (ps : list Product.t) (n : nat) (t : nat) : list Child :=
  (ProductElement <$> take (8 * n) ps) ++
  (if (8 * n <? length ps)%nat then [LoadMoreTrigger t] else []).

(** The list shows the first [n] pages of [ps], which are the filtered
    products, and [n] is the current page. *)
Definition shows_pages (u : Ui) (ps : list Product.t) (n : nat) : Prop :=
  this_filteredProducts (list_view u) = Some ps /\
  this_currentPage (list_view u) = Z.of_nat n /\
  (1 <= n)%nat /\
  exists t, productsElement (list_view u) = pages_shown ps n t.

(** What the list and the panel are made from, apart from the cards. *)
Definition same_inputs (u u' : Ui) : Prop :=
  ui_app u' = ui_app u /\
  cart_panel u' = cart_panel u /\
  this_products (list_view u') = this_products (list_view u) /\
  searchInput_value (list_view u') = searchInput_value (list_view u) /\
  sortSelect_value (list_view u') = sortSelect_value (list_view u) /\
  loading_display (list_view u') = loading_display (list_view u) /\
  loading_textContent (list_view u') = loading_textContent (list_view u).

(** Whether a product is listed for a search text. *)
Definition matches `{StringPrototype} (search : string) (product : Product.t) : bool :=
  includes (toLowerCase (Product.title product)) (toLowerCase search).

(** The products of one price. *)
Definition priced (q : Q) (product : Product.t) : bool :=
  Qeq_bool (Product.price product) q.

(** A page that has just been opened: nothing loaded, nothing shown. *)
Definition opened (s : State) (search sortValue : string) : Ui :=
  mkUi s (mkListView None None 1 [] 0 [] "" "" search sortValue)
       (mkCartPanel [] NoText None).

(** A catalog of twenty products for the samples; the price falls and
    rises along it. *)
Definition catalog20 : list Product.t :=
  (fun i => Product.new (IdNum i)
                        (if i mod 2 =? 0 then "Blue shirt" else "Red SHIRT")
                        (Z.abs (i - 7) # 1) "img.png")
    <$> seqZ 1 20.

(** * Properties *)

(** ** Strict equality *)

Lemma strict_eq_true (a b : JsId) : strict_eq a b = true <-> a = b.
Proof.
  destruct a, b; simpl; try (split; congruence).
  - rewrite Z.eqb_eq. split; congruence.
  - rewrite String.eqb_eq. split; congruence.
  - rewrite Bool.eqb_true_iff. split; congruence.
  - rewrite Nat.eqb_eq. split; congruence.
Qed.

Lemma strict_eq_false (a b : JsId) : strict_eq a b = false <-> a <> b.
Proof.
  rewrite <- strict_eq_true. destruct (strict_eq a b); split; congruence.
Qed.

Lemma strict_neq_false (a b : JsId) : strict_neq a b = false <-> a = b.
Proof.
  unfold strict_neq. rewrite <- strict_eq_true.
  destruct (strict_eq a b); simpl; split; congruence.
Qed.

Lemma strict_neq_true (a b : JsId) : strict_neq a b = true <-> a <> b.
Proof.
  unfold strict_neq. rewrite <- strict_eq_false.
  destruct (strict_eq a b); simpl; split; congruence.
Qed.

(** ** Running monadic code *)

Lemma bind_Return {A B} (m : M A) (f : A -> M B) s a s' :
  m s = (Return a, s') -> (m ≫= f) s = f a s'.
Proof. intros H. unfold mbind, M_bind. by rewrite H. Qed.

Lemma bind_Throw {A B} (m : M A) (f : A -> M B) s e s' :
  m s = (Throw e, s') -> (m ≫= f) s = (Throw e, s').
Proof. intros H. unfold mbind, M_bind. by rewrite H. Qed.

Lemma read_item_run s r o :
  cartItemObjs s !! r = Some o -> read_item r s = (Return o, s).
Proof. intros H. unfold read_item. by rewrite H. Qed.

Lemma get_product_run s r o :
  cartItemObjs s !! r = Some o -> get_product r s = (Return (CartItem.product o), s).
Proof.
  intros H. unfold get_product.
  by rewrite (bind_Return _ _ _ _ _ (read_item_run _ _ _ H)).
Qed.

Lemma get_quantity_run s r o :
  cartItemObjs s !! r = Some o -> get_quantity r s = (Return (CartItem.quantity o), s).
Proof.
  intros H. unfold get_quantity.
  by rewrite (bind_Return _ _ _ _ _ (read_item_run _ _ _ H)).
Qed.

Lemma total_run s r o :
  cartItemObjs s !! r = Some o -> CartItemClass.total r s = (Return (CartItem.total o), s).
Proof.
  intros H. unfold CartItemClass.total.
  by rewrite (bind_Return _ _ _ _ _ (read_item_run _ _ _ H)).
Qed.

Lemma read_array_run s a elems :
  arrayObjs s !! a = Some elems -> read_array a s = (Return elems, s).
Proof. intros H. unfold read_array. by rewrite H. Qed.

(** ** Dereferencing the elements of an array *)

Lemma lines_of_Some s a ls :
  lines_of s a = Some ls <->
  exists elems, arrayObjs s !! a = Some elems /\ deref (cartItemObjs s) elems = Some ls.
Proof.
  unfold lines_of, deref. destruct (arrayObjs s !! a) as [elems|]; simpl.
  - split; [eauto | by intros (? & [= <-] & ?)].
  - split; [done | by intros (? & ? & ?)].
Qed.

Lemma deref_cons objs r elems ls :
  deref objs (r :: elems) = Some ls <->
  exists o ls', ls = o :: ls' /\ objs !! r = Some o /\ deref objs elems = Some ls'.
Proof.
  unfold deref. rewrite mapM_Some. split.
  - intros H. inversion H as [|? o ? ls' Hr Hrest]; subst.
    exists o, ls'. by rewrite mapM_Some.
  - intros (o & ls' & -> & Hr & Hrest). constructor; [done|]. by apply mapM_Some.
Qed.

Lemma deref_lookup objs elems ls i r :
  deref objs elems = Some ls -> elems !! i = Some r ->
  exists o, ls !! i = Some o /\ objs !! r = Some o.
Proof.
  unfold deref. rewrite mapM_Some. intros H Hi.
  destruct (Forall2_lookup_l _ _ _ _ _ H Hi) as (o & ? & ?). eauto.
Qed.

Lemma deref_app objs elems1 elems2 ls1 ls2 :
  deref objs elems1 = Some ls1 -> deref objs elems2 = Some ls2 ->
  deref objs (elems1 ++ elems2) = Some (ls1 ++ ls2).
Proof.
  unfold deref. rewrite !mapM_Some. apply Forall2_app.
Qed.

(** Allocation leaves every existing object where it is. *)
Lemma deref_alloc objs o elems ls :
  deref objs elems = Some ls -> deref (objs ++ [o]) elems = Some ls.
Proof.
  unfold deref. rewrite !mapM_Some. intros H.
  eapply Forall2_impl; [exact H|].
  intros r o' Hr. by apply lookup_app_l_Some.
Qed.

(** Distinct lines are distinct objects. *)
Lemma deref_NoDup objs elems ls :
  deref objs elems = Some ls -> NoDup (line_id <$> ls) -> NoDup elems.
Proof.
  revert ls. induction elems as [|r elems IH]; intros ls H Hnd; [constructor|].
  apply deref_cons in H as (o & ls' & -> & Hr & Hrest).
  simpl in Hnd. apply NoDup_cons in Hnd as [Hnotin Hnd].
  apply NoDup_cons. split; [|by eapply IH].
  intros Hin. apply list_elem_of_lookup in Hin as [i Hi].
  destruct (deref_lookup _ _ _ _ _ Hrest Hi) as (o' & Hls & Hobj).
  assert (o' = o) as -> by congruence.
  apply Hnotin. apply list_elem_of_lookup. exists i.
  by rewrite list_lookup_fmap, Hls.
Qed.

(** A write to the object at element [i] of an array without repeated
    elements is seen at line [i] and nowhere else. *)
Lemma deref_write objs elems ls i r o' :
  deref objs elems = Some ls -> NoDup elems -> elems !! i = Some r ->
  deref (<[r := o']> objs) elems = Some (<[i := o']> ls).
Proof.
  unfold deref. rewrite !mapM_Some. intros H Hnd Hi.
  apply Forall2_same_length_lookup. split.
  - rewrite length_insert. by eapply Forall2_length.
  - intros j r' o'' Hj Hls.
    destruct (Forall2_lookup_l _ _ _ _ _ H Hj) as (o & Ho & Hobj).
    destruct (decide (j = i)) as [->|Hne].
    + assert (r' = r) as -> by congruence.
      rewrite list_lookup_insert_eq in Hls by (by eapply lookup_lt_Some).
      rewrite list_lookup_insert_eq by (by eapply lookup_lt_Some). done.
    + rewrite list_lookup_insert_ne in Hls by done.
      rewrite list_lookup_insert_ne; [by simplify_eq|].
      intros <-. apply Hne. eapply NoDup_lookup; eauto.
Qed.

(** ** The array methods, run on a store where every element is an object *)

Ltac run_with H := rewrite (bind_Return _ _ _ _ _ H).
Ltac run_refl := erewrite bind_Return by reflexivity.

Lemma array_find_run callback (pred : CartItem.t -> bool) elems s ls :
  (forall r o, cartItemObjs s !! r = Some o -> callback r s = (Return (pred o), s)) ->
  deref (cartItemObjs s) elems = Some ls ->
  exists res, array_find callback elems s = (Return res, s) /\
    match res with
    | Some r =>
        exists i o, elems !! i = Some r /\ ls !! i = Some o /\ pred o = true /\
          forall j o', (j < i)%nat -> ls !! j = Some o' -> pred o' = false
    | None => Forall (fun o => pred o = false) ls
    end.
Proof.
  intros Hcb. revert ls. induction elems as [|r elems IH]; intros ls H.
  - exists None. split; [done|]. injection H as <-. constructor.
  - apply deref_cons in H as (o & ls' & -> & Hr & Hrest).
    cbn [array_find]. run_with (Hcb _ _ Hr).
    destruct (pred o) eqn:Hp.
    + exists (Some r). split; [done|]. exists 0%nat, o.
      repeat split; try done. intros; lia.
    + destruct (IH _ Hrest) as (res & Hrun & Hres).
      exists res. split; [done|]. destruct res as [r'|].
      * destruct Hres as (i & o' & Hi & Hls & Hpo & Hbefore).
        exists (S i), o'. repeat split; try done.
        intros [|j] o'' Hlt Hj; simpl in Hj.
        -- by injection Hj as <-.
        -- apply (Hbefore j); [lia | done].
      * by constructor.
Qed.

Lemma array_filter_run callback (pred : CartItem.t -> bool) elems s ls :
  (forall r o, cartItemObjs s !! r = Some o -> callback r s = (Return (pred o), s)) ->
  deref (cartItemObjs s) elems = Some ls ->
  exists kept, array_filter callback elems s = (Return kept, s) /\
    deref (cartItemObjs s) kept = Some (List.filter pred ls) /\
    (forall r, r ∈ kept -> r ∈ elems).
Proof.
  intros Hcb. revert ls. induction elems as [|r elems IH]; intros ls H.
  - exists []. split; [done|]. split; [by injection H as <- | done].
  - apply deref_cons in H as (o & ls' & -> & Hr & Hrest).
    destruct (IH _ Hrest) as (kept & Hrun & Hkept & Hsub).
    cbn [array_filter]. run_with (Hcb _ _ Hr). run_with Hrun.
    eexists. split; [reflexivity|]. cbn [List.filter].
    destruct (pred o).
    + split; [apply deref_cons; eauto|].
      intros r' [->|Hin]%elem_of_cons; [left | right; auto].
    + split; [done|]. intros r' Hin. right. auto.
Qed.

Lemma array_reduce_run {B} callback (f : B -> CartItem.t -> B) elems s ls acc :
  (forall acc r o, cartItemObjs s !! r = Some o -> callback acc r s = (Return (f acc o), s)) ->
  deref (cartItemObjs s) elems = Some ls ->
  array_reduce callback elems acc s = (Return (List.fold_left f ls acc), s).
Proof.
  intros Hcb. revert ls acc. induction elems as [|r elems IH]; intros ls acc H.
  - by injection H as <-.
  - apply deref_cons in H as (o & ls' & -> & Hr & Hrest).
    cbn [array_reduce]. run_with (Hcb acc _ _ Hr).
    by rewrite (IH _ _ Hrest).
Qed.

(** The callbacks of the source only read. *)
Lemma same_id_callback_run s cartItem n r o :
  cartItemObjs s !! cartItem = Some n -> cartItemObjs s !! r = Some o ->
  (p ← get_product r; q ← get_product cartItem;
   mret (strict_eq (Product.id p) (Product.id q))) s
  = (Return (strict_eq (line_id o) (line_id n)), s).
Proof.
  intros Hn Hr. run_with (get_product_run _ _ _ Hr).
  by run_with (get_product_run _ _ _ Hn).
Qed.

Lemma id_callback_run (test : JsId -> bool) s r o :
  cartItemObjs s !! r = Some o ->
  (p ← get_product r; mret (test (Product.id p))) s
  = (Return (test (line_id o)), s).
Proof. intros Hr. by run_with (get_product_run _ _ _ Hr). Qed.

(** ** Lists of lines *)

Lemma NoDup_line_id_lookup (ls : list CartItem.t) i j o o' :
  NoDup (line_id <$> ls) -> ls !! i = Some o -> ls !! j = Some o' ->
  line_id o = line_id o' -> i = j.
Proof.
  intros Hnd Hi Hj Heq.
  eapply NoDup_lookup; [exact Hnd| |].
  - by rewrite list_lookup_fmap, Hi.
  - rewrite list_lookup_fmap, Hj. simpl. by rewrite Heq.
Qed.

(** The first line that [find] selects by identifier is the only one. *)
Lemma find_result_unique (ls : list CartItem.t) pid i o res (elems : list ref) :
  NoDup (line_id <$> ls) -> ls !! i = Some o -> line_id o = pid ->
  match res with
  | Some r =>
      exists i' o', elems !! i' = Some r /\ ls !! i' = Some o' /\
        strict_eq (line_id o') pid = true /\
        forall j o'', (j < i')%nat -> ls !! j = Some o'' -> strict_eq (line_id o'') pid = false
  | None => Forall (fun o => strict_eq (line_id o) pid = false) ls
  end ->
  exists r, res = Some r /\ elems !! i = Some r.
Proof.
  intros Hnd Hi Hid Hres. destruct res as [r|].
  - destruct Hres as (i' & o' & Hel & Hls & Hp & _).
    apply strict_eq_true in Hp.
    assert (i = i') as -> by (eapply NoDup_line_id_lookup; eauto; congruence).
    eauto.
  - rewrite Forall_lookup in Hres. specialize (Hres _ _ Hi).
    apply strict_eq_false in Hres. done.
Qed.

Lemma filter_insert_dropped {A} (f : A -> bool) (l : list A) i x y :
  l !! i = Some x -> f x = false -> f y = false ->
  List.filter f (<[i := y]> l) = List.filter f l.
Proof.
  revert i. induction l as [|a l IH]; intros [|i] Hi Hx Hy; simpl in *; try done.
  - injection Hi as ->. by rewrite Hx, Hy.
  - by rewrite (IH i).
Qed.

Lemma filter_all_kept {A} (f : A -> bool) (l : list A) :
  Forall (fun x => f x = true) l -> List.filter f l = l.
Proof.
  induction 1 as [|x l Hx _ IH]; simpl; [done|]. by rewrite Hx, IH.
Qed.

(** With unique identifiers, filtering out an identifier deletes the one
    line that carries it. *)
Lemma filter_neq_delete (ls : list CartItem.t) pid i o :
  NoDup (line_id <$> ls) -> ls !! i = Some o -> line_id o = pid ->
  List.filter (fun item => strict_neq (line_id item) pid) ls = delete i ls.
Proof.
  revert i. induction ls as [|a ls IH]; intros [|i] Hnd Hi Hid; simpl in *; try done.
  - injection Hi as ->. apply NoDup_cons in Hnd as [Hnotin _].
    replace (strict_neq (line_id o) pid) with false
      by (symmetry; by apply strict_neq_false).
    apply filter_all_kept. apply Forall_forall. intros x Hx.
    apply strict_neq_true. intros Heq. apply Hnotin.
    apply list_elem_of_fmap. exists x. split; [congruence | done].
  - apply NoDup_cons in Hnd as [Hnotin Hnd].
    replace (strict_neq (line_id a) pid) with true.
    + f_equal. by apply IH.
    + symmetry. apply strict_neq_true. intros Heq. apply Hnotin.
      apply list_elem_of_fmap. exists o. split; [congruence|].
      by eapply list_elem_of_lookup_2.
Qed.

Lemma insert_last {A} (l : list A) (x y : A) :
  <[length l := y]> (l ++ [x]) = l ++ [y].
Proof.
  rewrite insert_app_r_alt by lia. by rewrite Nat.sub_diag.
Qed.

Lemma NoDup_snoc_fresh (ls : list CartItem.t) n :
  NoDup (line_id <$> ls) -> Forall (fun o => line_id o <> line_id n) ls ->
  NoDup (line_id <$> ls ++ [n]).
Proof.
  intros Hnd Hfresh. rewrite fmap_app. apply NoDup_app. split; [done|]. split.
  - intros x Hx Hx'. apply list_elem_of_fmap in Hx as (o & -> & Ho).
    apply list_elem_of_singleton in Hx'.
    rewrite Forall_forall in Hfresh. by apply (Hfresh o).
  - apply NoDup_singleton.
Qed.

(** ** The cart repository, method by method *)

Lemma cart_lines_Some s ls :
  cart_lines s = Some ls <->
  exists elems, arrayObjs s !! items s = Some elems /\
                deref (cartItemObjs s) elems = Some ls.
Proof. apply lines_of_Some. Qed.

(** [addItem] when a line with the identifier of the new item exists. *)
Lemma addItem_existing s ls cartItem n i o :
  cart_lines s = Some ls -> NoDup (line_id <$> ls) ->
  cartItemObjs s !! cartItem = Some n ->
  ls !! i = Some o -> line_id o = line_id n ->
  exists s',
    CartRepository.addItem cartItem s = (Return tt, s') /\
    cart_lines s' =
      Some (<[i := CartItem.mk (CartItem.product o) (CartItem.quantity o + 1)]> ls) /\
    items s' = items s /\ products s' = products s /\ arrayObjs s' = arrayObjs s /\
    exists r, cart_elems s !! i = Some r /\
      cartItemObjs s' =
        <[r := CartItem.mk (CartItem.product o) (CartItem.quantity o + 1)]> (cartItemObjs s).
Proof.
  intros Hls Hnd Hn Hi Hid.
  apply cart_lines_Some in Hls as (elems & Harr & Hderef).
  destruct (array_find_run
              (fun item => p ← get_product item; q ← get_product cartItem;
                           mret (strict_eq (Product.id p) (Product.id q)))
              (fun o => strict_eq (line_id o) (line_id n))
              elems s ls (fun r o => same_id_callback_run s cartItem n r o Hn) Hderef)
    as (res & Hfind & Hres).
  destruct (find_result_unique ls (line_id n) i o res elems Hnd Hi Hid Hres)
    as (r & -> & Hr).
  destruct (deref_lookup _ _ _ _ _ Hderef Hr) as (o' & Ho' & Hobj).
  assert (o' = o) as -> by congruence.
  unfold CartRepository.addItem.
  run_refl. run_with (read_array_run _ _ _ Harr). run_with Hfind.
  run_with (get_quantity_run _ _ _ Hobj).
  unfold set_quantity. rewrite Hobj.
  eexists. split; [reflexivity|].
  split; [|do 3 (split; [reflexivity|])].
  - apply cart_lines_Some. exists elems. cbn [arrayObjs items cartItemObjs].
    split; [done|].
    apply deref_write; [done | by eapply deref_NoDup | done].
  - exists r. unfold cart_elems. rewrite Harr. done.
Qed.

(** [addItem] when no line has the identifier of the new item. *)
Lemma addItem_fresh s ls cartItem n :
  cart_lines s = Some ls ->
  cartItemObjs s !! cartItem = Some n ->
  Forall (fun o => line_id o <> line_id n) ls ->
  exists s',
    CartRepository.addItem cartItem s = (Return tt, s') /\
    cart_lines s' = Some (ls ++ [n]) /\
    items s' = items s /\ products s' = products s /\
    cartItemObjs s' = cartItemObjs s /\
    arrayObjs s' = <[items s := cart_elems s ++ [cartItem]]> (arrayObjs s).
Proof.
  intros Hls Hn Hfresh.
  apply cart_lines_Some in Hls as (elems & Harr & Hderef).
  destruct (array_find_run
              (fun item => p ← get_product item; q ← get_product cartItem;
                           mret (strict_eq (Product.id p) (Product.id q)))
              (fun o => strict_eq (line_id o) (line_id n))
              elems s ls (fun r o => same_id_callback_run s cartItem n r o Hn) Hderef)
    as (res & Hfind & Hres).
  assert (res = None) as ->.
  { destruct res as [r|]; [|done].
    destruct Hres as (i & o & _ & Hi & Hp & _).
    apply strict_eq_true in Hp. rewrite Forall_lookup in Hfresh.
    by destruct (Hfresh _ _ Hi). }
  unfold CartRepository.addItem.
  run_refl. run_with (read_array_run _ _ _ Harr). run_with Hfind.
  unfold push. rewrite Harr.
  eexists. split; [reflexivity|].
  split; [|do 3 (split; [reflexivity|])].
  - apply cart_lines_Some. exists (elems ++ [cartItem]).
    cbn [arrayObjs items cartItemObjs]. split.
    + apply list_lookup_insert_eq. by eapply lookup_lt_Some.
    + apply deref_app; [done|]. unfold deref. simpl. by rewrite Hn.
  - unfold cart_elems. by rewrite Harr.
Qed.

(** ** Frames: what an operation leaves alone *)

Lemma extends_refl s : extends s s.
Proof. split; auto. Qed.

Lemma extends_trans s1 s2 s3 : extends s1 s2 -> extends s2 s3 -> extends s1 s3.
Proof.
  intros [Ho1 Ha1 Harr1 Hobj1 Hel1 Hit1] [Ho2 Ha2 Harr2 Hobj2 Hel2 Hit2].
  split.
  - lia.
  - lia.
  - intros b Hb Hne. rewrite Harr2; [by apply Harr1 | lia |].
    destruct Hit1 as [-> | Hge]; [done | lia].
  - intros r Hr Hnotin. rewrite Hobj2; [by apply Hobj1 | lia |].
    intros Hin. destruct (Hel1 _ Hin); [done | lia].
  - intros r Hin. destruct (Hel2 _ Hin) as [Hin1 | Hge]; [|right; lia].
    destruct (Hel1 _ Hin1); [by left | by right].
  - destruct Hit2 as [-> | Hge]; [done | right; lia].
Qed.

(** The cart keeps its array and the elements of it. *)
Lemma extends_same_cart s s' :
  arrayObjs s' = arrayObjs s -> items s' = items s ->
  (length (cartItemObjs s) <= length (cartItemObjs s'))%nat ->
  (forall r, (r < length (cartItemObjs s))%nat -> r ∉ cart_elems s ->
             cartItemObjs s' !! r = cartItemObjs s !! r) ->
  extends s s'.
Proof.
  intros Harr Hit Hlen Hobjs.
  assert (cart_elems s' = cart_elems s) as Hel
      by (unfold cart_elems; by rewrite Harr, Hit).
  split; try done.
  - by rewrite Harr.
  - intros b _ _. by rewrite Harr.
  - intros r. rewrite Hel. by left.
  - by left.
Qed.

(** The cart pushes a new object on its array. *)
Lemma extends_push s s' o :
  cartItemObjs s' = cartItemObjs s ++ [o] -> items s' = items s ->
  arrayObjs s' = <[items s := cart_elems s ++ [length (cartItemObjs s)]]> (arrayObjs s) ->
  extends s s'.
Proof.
  intros Hobjs Hit Harr. split.
  - rewrite Hobjs, length_app. lia.
  - by rewrite Harr, length_insert.
  - intros b _ Hne. rewrite Harr. by apply list_lookup_insert_ne.
  - intros r Hr _. rewrite Hobjs. by apply lookup_app_l.
  - intros r. unfold cart_elems at 1. rewrite Hit, Harr.
    destruct (decide (items s < length (arrayObjs s))%nat) as [Hlt|Hge].
    + rewrite list_lookup_insert_eq by done. simpl.
      intros [Hin | ->%list_elem_of_singleton]%elem_of_app; [by left | by right].
    + rewrite list_insert_ge by lia. fold (cart_elems s). by left.
  - by left.
Qed.

(** The cart installs a new array with some of its elements. *)
Lemma extends_new_array s s' kept :
  cartItemObjs s' = cartItemObjs s ->
  arrayObjs s' = arrayObjs s ++ [kept] -> items s' = length (arrayObjs s) ->
  (forall r, r ∈ kept -> r ∈ cart_elems s) ->
  extends s s'.
Proof.
  intros Hobjs Harr Hit Hsub. split.
  - by rewrite Hobjs.
  - rewrite Harr, length_app. lia.
  - intros b Hb _. rewrite Harr. by apply lookup_app_l.
  - intros r _ _. by rewrite Hobjs.
  - intros r. unfold cart_elems at 1. rewrite Hit, Harr, list_lookup_middle by done.
    simpl. intros Hin. left. by apply Hsub.
  - right. rewrite Hit. lia.
Qed.

(** An array that is not the one of the cart and shares no element with it
    keeps its contents across an extension, and stays apart from the cart. *)
Lemma extends_detached s s' a snap ls :
  extends s s' ->
  arrayObjs s !! a = Some snap -> a <> items s ->
  deref (cartItemObjs s) snap = Some ls ->
  (forall r, r ∈ snap -> r ∉ cart_elems s) ->
  arrayObjs s' !! a = Some snap /\ a <> items s' /\
  deref (cartItemObjs s') snap = Some ls /\
  (forall r, r ∈ snap -> r ∉ cart_elems s').
Proof.
  intros [Ho Ha Harr Hobj Hel Hit] Hsnap Hne Hderef Hdisj.
  pose proof (lookup_lt_Some _ _ _ Hsnap) as Hlt.
  assert (forall r, r ∈ snap -> (r < length (cartItemObjs s))%nat) as Hvalid.
  { intros r [i Hi]%list_elem_of_lookup_1.
    destruct (deref_lookup _ _ _ _ _ Hderef Hi) as (o & _ & Hr).
    by eapply lookup_lt_Some. }
  split; [by rewrite Harr|]. split; [|split].
  - destruct Hit as [-> | Hge]; [done | lia].
  - unfold deref in *. rewrite mapM_Some in *.
    apply Forall2_same_length_lookup. split; [by eapply Forall2_length|].
    intros i r o Hi Hls.
    destruct (Forall2_lookup_l _ _ _ _ _ Hderef Hi) as (o' & Ho' & Hr).
    assert (r ∈ snap) as Hin by (by eapply list_elem_of_lookup_2).
    rewrite Hobj; [by simplify_eq | by apply Hvalid | by apply Hdisj].
  - intros r Hin Hin'. destruct (Hel _ Hin') as [Hold | Hge].
    + by apply (Hdisj r).
    + specialize (Hvalid _ Hin). lia.
Qed.

(** [new CartItem(p)] allocates; the cart does not see the new object yet. *)
Lemma new_CartItem_run s p :
  exists s',
    CartItemClass.new p None s = (Return (length (cartItemObjs s)), s') /\
    cartItemObjs s' = cartItemObjs s ++ [CartItem.mk p 1] /\
    arrayObjs s' = arrayObjs s /\ items s' = items s /\ products s' = products s.
Proof. eexists. split; [reflexivity|]. done. Qed.

Lemma cart_lines_alloc_item s s' o ls :
  cartItemObjs s' = cartItemObjs s ++ [o] ->
  arrayObjs s' = arrayObjs s -> items s' = items s ->
  cart_lines s = Some ls -> cart_lines s' = Some ls.
Proof.
  intros Hobjs Harrs Hit. rewrite !cart_lines_Some.
  intros (elems & Harr & Hderef). exists elems.
  rewrite Hobjs, Harrs, Hit. split; [done|]. by apply deref_alloc.
Qed.

Lemma add_new_existing s ls p i o :
  cart_lines s = Some ls -> NoDup (line_id <$> ls) ->
  ls !! i = Some o -> line_id o = Product.id p ->
  exists s',
    add_new p s = (Return tt, s') /\
    cart_lines s' =
      Some (<[i := CartItem.mk (CartItem.product o) (CartItem.quantity o + 1)]> ls) /\
    products s' = products s /\ extends s s'.
Proof.
  intros Hls Hnd Hi Hid.
  destruct (new_CartItem_run s p) as (s1 & Hnew & Hobjs & Harrs & Hit & Hps).
  pose proof (cart_lines_alloc_item _ _ _ _ Hobjs Harrs Hit Hls) as Hls1.
  assert (cartItemObjs s1 !! length (cartItemObjs s) = Some (CartItem.mk p 1)) as Hn.
  { rewrite Hobjs. by apply list_lookup_middle. }
  destruct (addItem_existing s1 ls _ _ i o Hls1 Hnd Hn Hi Hid)
    as (s' & Hrun & Hls' & Hit' & Hps' & Harrs' & r & Hr & Hobjs').
  exists s'. unfold add_new. run_with Hnew.
  split; [done|]. split; [done|]. split; [congruence|].
  assert (cart_elems s1 = cart_elems s) as Hel
      by (unfold cart_elems; by rewrite Harrs, Hit).
  rewrite Hel in Hr.
  apply extends_same_cart; [congruence | congruence | |].
  - rewrite Hobjs', length_insert, Hobjs, length_app. lia.
  - intros r' Hr' Hnotin. rewrite Hobjs', Hobjs.
    rewrite list_lookup_insert_ne; [by apply lookup_app_l|].
    intros ->. apply Hnotin. by eapply list_elem_of_lookup_2.
Qed.

Lemma add_new_fresh s ls p :
  cart_lines s = Some ls ->
  Forall (fun o => line_id o <> Product.id p) ls ->
  exists s',
    add_new p s = (Return tt, s') /\
    cart_lines s' = Some (ls ++ [CartItem.mk p 1]) /\
    products s' = products s /\ extends s s'.
Proof.
  intros Hls Hfresh.
  destruct (new_CartItem_run s p) as (s1 & Hnew & Hobjs & Harrs & Hit & Hps).
  pose proof (cart_lines_alloc_item _ _ _ _ Hobjs Harrs Hit Hls) as Hls1.
  assert (cartItemObjs s1 !! length (cartItemObjs s) = Some (CartItem.mk p 1)) as Hn.
  { rewrite Hobjs. by apply list_lookup_middle. }
  destruct (addItem_fresh s1 ls _ _ Hls1 Hn Hfresh)
    as (s' & Hrun & Hls' & Hit' & Hps' & Hobjs' & Harrs').
  exists s'. unfold add_new. run_with Hnew.
  split; [done|]. split; [done|]. split; [congruence|].
  assert (cart_elems s1 = cart_elems s) as Hel
      by (unfold cart_elems; by rewrite Harrs, Hit).
  apply (extends_push s s' (CartItem.mk p 1)); [congruence | congruence |].
  by rewrite Harrs', Hel, Hit, Harrs.
Qed.

(** [removeItem]: a new array with the lines of another identifier, in the
    order they had; the objects and the older arrays stay as they were. *)
Lemma removeItem_run s ls productId :
  cart_lines s = Some ls ->
  exists s',
    CartRepository.removeItem productId s = (Return tt, s') /\
    cart_lines s' =
      Some (List.filter (fun item => strict_neq (line_id item) productId) ls) /\
    products s' = products s /\ cartItemObjs s' = cartItemObjs s /\
    items s' = length (arrayObjs s) /\
    exists kept, arrayObjs s' = arrayObjs s ++ [kept] /\
                 forall r, r ∈ kept -> r ∈ cart_elems s.
Proof.
  intros Hls. apply cart_lines_Some in Hls as (elems & Harr & Hderef).
  destruct (array_filter_run
              (fun item => p ← get_product item; mret (strict_neq (Product.id p) productId))
              (fun o => strict_neq (line_id o) productId)
              elems s ls
              (fun r o => id_callback_run (fun i => strict_neq i productId) s r o) Hderef)
    as (kept & Hfilter & Hkept & Hsub).
  unfold CartRepository.removeItem.
  run_refl. run_with (read_array_run _ _ _ Harr). run_with Hfilter.
  eexists. split; [reflexivity|].
  cbn [products cartItemObjs arrayObjs items].
  split; [|do 3 (split; [reflexivity|])].
  - apply cart_lines_Some. exists kept. cbn [arrayObjs items cartItemObjs].
    split; [by apply list_lookup_middle | done].
  - exists kept. split; [done|]. unfold cart_elems. by rewrite Harr.
Qed.

(** [updateQuantity] on an identifier without a line: nothing happens. *)
Lemma updateQuantity_absent s ls productId delta :
  cart_lines s = Some ls ->
  Forall (fun o => line_id o <> productId) ls ->
  CartRepository.updateQuantity productId delta s = (Return tt, s).
Proof.
  intros Hls Habs. apply cart_lines_Some in Hls as (elems & Harr & Hderef).
  destruct (array_find_run
              (fun item => p ← get_product item; mret (strict_eq (Product.id p) productId))
              (fun o => strict_eq (line_id o) productId)
              elems s ls
              (fun r o => id_callback_run (fun i => strict_eq i productId) s r o) Hderef)
    as (res & Hfind & Hres).
  assert (res = None) as ->.
  { destruct res as [r|]; [|done].
    destruct Hres as (i & o & _ & Hi & Hp & _).
    apply strict_eq_true in Hp. rewrite Forall_lookup in Habs.
    by destruct (Habs _ _ Hi). }
  unfold CartRepository.updateQuantity.
  run_refl. run_with (read_array_run _ _ _ Harr). by run_with Hfind.
Qed.

(** [updateQuantity] on the identifier of line [i]: the quantity of that
    line becomes [quantity + delta]; when that is not positive the line is
    filtered out. *)
Lemma updateQuantity_found s ls productId delta i o :
  cart_lines s = Some ls -> NoDup (line_id <$> ls) ->
  ls !! i = Some o -> line_id o = productId ->
  exists s',
    CartRepository.updateQuantity productId delta s = (Return tt, s') /\
    cart_lines s' =
      Some (if CartItem.quantity o + delta <=? 0
            then delete i ls
            else <[i := CartItem.mk (CartItem.product o) (CartItem.quantity o + delta)]> ls) /\
    products s' = products s /\ extends s s'.
Proof.
  intros Hls Hnd Hi Hid.
  pose proof Hls as Hls0.
  apply cart_lines_Some in Hls as (elems & Harr & Hderef).
  destruct (array_find_run
              (fun item => p ← get_product item; mret (strict_eq (Product.id p) productId))
              (fun o => strict_eq (line_id o) productId)
              elems s ls
              (fun r o => id_callback_run (fun i => strict_eq i productId) s r o) Hderef)
    as (res & Hfind & Hres).
  destruct (find_result_unique ls productId i o res elems Hnd Hi Hid Hres)
    as (r & -> & Hr).
  destruct (deref_lookup _ _ _ _ _ Hderef Hr) as (o' & Ho' & Hobj).
  assert (o' = o) as -> by congruence.
  set (o2 := CartItem.mk (CartItem.product o) (CartItem.quantity o + delta)).
  set (s1 := mkState (<[r := o2]> (cartItemObjs s)) (arrayObjs s) (products s) (items s)).
  assert (set_quantity r (CartItem.quantity o + delta) s = (Return tt, s1)) as Hwrite.
  { unfold set_quantity. by rewrite Hobj. }
  assert (cartItemObjs s1 !! r = Some o2) as Hobj1.
  { apply list_lookup_insert_eq. by eapply lookup_lt_Some. }
  assert (cart_lines s1 = Some (<[i := o2]> ls)) as Hls1.
  { apply cart_lines_Some. exists elems. split; [done|].
    apply deref_write; [done | by eapply deref_NoDup | done]. }
  unfold CartRepository.updateQuantity.
  run_refl. run_with (read_array_run _ _ _ Harr). run_with Hfind.
  run_with (get_quantity_run _ _ _ Hobj). run_with Hwrite.
  run_with (get_quantity_run _ _ _ Hobj1).
  cbn [CartItem.quantity o2].
  assert (extends s s1) as Hext1.
  { apply extends_same_cart; [done | done | |].
    - cbn [s1 cartItemObjs]. by rewrite length_insert.
    - intros r' _ Hnotin. cbn [s1 cartItemObjs].
      apply list_lookup_insert_ne. intros ->. apply Hnotin.
      unfold cart_elems. rewrite Harr. by eapply list_elem_of_lookup_2. }
  destruct (CartItem.quantity o + delta <=? 0) eqn:Hle.
  - destruct (removeItem_run s1 _ productId Hls1)
      as (s' & Hrun & Hls' & Hps & Hobjs' & Hit' & kept & Harrs' & Hsub).
    exists s'. split; [done|]. split; [|split; [done|]].
    + rewrite Hls'. f_equal.
      rewrite (filter_insert_dropped _ ls i o o2 Hi).
      * by apply filter_neq_delete with o.
      * by apply strict_neq_false.
      * by apply strict_neq_false.
    + apply (extends_trans _ s1); [done|].
      by apply (extends_new_array s1 s' kept).
  - exists s1. done.
Qed.

Lemma getTotal_run s ls :
  cart_lines s = Some ls ->
  CartRepository.getTotal s =
    (Return (lines_total ls), s).
Proof.
  intros Hls. apply cart_lines_Some in Hls as (elems & Harr & Hderef).
  unfold CartRepository.getTotal, lines_total.
  run_refl. run_with (read_array_run _ _ _ Harr).
  apply array_reduce_run; [|done].
  intros acc r o Hr. by run_with (total_run _ _ _ Hr).
Qed.

Lemma getItemCount_run s ls :
  cart_lines s = Some ls ->
  CartRepository.getItemCount s =
    (Return (List.fold_left (fun count item => count + CartItem.quantity item) ls 0), s).
Proof.
  intros Hls. apply cart_lines_Some in Hls as (elems & Harr & Hderef).
  unfold CartRepository.getItemCount.
  run_refl. run_with (read_array_run _ _ _ Harr).
  apply array_reduce_run; [|done].
  intros acc r o Hr. by run_with (get_quantity_run _ _ _ Hr).
Qed.

(** [clear] installs a new empty array and touches nothing that exists. *)
Lemma clear_run s :
  CartRepository.clear s =
    (Return tt,
     mkState (cartItemObjs s) (arrayObjs s ++ [[]]) (products s) (length (arrayObjs s))).
Proof. reflexivity. Qed.

Lemma cart_lines_clear s :
  cart_lines (snd (CartRepository.clear s)) = Some [].
Proof.
  rewrite clear_run. apply cart_lines_Some. exists [].
  cbn [snd arrayObjs items cartItemObjs]. split; [by apply list_lookup_middle | done].
Qed.

Lemma clear_extends s : extends s (snd (CartRepository.clear s)).
Proof.
  rewrite clear_run. apply (extends_new_array _ _ []); [done ..|].
  intros r Hr. by apply elem_of_nil in Hr.
Qed.

(** An array that exists before [clear] has the same contents after it. *)
Lemma lines_of_clear s a ls :
  lines_of s a = Some ls -> lines_of (snd (CartRepository.clear s)) a = Some ls.
Proof.
  rewrite clear_run, !lines_of_Some. cbn [snd arrayObjs cartItemObjs].
  intros (elems & Harr & Hderef). exists elems. split; [|done].
  by apply lookup_app_l_Some.
Qed.

(** [checkout] reads the array reference and the total, then clears. *)
Lemma checkout_run s ls :
  cart_lines s = Some ls ->
  ShoppingCartUseCase.checkout s =
    (Return (items s, lines_total ls),
     snd (CartRepository.clear s)).
Proof.
  intros Hls. unfold ShoppingCartUseCase.checkout.
  run_refl. run_with (getTotal_run _ _ Hls). by rewrite clear_run.
Qed.

Lemma getById_run s productId :
  ProductRepository.getById productId s =
    (Return (List.find (fun p => strict_eq (Product.id p) productId) (products s)), s).
Proof. reflexivity. Qed.

(** ** Rounding *)

Lemma round_double_proper x y : (x == y)%Q -> round_double x = round_double y.
Proof. intros Hxy. unfold round_double. by rewrite (Qred_complete _ _ Hxy). Qed.

Example round_double_samples :
  round_double (1 # 10) = tenth /\
  js_mul tenth 3 = 1351079888211149 # 4503599627370496 /\
  js_add tenth (round_double (2 # 10)) = 1351079888211149 # 4503599627370496 /\
  js_add (js_add (js_add 0 tenth) (round_double (2 # 10))) (round_double (3 # 10))
    = 1351079888211149 # 2251799813685248 /\
  js_add (js_mul tenth 5) tenth = 5404319552844595 # 9007199254740992 /\
  js_mul tenth 6 = 1351079888211149 # 2251799813685248 /\
  round_double (3 # 10) = 5404319552844595 # 18014398509481984 /\
  round_double (inject_Z (2 ^ 53 + 1)) = inject_Z (2 ^ 53) /\
  round_double (inject_Z (2 ^ 53 + 3)) = inject_Z (2 ^ 53 + 4) /\
  round_double (- (7 # 2))%Q = (- (7 # 2))%Q /\
  round_double (3 # Z.to_pos (2 ^ 1075)) = 1 # Z.to_pos (2 ^ 1073) /\
  round_double (1 # Z.to_pos (2 ^ 1075)) = 0%Q.
Proof. vm_compute. repeat split. Qed.

(** ** Aggregates *)

Lemma fold_left_total_exact ls : forall acc acc',
  (acc' == acc)%Q -> exact_from acc ls ->
  (List.fold_left (fun sum item => js_add sum (CartItem.total item)) ls acc'
   == acc + spec_total ls)%Q.
Proof.
  induction ls as [|o ls IH]; intros acc acc' Hacc Hexact; simpl.
  - rewrite Hacc. ring.
  - destruct Hexact as (Hline & Hsum & Hrest).
    rewrite (IH (acc + Product.price (CartItem.product o)
                       * inject_Z (CartItem.quantity o))%Q); [ring| |exact Hrest].
    unfold js_add, CartItem.total, js_mul. unfold is_double in Hline, Hsum.
    rewrite (round_double_proper _
               (acc + Product.price (CartItem.product o)
                      * inject_Z (CartItem.quantity o))%Q); [exact Hsum|].
    by rewrite Hacc, Hline.
Qed.

Lemma lines_total_exact ls :
  exact_from 0 ls -> (lines_total ls == spec_total ls)%Q.
Proof.
  intros Hexact. unfold lines_total.
  rewrite (fold_left_total_exact ls 0%Q 0%Q); [ring|reflexivity|exact Hexact].
Qed.

Lemma lines_total_snoc ls o :
  lines_total (ls ++ [o]) = js_add (lines_total ls) (CartItem.total o).
Proof. unfold lines_total. by rewrite fold_left_app. Qed.

Lemma fold_left_itemCount ls acc :
  List.fold_left (fun count item => count + CartItem.quantity item) ls acc
  = acc + spec_itemCount ls.
Proof.
  revert acc. induction ls as [|o ls IH]; intros acc; simpl.
  - lia.
  - rewrite IH. lia.
Qed.

(** ** Totals and counts *)

(** C5, amended: in every cart state [total()] is the sum over the current
    lines of price × quantity in the arithmetic of doubles: every product
    and, in the order of the lines from 0, every partial sum is rounded to
    the nearest double. It is the exact sum when no step rounds.
    [itemCount()] is the sum of the quantities of the lines (units, not
    lines); neither call changes the state, and both results are 0 when the
    cart has no line. *)
Theorem total_is_rounded_sum_and_itemCount_is_sum s ls :
  cart_lines s = Some ls ->
  CartRepository.getTotal s =
    (Return (List.fold_left
               (fun sum item =>
                  js_add sum (js_mul (Product.price (CartItem.product item))
                                     (inject_Z (CartItem.quantity item))))
               ls 0%Q), s) /\
  (exact_from 0 ls -> (lines_total ls == spec_total ls)%Q) /\
  CartRepository.getItemCount s = (Return (spec_itemCount ls), s) /\
  (ls = [] -> lines_total ls = 0%Q /\ spec_itemCount ls = 0).
Proof.
  intros Hls. split; [by apply getTotal_run|].
  split; [apply lines_total_exact|]. split.
  - by rewrite (getItemCount_run _ _ Hls), fold_left_itemCount.
  - by intros ->.
Qed.

(** On the cart with two units of product 1 (10.00) and one of product 2
    (5.00) no step rounds: the total is 25 and the count is 3, for 2
    lines. *)
Lemma total_is_rounded_sum_and_itemCount_is_sum_witness :
  cart_lines cart_two_lines =
    Some [CartItem.mk product1 2; CartItem.mk product2 1] /\
  exact_from 0 [CartItem.mk product1 2; CartItem.mk product2 1] /\
  CartRepository.getTotal cart_two_lines = (Return (25 # 1)%Q, cart_two_lines) /\
  (lines_total [CartItem.mk product1 2; CartItem.mk product2 1]
   == spec_total [CartItem.mk product1 2; CartItem.mk product2 1])%Q /\
  CartRepository.getItemCount cart_two_lines = (Return 3, cart_two_lines).
Proof.
  assert (cart_lines cart_two_lines =
            Some [CartItem.mk product1 2; CartItem.mk product2 1]) as H
    by (vm_compute; reflexivity).
  assert (exact_from 0 [CartItem.mk product1 2; CartItem.mk product2 1]) as Hexact
    by (vm_compute; repeat split).
  destruct (total_is_rounded_sum_and_itemCount_is_sum _ _ H) as (Ht & Hsum & Hc & _).
  split; [exact H|]. split; [exact Hexact|].
  split; [exact Ht|]. split; [exact (Hsum Hexact)|exact Hc].
Defined.

(** C5 as it is stated fails on a cart with three units at 0.1: the code
    returns 0.30000000000000004, the double nearest to the product, and
    the product itself is no double. *)
Lemma total_is_not_the_exact_sum :
  cart_lines cart_three_tenths = Some [CartItem.mk product3 3] /\
  CartRepository.getTotal cart_three_tenths
    = (Return (1351079888211149 # 4503599627370496)%Q, cart_three_tenths) /\
  ~ (1351079888211149 # 4503599627370496 == spec_total [CartItem.mk product3 3])%Q.
Proof.
  split; [vm_compute; reflexivity|]. split; [vm_compute; reflexivity|].
  vm_compute. discriminate.
Qed.

Example total_of_two_lines :
  fst (CartRepository.getTotal cart_two_lines) = Return (25 # 1)%Q /\
  fst (CartRepository.getItemCount cart_two_lines) = Return 3 /\
  (length <$> cart_lines cart_two_lines) = Some 2%nat.
Proof. vm_compute. done. Qed.

Example total_of_empty_cart :
  CartRepository.getTotal shop = (Return 0%Q, shop) /\
  CartRepository.getItemCount shop = (Return 0, shop).
Proof. vm_compute. done. Qed.

(** ** Checkout *)

(** C1: [checkout()] returns the pair of what [items()] and [total()]
    returned just before it; the returned array still holds the lines the
    cart had before the call, and right after the call the cart is empty:
    [items()] is an array without elements and [itemCount()] is 0. The call
    is the read, the read and the clear in sequence, nothing in between. *)
Theorem checkout_returns_snapshot_and_empties s ls :
  cart_lines s = Some ls ->
  exists a t s',
    CartRepository.getItems s = (Return a, s) /\
    CartRepository.getTotal s = (Return t, s) /\
    lines_of s a = Some ls /\
    ShoppingCartUseCase.checkout s = (Return (a, t), s') /\
    s' = snd (CartRepository.clear s) /\
    lines_of s' a = Some ls /\
    (exists a', CartRepository.getItems s' = (Return a', s') /\
                lines_of s' a' = Some []) /\
    CartRepository.getItemCount s' = (Return 0, s').
Proof.
  intros Hls.
  exists (items s), (lines_total ls),
         (snd (CartRepository.clear s)).
  pose proof (getTotal_run _ _ Hls) as Ht.
  pose proof (cart_lines_clear s) as Hempty.
  repeat split; try done.
  - by apply checkout_run.
  - by apply lines_of_clear.
  - eexists. split; [reflexivity|]. exact Hempty.
  - by rewrite (getItemCount_run _ _ Hempty).
Qed.

(** Scenario 8 of the specification: the cart with two lines, total 25. *)
Lemma checkout_returns_snapshot_and_empties_witness :
  cart_lines cart_two_lines =
    Some [CartItem.mk product1 2; CartItem.mk product2 1] /\
  exists a t s',
    CartRepository.getItems cart_two_lines = (Return a, cart_two_lines) /\
    CartRepository.getTotal cart_two_lines = (Return t, cart_two_lines) /\
    lines_of cart_two_lines a = Some [CartItem.mk product1 2; CartItem.mk product2 1] /\
    ShoppingCartUseCase.checkout cart_two_lines = (Return (a, t), s') /\
    s' = snd (CartRepository.clear cart_two_lines) /\
    lines_of s' a = Some [CartItem.mk product1 2; CartItem.mk product2 1] /\
    (exists a', CartRepository.getItems s' = (Return a', s') /\
                lines_of s' a' = Some []) /\
    CartRepository.getItemCount s' = (Return 0, s').
Proof.
  assert (cart_lines cart_two_lines =
            Some [CartItem.mk product1 2; CartItem.mk product2 1]) as H
    by (vm_compute; reflexivity).
  exact (conj H (checkout_returns_snapshot_and_empties _ _ H)).
Defined.

Example checkout_two_lines :
  exists a s',
    ShoppingCartUseCase.checkout cart_two_lines = (Return (a, (25 # 1)%Q), s') /\
    (length <$> lines_of s' a) = Some 2%nat /\
    cart_lines s' = Some [].
Proof. eexists _, _. vm_compute. done. Qed.

(** ** The product repository *)

Lemma array_map_to_product_run elems s :
  (exists ps, array_map to_product elems s = (Return ps, s) /\
              elems = record_of <$> ps) \/
  (array_map to_product elems s =
     (Throw (TypeError "Cannot read properties of null"), s) /\
   In JNull elems).
Proof.
  induction elems as [|e elems IH].
  - left. by exists [].
  - destruct e as [|pid ti pr im].
    + right. split; [reflexivity | by left].
    + cbn [array_map].
      assert (to_product (JRecord pid ti pr im) s
              = (Return (Product.new pid ti pr im), s)) as Hp by reflexivity.
      run_with Hp.
      destruct IH as [(ps & Hrun & ->) | (Hrun & Hin)].
      * left. exists (Product.new pid ti pr im :: ps). run_with Hrun. done.
      * right. rewrite (bind_Throw _ _ _ _ _ Hrun). split; [done | by right].
Qed.

(** [fetchAll] either rethrows the error of the step that failed and leaves
    the state as it was, or assigns the whole list of products and returns
    it. *)
Lemma fetchAll_cases w s :
  (exists e, failure_cause w e /\ ProductRepository.fetchAll w s = (Throw e, s)) \/
  (exists ps, w = JsonResolves (JArray (record_of <$> ps)) /\
     ProductRepository.fetchAll w s =
       (Return ps, mkState (cartItemObjs s) (arrayObjs s) ps (items s))).
Proof.
  unfold ProductRepository.fetchAll, ProductRepository.fetchAll_try, try_catch.
  destruct w as [e|e|[elems|]].
  - left. exists e. split; [constructor | reflexivity].
  - left. exists e. split; [constructor | reflexivity].
  - assert (fetch (JsonResolves (JArray elems)) s
            = (Return (JsonResolves (JArray elems)), s)) as Hf by reflexivity.
    run_with Hf.
    assert (response_json (JsonResolves (JArray elems)) s
            = (Return (JArray elems), s)) as Hj by reflexivity.
    run_with Hj. cbn [data_map].
    destruct (array_map_to_product_run elems s) as [(ps & Hrun & ->) | (Hrun & Hin)].
    + right. exists ps. split; [done|]. run_with Hrun. reflexivity.
    + left. eexists. split; [by constructor|].
      by rewrite (bind_Throw _ _ _ _ _ Hrun).
  - left. eexists. split; [constructor | reflexivity].
Qed.

#[global] Instance record_of_inj : Inj (=) (=) record_of.
Proof.
  intros [a b c d] [a' b' c' d']. unfold record_of.
  cbn [Product.id Product.title Product.price Product.image].
  by intros [= -> -> -> ->].
Qed.

Lemma failure_cause_not_records w e ps :
  failure_cause w e -> w <> JsonResolves (JArray (record_of <$> ps)).
Proof.
  intros Hc Heq. destruct Hc as [| | |elems Hin]; try done.
  injection Heq as ->. apply list_elem_of_In in Hin.
  apply list_elem_of_fmap in Hin as (p & Hp & _). done.
Qed.

(** ** The invariant of the cart *)

Lemma find_line (ls : list CartItem.t) pid :
  (exists i o, ls !! i = Some o /\ line_id o = pid) \/
  Forall (fun o => line_id o <> pid) ls.
Proof.
  induction ls as [|a ls IH].
  - right. constructor.
  - destruct (strict_eq (line_id a) pid) eqn:Ha.
    + left. exists 0%nat, a. split; [done | by apply strict_eq_true].
    + apply strict_eq_false in Ha. destruct IH as [(i & o & Hi & Ho) | Hall].
      * left. by exists (S i), o.
      * right. by constructor.
Qed.

Lemma NoDup_filter_fmap {A B} (f : A -> B) (g : A -> bool) (l : list A) :
  NoDup (f <$> l) -> NoDup (f <$> List.filter g l).
Proof.
  induction l as [|a l IH]; simpl; [done|].
  rewrite NoDup_cons. intros [Hnotin Hnd].
  destruct (g a); [|by apply IH].
  simpl. apply NoDup_cons. split; [|by apply IH].
  intros Hin. apply Hnotin.
  apply list_elem_of_fmap in Hin as (x & -> & Hx).
  apply list_elem_of_fmap. exists x. split; [done|].
  apply list_elem_of_In. apply list_elem_of_In in Hx.
  apply filter_In in Hx. tauto.
Qed.

Lemma Forall_filter {A} (P : A -> Prop) (g : A -> bool) (l : list A) :
  Forall P l -> Forall P (List.filter g l).
Proof.
  induction 1 as [|a l Ha _ IH]; simpl; [constructor|].
  destruct (g a); [by constructor | done].
Qed.

Lemma cart_inv_init : cart_inv init [].
Proof. split; [reflexivity | constructor | constructor]. Qed.

Lemma cart_inv_add_new s ls p :
  cart_inv s ls ->
  exists s' ls', add_new p s = (Return tt, s') /\ cart_inv s' ls' /\
                 extends s s'.
Proof.
  intros [Hls Hnd Hpos].
  destruct (find_line ls (Product.id p)) as [(i & o & Hi & Hid) | Hfresh].
  - destruct (add_new_existing s ls p i o Hls Hnd Hi Hid)
      as (s' & Hrun & Hls' & _ & Hext).
    exists s'. eexists. split; [done|]. split; [|done]. split; [done | |].
    + rewrite list_fmap_insert. unfold line_id at 1. cbn [CartItem.product].
      rewrite list_insert_id; [done|]. by rewrite list_lookup_fmap, Hi.
    + apply Forall_insert; [done|]. cbn [CartItem.quantity].
      rewrite Forall_lookup in Hpos. specialize (Hpos _ _ Hi). simpl in Hpos. lia.
  - destruct (add_new_fresh s ls p Hls Hfresh) as (s' & Hrun & Hls' & _ & Hext).
    exists s'. eexists. split; [done|]. split; [|done]. split; [done | |].
    + by apply NoDup_snoc_fresh.
    + apply Forall_app. split; [done|]. constructor; [simpl; lia | constructor].
Qed.

Lemma cart_inv_removeItem s ls productId :
  cart_inv s ls ->
  exists s' ls', CartRepository.removeItem productId s = (Return tt, s') /\
                 cart_inv s' ls' /\ extends s s'.
Proof.
  intros [Hls Hnd Hpos].
  destruct (removeItem_run s ls productId Hls)
    as (s' & Hrun & Hls' & Hps & Hobjs' & Hit' & kept & Harrs' & Hsub).
  exists s'. eexists. split; [done|]. split.
  - split; [done | |].
    + by apply NoDup_filter_fmap.
    + by apply Forall_filter.
  - by apply (extends_new_array s s' kept).
Qed.

Lemma cart_inv_updateQuantity s ls productId delta :
  cart_inv s ls ->
  exists s' ls', CartRepository.updateQuantity productId delta s = (Return tt, s') /\
                 cart_inv s' ls' /\ extends s s'.
Proof.
  intros [Hls Hnd Hpos].
  destruct (find_line ls productId) as [(i & o & Hi & Hid) | Habs].
  - destruct (updateQuantity_found s ls productId delta i o Hls Hnd Hi Hid)
      as (s' & Hrun & Hls' & _ & Hext).
    destruct (Z.leb_spec (CartItem.quantity o + delta) 0) as [Hle|Hgt].
    + exists s'. eexists. split; [done|]. split; [|done]. split; [done | |].
      * rewrite list_fmap_delete. eapply sublist_NoDup; [done | apply sublist_delete].
      * by apply Forall_delete.
    + exists s'. eexists. split; [done|]. split; [|done]. split; [done | |].
      * rewrite list_fmap_insert. unfold line_id at 1. cbn [CartItem.product].
        rewrite list_insert_id; [done|]. by rewrite list_lookup_fmap, Hi.
      * apply Forall_insert; [done|]. cbn [CartItem.quantity]. lia.
  - exists s, ls. split; [by eapply updateQuantity_absent|].
    split; [done | apply extends_refl].
Qed.

Lemma cart_inv_clear s :
  cart_inv (snd (CartRepository.clear s)) [].
Proof. split; [apply cart_lines_clear | constructor | constructor]. Qed.

Lemma cart_inv_run_op o s ls :
  cart_inv s ls ->
  exists s' ls', run_op o s = (Return tt, s') /\ cart_inv s' ls' /\ extends s s'.
Proof.
  intros Hinv. destruct o as [p|pid|pid|pid delta| | |w]; cbn [run_op].
  - by apply (cart_inv_add_new s ls).
  - unfold ShoppingCartUseCase.addToCart. run_with (getById_run s pid).
    destruct (List.find _ (products s)) as [p|].
    + by apply (cart_inv_add_new s ls).
    + exists s, ls. split; [done|]. split; [done | apply extends_refl].
  - by apply (cart_inv_removeItem s ls).
  - by apply (cart_inv_updateQuantity s ls).
  - exists (snd (CartRepository.clear s)), []. split; [reflexivity|].
    split; [apply cart_inv_clear | apply clear_extends].
  - exists (snd (CartRepository.clear s)), [].
    split; [|split; [apply cart_inv_clear | apply clear_extends]].
    destruct Hinv as [Hls _ _].
    by run_with (checkout_run _ _ Hls).
  - unfold ShoppingCartUseCase.getProducts, try_catch.
    destruct (fetchAll_cases w s) as [(e & _ & Hrun) | (ps & _ & Hrun)].
    + rewrite (bind_Throw _ _ _ _ _ Hrun). exists s, ls.
      split; [done|]. split; [done | apply extends_refl].
    + run_with Hrun. eexists _, ls. split; [reflexivity|].
      destruct Hinv as [Hls Hnd Hpos]. split; [by split|].
      by apply extends_same_cart.
Qed.

Lemma cart_inv_run_ops os s ls :
  cart_inv s ls ->
  exists s' ls', run_ops os s = (Return tt, s') /\ cart_inv s' ls' /\ extends s s'.
Proof.
  revert s ls. induction os as [|o os IH]; intros s ls Hinv.
  - exists s, ls. split; [done|]. split; [done | apply extends_refl].
  - destruct (cart_inv_run_op o s ls Hinv) as (s1 & ls1 & Hrun & Hinv1 & Hext1).
    destruct (IH s1 ls1 Hinv1) as (s' & ls' & Hrun' & Hinv' & Hext').
    exists s', ls'. cbn [run_ops]. run_with Hrun.
    split; [done|]. split; [done | by eapply extends_trans].
Qed.

(** C2: whatever sequence of cart operations ([addItem], [addToCart],
    [removeItem], [adjustQuantity], [clear], [checkout], with catalog
    fetches in between) runs from the initial empty cart, the sequence runs
    to its end without an exception and in the state it reaches no two lines
    of the cart share a product identifier and every line has a quantity of
    at least 1. Every prefix of a sequence is a sequence, so this is the
    state observed between any two operations. *)
Theorem cart_lines_unique_and_positive (os : list Op) :
  exists s ls,
    run_ops os init = (Return tt, s) /\
    cart_lines s = Some ls /\
    NoDup (line_id <$> ls) /\
    Forall (fun o => 1 <= CartItem.quantity o) ls.
Proof.
  destruct (cart_inv_run_ops os init [] cart_inv_init)
    as (s & ls & Hrun & [? ? ?] & _).
  by exists s, ls.
Qed.

(** ** The array that [checkout] returned

    After [checkout] the cart holds a new array, and every object it will
    ever refer to is allocated later, so no operation on the cart reaches
    the array that was returned or the objects in it. *)

(** The array returned by [checkout] holds the lines the cart had at the
    call after any further sequence of operations. *)
Theorem checkout_snapshot_is_stable s ls os :
  cart_lines s = Some ls ->
  exists a t s1 s2,
    ShoppingCartUseCase.checkout s = (Return (a, t), s1) /\
    run_ops os s1 = (Return tt, s2) /\
    lines_of s2 a = Some ls.
Proof.
  intros Hls.
  pose proof (checkout_run _ _ Hls) as Hco.
  destruct (cart_inv_run_ops os _ [] (cart_inv_clear s)) as (s2 & ls2 & Hrun & _ & Hext).
  eexists _, _, _, s2. split; [exact Hco|]. split; [exact Hrun|].
  apply cart_lines_Some in Hls as (elems & Harr & Hderef).
  destruct (extends_detached _ _ (items s) elems ls Hext) as (Harr2 & _ & Hderef2 & _).
  - rewrite clear_run. cbn [snd arrayObjs]. by apply lookup_app_l_Some.
  - rewrite clear_run. cbn [snd items]. apply lookup_lt_Some in Harr. lia.
  - by rewrite clear_run.
  - intros r _. rewrite clear_run. unfold cart_elems. cbn [snd arrayObjs items].
    rewrite list_lookup_middle by done. apply not_elem_of_nil.
  - apply lines_of_Some. eauto.
Qed.

(** After the checkout of the cart with two lines, product 1 is added again
    and its quantity raised: the returned array still shows the old lines. *)
Lemma checkout_snapshot_is_stable_witness :
  cart_lines cart_two_lines = Some [CartItem.mk product1 2; CartItem.mk product2 1] /\
  exists a t s1 s2,
    ShoppingCartUseCase.checkout cart_two_lines = (Return (a, t), s1) /\
    run_ops [AddToCart (IdNum 1); AdjustQuantity (IdNum 1) 4; RemoveItem (IdNum 2)] s1
      = (Return tt, s2) /\
    lines_of s2 a = Some [CartItem.mk product1 2; CartItem.mk product2 1].
Proof.
  assert (cart_lines cart_two_lines
          = Some [CartItem.mk product1 2; CartItem.mk product2 1]) as H
    by (vm_compute; reflexivity).
  exact (conj H (checkout_snapshot_is_stable _ _ _ H)).
Defined.

(** ** Sharing

    [getItems] hands out the array of the repository itself. A [push] shows
    through a reference obtained earlier; [removeItem] and [clear] install a
    new array, so the earlier reference keeps the lines it had, and a
    quantity driven to 0 is visible through it although the cart no longer
    has the line. *)
Example getItems_is_live :
  lines_of shop (items shop) = Some [] /\
  lines_of (snd (ShoppingCartUseCase.addToCart (IdNum 1) shop)) (items shop)
    = Some [CartItem.mk product1 1] /\
  lines_of (snd (ShoppingCartUseCase.removeFromCart (IdNum 1) cart_two_of_1))
           (items cart_two_of_1)
    = Some [CartItem.mk product1 2] /\
  lines_of (snd (ShoppingCartUseCase.changeQuantity (IdNum 1) (-2) cart_two_of_1))
           (items cart_two_of_1)
    = Some [CartItem.mk product1 0] /\
  cart_lines (snd (ShoppingCartUseCase.changeQuantity (IdNum 1) (-2) cart_two_of_1))
    = Some [].
Proof. vm_compute. done. Qed.

(** ** Adding to the cart *)

Lemma addToCart_found s productId p :
  List.find (fun q => strict_eq (Product.id q) productId) (products s) = Some p ->
  ShoppingCartUseCase.addToCart productId s = add_new p s.
Proof.
  intros Hfind. unfold ShoppingCartUseCase.addToCart.
  run_with (getById_run s productId). by rewrite Hfind.
Qed.

Lemma addToCart_not_found s productId :
  List.find (fun q => strict_eq (Product.id q) productId) (products s) = None ->
  ShoppingCartUseCase.addToCart productId s = (Return tt, s).
Proof.
  intros Hfind. unfold ShoppingCartUseCase.addToCart.
  run_with (getById_run s productId). by rewrite Hfind.
Qed.

(** C3: [addItem(new CartItem(product))], which is what [addToCart] runs
    once the catalog resolved the identifier. If the cart has a line for
    [product.id], that line keeps its place and the [Product] it refers to,
    and its quantity grows by exactly 1; otherwise a line for [product] with
    quantity 1 is appended after the last line. Adding a product that the
    cart lacks twice therefore ends with one line for it, of quantity 2. *)
Theorem addItem_increments_or_appends s ls p :
  cart_lines s = Some ls -> NoDup (line_id <$> ls) ->
  exists s',
    (cartItem ← CartItemClass.new p None; CartRepository.addItem cartItem) s
      = (Return tt, s') /\
    (forall productId,
        fst (ProductRepository.getById productId s) = Return (Some p) ->
        ShoppingCartUseCase.addToCart productId s = (Return tt, s')) /\
    (forall i o,
        ls !! i = Some o -> Product.id (CartItem.product o) = Product.id p ->
        cart_lines s' =
          Some (<[i := CartItem.mk (CartItem.product o) (CartItem.quantity o + 1)]> ls)) /\
    (Forall (fun o => Product.id (CartItem.product o) <> Product.id p) ls ->
        cart_lines s' = Some (ls ++ [CartItem.mk p 1]) /\
        exists s'',
          (cartItem ← CartItemClass.new p None; CartRepository.addItem cartItem) s'
            = (Return tt, s'') /\
          cart_lines s'' = Some (ls ++ [CartItem.mk p 2])).
Proof.
  intros Hls Hnd. fold (add_new p).
  destruct (find_line ls (Product.id p)) as [(i & o & Hi & Hid) | Hfresh].
  - destruct (add_new_existing s ls p i o Hls Hnd Hi Hid) as (s' & Hrun & Hls' & _).
    exists s'. split; [done|]. split; [|split].
    + intros productId Hget. rewrite getById_run in Hget. cbn [fst] in Hget.
      injection Hget as Hfind. by rewrite (addToCart_found _ _ _ Hfind).
    + intros i' o' Hi' Hid'.
      assert (i' = i) as ->.
      { apply (NoDup_line_id_lookup ls i' i o' o Hnd Hi' Hi).
        unfold line_id in *. congruence. }
      by assert (o' = o) as -> by congruence.
    + intros Hall. rewrite Forall_lookup in Hall. by destruct (Hall _ _ Hi).
  - destruct (add_new_fresh s ls p Hls Hfresh) as (s' & Hrun & Hls' & _).
    exists s'. split; [done|]. split; [|split].
    + intros productId Hget. rewrite getById_run in Hget. cbn [fst] in Hget.
      injection Hget as Hfind. by rewrite (addToCart_found _ _ _ Hfind).
    + intros i o Hi Hid. rewrite Forall_lookup in Hfresh. by destruct (Hfresh _ _ Hi).
    + intros _. split; [done|].
      assert (NoDup (line_id <$> ls ++ [CartItem.mk p 1])) as Hnd'
          by (by apply NoDup_snoc_fresh).
      destruct (add_new_existing s' _ p (length ls) (CartItem.mk p 1) Hls' Hnd')
        as (s'' & Hrun' & Hls'' & _); [by apply list_lookup_middle | done |].
      exists s''. split; [done|]. by rewrite Hls'', insert_last.
Qed.

(** Product 2, then product 2 again, added to the cart that holds two units
    of product 1; and product 1 added to that cart. *)
Lemma addItem_increments_or_appends_witness :
  cart_lines cart_two_of_1 = Some [CartItem.mk product1 2] /\
  NoDup (line_id <$> [CartItem.mk product1 2]) /\
  (exists s',
     (cartItem ← CartItemClass.new product2 None; CartRepository.addItem cartItem)
       cart_two_of_1 = (Return tt, s') /\
     cart_lines s' = Some [CartItem.mk product1 2; CartItem.mk product2 1] /\
     exists s'',
       (cartItem ← CartItemClass.new product2 None; CartRepository.addItem cartItem) s'
         = (Return tt, s'') /\
       cart_lines s'' = Some [CartItem.mk product1 2; CartItem.mk product2 2]) /\
  (exists s',
     (cartItem ← CartItemClass.new product1 None; CartRepository.addItem cartItem)
       cart_two_of_1 = (Return tt, s') /\
     ShoppingCartUseCase.addToCart (IdNum 1) cart_two_of_1 = (Return tt, s') /\
     cart_lines s' = Some [CartItem.mk product1 3]).
Proof.
  assert (cart_lines cart_two_of_1 = Some [CartItem.mk product1 2]) as H
    by (vm_compute; reflexivity).
  assert (NoDup (line_id <$> [CartItem.mk product1 2])) as Hnd
    by (apply NoDup_singleton).
  split; [exact H|]. split; [exact Hnd|]. split.
  - destruct (addItem_increments_or_appends _ _ product2 H Hnd)
      as (s' & Hrun & _ & _ & Hfresh).
    destruct Hfresh as (Hls' & s'' & Hrun' & Hls'').
    { repeat constructor. discriminate. }
    exists s'. split; [exact Hrun|]. split; [exact Hls'|].
    exists s''. split; [exact Hrun' | exact Hls''].
  - destruct (addItem_increments_or_appends _ _ product1 H Hnd)
      as (s' & Hrun & Hadd & Hfound & _).
    exists s'. split; [exact Hrun|]. split.
    + apply Hadd. reflexivity.
    + apply (Hfound 0%nat (CartItem.mk product1 2)); reflexivity.
Defined.

(** Scenario 7, first half: the same product added twice. *)
Example add_same_product_twice :
  cart_lines shop = Some [] /\
  cart_lines (snd (ShoppingCartUseCase.addToCart (IdNum 1) shop))
    = Some [CartItem.mk product1 1] /\
  cart_lines cart_two_of_1 = Some [CartItem.mk product1 2] /\
  fst (CartRepository.getTotal cart_two_of_1) = Return (20 # 1)%Q.
Proof. vm_compute. done. Qed.

(** ** Adjusting a quantity and removing a line *)

(** C4: [updateQuantity(productId, delta)], which [changeQuantity] passes
    through to, for any integer [delta]. If the cart has a line for
    [productId], the quantity of that line becomes [quantity + delta] when
    that is positive, and the line is deleted (not kept at zero) when it is
    not; with no such line the state is left as it is. In the scenario of a
    line of two units at 10.00, [changeQuantity(1, -1)] leaves one unit and
    a total of 10, and a second one removes the line: total 0, count 0. *)
Theorem updateQuantity_adds_delta_or_deletes :
  (forall s ls productId delta,
      cart_lines s = Some ls -> NoDup (line_id <$> ls) ->
      exists s',
        CartRepository.updateQuantity productId delta s = (Return tt, s') /\
        ShoppingCartUseCase.changeQuantity productId delta s = (Return tt, s') /\
        (forall i o,
            ls !! i = Some o -> Product.id (CartItem.product o) = productId ->
            cart_lines s' =
              Some (if CartItem.quantity o + delta <=? 0
                    then delete i ls
                    else <[i := CartItem.mk (CartItem.product o)
                                            (CartItem.quantity o + delta)]> ls)) /\
        (Forall (fun o => Product.id (CartItem.product o) <> productId) ls -> s' = s)) /\
  (cart_lines cart_two_of_1 = Some [CartItem.mk product1 2] /\
   exists s1 s2,
     ShoppingCartUseCase.changeQuantity (IdNum 1) (-1) cart_two_of_1 = (Return tt, s1) /\
     cart_lines s1 = Some [CartItem.mk product1 1] /\
     CartRepository.getTotal s1 = (Return (10 # 1)%Q, s1) /\
     ShoppingCartUseCase.changeQuantity (IdNum 1) (-1) s1 = (Return tt, s2) /\
     cart_lines s2 = Some [] /\
     CartRepository.getTotal s2 = (Return 0%Q, s2) /\
     CartRepository.getItemCount s2 = (Return 0, s2)).
Proof.
  split.
  - intros s ls productId delta Hls Hnd.
    unfold ShoppingCartUseCase.changeQuantity.
    destruct (find_line ls productId) as [(i & o & Hi & Hid) | Habs].
    + destruct (updateQuantity_found s ls productId delta i o Hls Hnd Hi Hid)
        as (s' & Hrun & Hls' & _).
      exists s'. split; [done|]. split; [done|]. split.
      * intros i' o' Hi' Hid'.
        assert (i' = i) as ->.
        { apply (NoDup_line_id_lookup ls i' i o' o Hnd Hi' Hi).
          unfold line_id in *. congruence. }
        by assert (o' = o) as -> by congruence.
      * intros Hall. rewrite Forall_lookup in Hall. by destruct (Hall _ _ Hi).
    + exists s. pose proof (updateQuantity_absent s ls productId delta Hls Habs).
      split; [done|]. split; [done|]. split; [|done].
      intros i o Hi Hid. rewrite Forall_lookup in Habs. by destruct (Habs _ _ Hi).
  - split; [vm_compute; reflexivity|].
    exists (snd (ShoppingCartUseCase.changeQuantity (IdNum 1) (-1) cart_two_of_1)),
           (snd (ShoppingCartUseCase.changeQuantity (IdNum 1) (-1)
                   (snd (ShoppingCartUseCase.changeQuantity (IdNum 1) (-1)
                           cart_two_of_1)))).
    vm_compute. done.
Qed.

(** The general part at the cart of the scenario, with [delta = -1]. *)
Lemma updateQuantity_adds_delta_or_deletes_witness :
  cart_lines cart_two_of_1 = Some [CartItem.mk product1 2] /\
  NoDup (line_id <$> [CartItem.mk product1 2]) /\
  exists s',
    CartRepository.updateQuantity (IdNum 1) (-1) cart_two_of_1 = (Return tt, s') /\
    ShoppingCartUseCase.changeQuantity (IdNum 1) (-1) cart_two_of_1 = (Return tt, s') /\
    (forall i o,
        [CartItem.mk product1 2] !! i = Some o ->
        Product.id (CartItem.product o) = IdNum 1 ->
        cart_lines s' =
          Some (if CartItem.quantity o + (-1) <=? 0
                then delete i [CartItem.mk product1 2]
                else <[i := CartItem.mk (CartItem.product o)
                                        (CartItem.quantity o + (-1))]>
                       [CartItem.mk product1 2])) /\
    (Forall (fun o => Product.id (CartItem.product o) <> IdNum 1)
            [CartItem.mk product1 2] -> s' = cart_two_of_1).
Proof.
  assert (cart_lines cart_two_of_1 = Some [CartItem.mk product1 2]) as H
    by (vm_compute; reflexivity).
  assert (NoDup (line_id <$> [CartItem.mk product1 2])) as Hnd
    by (apply NoDup_singleton).
  exact (conj H (conj Hnd
    (proj1 updateQuantity_adds_delta_or_deletes _ _ (IdNum 1) (-1) H Hnd))).
Defined.

(** A delta that is larger than the quantity deletes the line as well, and a
    positive delta adds to it. *)
Example changeQuantity_other_deltas :
  cart_lines (snd (ShoppingCartUseCase.changeQuantity (IdNum 1) (-5) cart_two_of_1))
    = Some [] /\
  cart_lines (snd (ShoppingCartUseCase.changeQuantity (IdNum 1) 3 cart_two_of_1))
    = Some [CartItem.mk product1 5].
Proof. vm_compute. done. Qed.

(** ** Absent identifiers *)

(** C7: an identifier that is absent is not an error. For an identifier
    that no line of the cart has, [removeFromCart] returns normally and
    leaves the lines, the total and the count of the cart as they were, and
    [changeQuantity] returns normally and leaves the whole state as it was;
    for an identifier that the catalog does not resolve, [addToCart] returns
    normally and leaves the whole state as it was. *)
Theorem absent_ids_are_no_ops s ls productId :
  cart_lines s = Some ls ->
  (Forall (fun o => Product.id (CartItem.product o) <> productId) ls ->
     (exists s',
        ShoppingCartUseCase.removeFromCart productId s = (Return tt, s') /\
        cart_lines s' = Some ls /\
        fst (CartRepository.getTotal s') = fst (CartRepository.getTotal s) /\
        fst (CartRepository.getItemCount s') = fst (CartRepository.getItemCount s)) /\
     (forall delta,
        ShoppingCartUseCase.changeQuantity productId delta s = (Return tt, s))) /\
  (fst (ProductRepository.getById productId s) = Return None ->
     ShoppingCartUseCase.addToCart productId s = (Return tt, s)).
Proof.
  intros Hls. split.
  - intros Habs. split.
    + destruct (removeItem_run s ls productId Hls) as (s' & Hrun & Hls' & _).
      rewrite filter_all_kept in Hls'.
      * exists s'. split; [done|]. split; [done|].
        by rewrite (getTotal_run _ _ Hls'), (getTotal_run _ _ Hls),
                   (getItemCount_run _ _ Hls'), (getItemCount_run _ _ Hls).
      * eapply Forall_impl; [exact Habs|]. intros o Ho. by apply strict_neq_true.
    + intros delta. by eapply updateQuantity_absent.
  - rewrite getById_run. cbn [fst]. intros [= Hfind].
    by apply addToCart_not_found.
Qed.

(** Identifier 7 is neither in the sample catalog nor in the cart. *)
Lemma absent_ids_are_no_ops_witness :
  cart_lines cart_two_lines = Some [CartItem.mk product1 2; CartItem.mk product2 1] /\
  Forall (fun o => Product.id (CartItem.product o) <> IdNum 7)
         [CartItem.mk product1 2; CartItem.mk product2 1] /\
  fst (ProductRepository.getById (IdNum 7) cart_two_lines) = Return None /\
  (exists s',
     ShoppingCartUseCase.removeFromCart (IdNum 7) cart_two_lines = (Return tt, s') /\
     cart_lines s' = Some [CartItem.mk product1 2; CartItem.mk product2 1] /\
     fst (CartRepository.getTotal s') = fst (CartRepository.getTotal cart_two_lines) /\
     fst (CartRepository.getItemCount s')
       = fst (CartRepository.getItemCount cart_two_lines)) /\
  (forall delta,
     ShoppingCartUseCase.changeQuantity (IdNum 7) delta cart_two_lines
       = (Return tt, cart_two_lines)) /\
  ShoppingCartUseCase.addToCart (IdNum 7) cart_two_lines = (Return tt, cart_two_lines).
Proof.
  assert (cart_lines cart_two_lines
          = Some [CartItem.mk product1 2; CartItem.mk product2 1]) as H
    by (vm_compute; reflexivity).
  assert (Forall (fun o => Product.id (CartItem.product o) <> IdNum 7)
                 [CartItem.mk product1 2; CartItem.mk product2 1]) as Habs
    by (repeat constructor; discriminate).
  assert (fst (ProductRepository.getById (IdNum 7) cart_two_lines) = Return None) as Hcat
    by reflexivity.
  destruct (absent_ids_are_no_ops _ _ (IdNum 7) H) as [Hcart Hadd].
  destruct (Hcart Habs) as [Hrem Hchg].
  exact (conj H (conj Habs (conj Hcat (conj Hrem (conj Hchg (Hadd Hcat)))))).
Defined.

(** ** The order of the lines *)

(** Products that the cart lacks, added one after the other, become lines
    after the existing ones in the order in which they were added. *)
Lemma add_new_many ps : forall s ls,
  cart_lines s = Some ls ->
  NoDup ((line_id <$> ls) ++ (Product.id <$> ps)) ->
  exists s',
    run_ops (AddItem <$> ps) s = (Return tt, s') /\
    cart_lines s' = Some (ls ++ ((fun p => CartItem.mk p 1) <$> ps)).
Proof.
  induction ps as [|p ps IH]; intros s ls Hls Hnd.
  - exists s. split; [done|]. by rewrite app_nil_r.
  - assert (Forall (fun o => line_id o <> Product.id p) ls) as Hfresh.
    { apply NoDup_app in Hnd as (_ & Hdisj & _).
      apply Forall_forall. intros o Ho Heq.
      apply (Hdisj (line_id o)).
      - apply list_elem_of_fmap. eauto.
      - rewrite Heq. simpl. left. }
    destruct (add_new_fresh s ls p Hls Hfresh) as (s1 & Hrun & Hls1 & _).
    destruct (IH s1 _ Hls1) as (s' & Hrun' & Hls').
    { rewrite fmap_app. simpl. by rewrite <- app_assoc. }
    exists s'. cbn [fmap list_fmap run_ops run_op]. run_with Hrun.
    split; [done|]. rewrite Hls'. by rewrite <- app_assoc.
Qed.

(** C8: the order of the lines is stable. [items()] returns the array whose
    elements are the lines in stored order; [addItem] on a product that has
    a line and [updateQuantity] that leaves a positive quantity rewrite the
    quantity of that one line where it stands and touch no other line; a new
    line goes after the last one, so that lines appear in the order in which
    their products were first added; removing a line leaves the lines before
    it and the lines after it, in the order they had. *)
Theorem cart_line_order_is_stable s ls :
  cart_lines s = Some ls -> NoDup (line_id <$> ls) ->
  (exists a, CartRepository.getItems s = (Return a, s) /\ lines_of s a = Some ls) /\
  (forall p, exists s',
      (cartItem ← CartItemClass.new p None; CartRepository.addItem cartItem) s
        = (Return tt, s') /\
      (forall i o,
          ls !! i = Some o -> Product.id (CartItem.product o) = Product.id p ->
          cart_lines s' =
            Some (<[i := CartItem.mk (CartItem.product o) (CartItem.quantity o + 1)]> ls)) /\
      (Forall (fun o => Product.id (CartItem.product o) <> Product.id p) ls ->
          cart_lines s' = Some (ls ++ [CartItem.mk p 1]))) /\
  (forall productId delta i o,
      ls !! i = Some o -> Product.id (CartItem.product o) = productId ->
      0 < CartItem.quantity o + delta ->
      exists s',
        CartRepository.updateQuantity productId delta s = (Return tt, s') /\
        cart_lines s' =
          Some (<[i := CartItem.mk (CartItem.product o) (CartItem.quantity o + delta)]> ls)) /\
  (forall productId i o,
      ls !! i = Some o -> Product.id (CartItem.product o) = productId ->
      exists s',
        CartRepository.removeItem productId s = (Return tt, s') /\
        cart_lines s' = Some (take i ls ++ drop (S i) ls)) /\
  (forall ps,
      NoDup ((line_id <$> ls) ++ (Product.id <$> ps)) ->
      exists s',
        run_ops (AddItem <$> ps) s = (Return tt, s') /\
        cart_lines s' = Some (ls ++ ((fun p => CartItem.mk p 1) <$> ps))).
Proof.
  intros Hls Hnd. split; [|split; [|split; [|split]]].
  - by exists (items s).
  - intros p. fold (add_new p).
    destruct (find_line ls (Product.id p)) as [(i & o & Hi & Hid) | Hfresh].
    + destruct (add_new_existing s ls p i o Hls Hnd Hi Hid) as (s' & Hrun & Hls' & _).
      exists s'. split; [done|]. split.
      * intros i' o' Hi' Hid'.
        assert (i' = i) as ->.
        { apply (NoDup_line_id_lookup ls i' i o' o Hnd Hi' Hi).
          unfold line_id in *. congruence. }
        by assert (o' = o) as -> by congruence.
      * intros Hall. rewrite Forall_lookup in Hall. by destruct (Hall _ _ Hi).
    + destruct (add_new_fresh s ls p Hls Hfresh) as (s' & Hrun & Hls' & _).
      exists s'. split; [done|]. split; [|done].
      intros i o Hi Hid. rewrite Forall_lookup in Hfresh. by destruct (Hfresh _ _ Hi).
  - intros productId delta i o Hi Hid Hpos.
    destruct (updateQuantity_found s ls productId delta i o Hls Hnd Hi Hid)
      as (s' & Hrun & Hls' & _).
    exists s'. split; [done|].
    by destruct (Z.leb_spec (CartItem.quantity o + delta) 0); [lia|].
  - intros productId i o Hi Hid.
    destruct (removeItem_run s ls productId Hls) as (s' & Hrun & Hls' & _).
    exists s'. split; [done|].
    by rewrite Hls', (filter_neq_delete ls productId i o Hnd Hi Hid), delete_take_drop.
  - intros ps Hps. by apply add_new_many.
Qed.

(** The cart with the lines of products 1 and 2, in that order. *)
Lemma cart_line_order_is_stable_witness :
  cart_lines cart_two_lines = Some [CartItem.mk product1 2; CartItem.mk product2 1] /\
  NoDup (line_id <$> [CartItem.mk product1 2; CartItem.mk product2 1]) /\
  (exists s',
      CartRepository.updateQuantity (IdNum 1) 3 cart_two_lines = (Return tt, s') /\
      cart_lines s' = Some [CartItem.mk product1 5; CartItem.mk product2 1]) /\
  (exists s',
      CartRepository.removeItem (IdNum 1) cart_two_lines = (Return tt, s') /\
      cart_lines s' = Some [CartItem.mk product2 1]).
Proof.
  assert (cart_lines cart_two_lines
          = Some [CartItem.mk product1 2; CartItem.mk product2 1]) as H
    by (vm_compute; reflexivity).
  assert (NoDup (line_id <$> [CartItem.mk product1 2; CartItem.mk product2 1])) as Hnd.
  { apply NoDup_cons. split; [|apply NoDup_singleton].
    intros Hin. apply list_elem_of_singleton in Hin. discriminate. }
  destruct (cart_line_order_is_stable _ _ H Hnd) as (_ & _ & Hadj & Hrem & _).
  split; [exact H|]. split; [exact Hnd|]. split.
  - apply (Hadj (IdNum 1) 3 0%nat (CartItem.mk product1 2)); reflexivity.
  - apply (Hrem (IdNum 1) 0%nat (CartItem.mk product1 2)); reflexivity.
Defined.

(** Lines stand in the order of first insertion: product 2, then product 1,
    then product 2 again. *)
Example insertion_order_sample :
  cart_lines (snd (run_ops [AddToCart (IdNum 2); AddToCart (IdNum 1);
                            AddToCart (IdNum 2)] shop))
  = Some [CartItem.mk product2 2; CartItem.mk product1 1].
Proof. vm_compute. done. Qed.

(** ** The catalog *)

(** C6, amended: when [fetchAll] fails, whatever the catalog held before,
    the state is the one before the call, so that [getById] answers every
    identifier as it did before, and what the call throws is the underlying
    error itself, not an error that carries it: the error of the network,
    the error of the parser, or the [TypeError] raised on a payload that is
    not an array or has a [null] element. Those exchanges always make the
    call fail, and no other does: an array without a [null] element is
    accepted and becomes the catalog, whether or not its elements are
    records of the remote contract. *)
Theorem failed_fetchAll_leaves_catalog :
  (forall w s e s',
      ProductRepository.fetchAll w s = (Throw e, s') ->
      s' = s /\ failure_cause w e /\
      forall id, ProductRepository.getById id s' = ProductRepository.getById id s) /\
  (forall w e s,
      failure_cause w e ->
      ProductRepository.fetchAll w s = (Throw e, s) /\
      ShoppingCartUseCase.getProducts w s = (Throw e, s)) /\
  (forall elems s,
      ~ In JNull elems ->
      exists ps,
        elems = record_of <$> ps /\
        ProductRepository.fetchAll (JsonResolves (JArray elems)) s
          = (Return ps, mkState (cartItemObjs s) (arrayObjs s) ps (items s))).
Proof.
  split; [|split].
  - intros w s e s' Hrun.
    destruct (fetchAll_cases w s) as [(e' & Hc & Hrun') | (ps & _ & Hrun')];
      rewrite Hrun' in Hrun; [|done].
    injection Hrun as -> ->. done.
  - intros w e s Hc. unfold ShoppingCartUseCase.getProducts.
    destruct (fetchAll_cases w s) as [(e' & Hc' & Hrun') | (ps & Hw & _)].
    + assert (e' = e) as ->; [|done].
      destruct Hc; inversion Hc'; done.
    + by destruct (failure_cause_not_records _ _ ps Hc).
  - intros elems s Hnull.
    destruct (fetchAll_cases (JsonResolves (JArray elems)) s)
      as [(e & Hc & _) | (ps & Hw & Hrun)].
    + inversion Hc; subst. contradiction.
    + injection Hw as ->. by exists ps.
Qed.

(** A network fault while the sample catalog is loaded. *)
Lemma failed_fetchAll_leaves_catalog_witness :
  ProductRepository.fetchAll (FetchRejects (NetworkError "Failed to fetch")) shop
    = (Throw (NetworkError "Failed to fetch"), shop) /\
  (shop = shop /\
   failure_cause (FetchRejects (NetworkError "Failed to fetch"))
                 (NetworkError "Failed to fetch") /\
   forall id, ProductRepository.getById id shop = ProductRepository.getById id shop).
Proof.
  assert (ProductRepository.fetchAll (FetchRejects (NetworkError "Failed to fetch")) shop
          = (Throw (NetworkError "Failed to fetch"), shop)) as H by reflexivity.
  exact (conj H (proj1 failed_fetchAll_leaves_catalog _ _ _ _ H)).
Defined.

(** C6 as it is stated fails twice. After a network fault the call throws
    the error of the network itself, and no [FetchError]. And a payload
    that is malformed, a record without [id], does not make the call fail:
    it is accepted, it replaces the catalog, and product 1, which [getById]
    returned before, is not found any more. *)
Lemma fetchAll_throws_no_FetchError_and_accepts_malformed :
  (ProductRepository.fetchAll (FetchRejects (NetworkError "Failed to fetch")) shop
     = (Throw (NetworkError "Failed to fetch"), shop) /\
   ~ fails_with_FetchError (FetchRejects (NetworkError "Failed to fetch")) shop) /\
  (malformed (JArray [JRecord IdUndefined "Mochila" (10 # 1) "img/1.png"]) /\
   ProductRepository.fetchAll
       (JsonResolves (JArray [JRecord IdUndefined "Mochila" (10 # 1) "img/1.png"])) shop
     = (Return [Product.new IdUndefined "Mochila" (10 # 1) "img/1.png"],
        mkState (cartItemObjs shop) (arrayObjs shop)
                [Product.new IdUndefined "Mochila" (10 # 1) "img/1.png"] (items shop)) /\
   fst (ProductRepository.getById (IdNum 1) shop) = Return (Some product1) /\
   fst (ProductRepository.getById (IdNum 1)
          (snd (ProductRepository.fetchAll
                  (JsonResolves (JArray [JRecord IdUndefined "Mochila" (10 # 1)
                                                 "img/1.png"])) shop)))
     = Return None).
Proof.
  split; [split; [reflexivity|]|split; [|split; [reflexivity|split; reflexivity]]].
  - intros (cause & s' & Hrun). discriminate Hrun.
  - intros Hall. apply Forall_cons in Hall as [Hrec _]. exact Hrec.
Qed.

(** A payload with a [null] element and a payload that is not an array fail
    and keep the catalog; product 1 is still found afterwards. *)
Example malformed_payload_sample :
  ProductRepository.fetchAll
      (JsonResolves (JArray [JRecord (IdNum 9) "x" (1 # 1) "y"; JNull])) shop
    = (Throw (TypeError "Cannot read properties of null"), shop) /\
  ProductRepository.fetchAll (JsonResolves JNotArray) shop
    = (Throw (TypeError "data.map is not a function"), shop) /\
  fst (ProductRepository.getById (IdNum 1) shop) = Return (Some product1).
Proof. vm_compute. done. Qed.

(** C9: when [fetchAll] succeeds, the payload was an array of records, the
    list it returns holds one product per record, in the order of the
    records, and that list is the new catalog whatever the catalog was
    before (so a second successful fetch replaces the first); nothing else in
    the state changes. A call leaves either the old catalog or the complete
    new one, never a part of it. *)
Theorem successful_fetchAll_replaces_catalog :
  (forall w s ps s',
      ProductRepository.fetchAll w s = (Return ps, s') ->
      w = JsonResolves (JArray (record_of <$> ps)) /\
      products s' = ps /\
      s' = mkState (cartItemObjs s) (arrayObjs s) ps (items s)) /\
  (forall ps s,
      ProductRepository.fetchAll (JsonResolves (JArray (record_of <$> ps))) s
        = (Return ps, mkState (cartItemObjs s) (arrayObjs s) ps (items s))) /\
  (forall ps1 ps2 s,
      products (snd ((ProductRepository.fetchAll (JsonResolves (JArray (record_of <$> ps1)));;
                      ProductRepository.fetchAll (JsonResolves (JArray (record_of <$> ps2))))
                       s)) = ps2) /\
  (forall w s,
      products (snd (ProductRepository.fetchAll w s)) = products s \/
      w = JsonResolves (JArray (record_of <$> products (snd (ProductRepository.fetchAll w s))))).
Proof.
  assert (forall ps s,
      ProductRepository.fetchAll (JsonResolves (JArray (record_of <$> ps))) s
        = (Return ps, mkState (cartItemObjs s) (arrayObjs s) ps (items s))) as Hok.
  { intros ps s.
    destruct (fetchAll_cases (JsonResolves (JArray (record_of <$> ps))) s)
      as [(e & Hc & _) | (ps' & Hw & Hrun)].
    - by destruct (failure_cause_not_records _ _ ps Hc).
    - injection Hw as Hw. apply (inj (fmap record_of)) in Hw as ->. done. }
  split; [|split; [done|split]].
  - intros w s ps s' Hrun.
    destruct (fetchAll_cases w s) as [(e' & _ & Hrun') | (ps' & Hw & Hrun')];
      rewrite Hrun' in Hrun; [done|].
    injection Hrun as -> <-. done.
  - intros ps1 ps2 s. run_with (Hok ps1 s). by rewrite Hok.
  - intros w s.
    destruct (fetchAll_cases w s) as [(e' & _ & Hrun') | (ps' & Hw & Hrun')];
      rewrite Hrun'; [by left | by right].
Qed.

(** Loading the sample catalog into the initial state. *)
Lemma successful_fetchAll_replaces_catalog_witness :
  ProductRepository.fetchAll sample_payload init = (Return [product1; product2], shop) /\
  sample_payload = JsonResolves (JArray (record_of <$> [product1; product2])) /\
  products shop = [product1; product2] /\
  shop = mkState (cartItemObjs init) (arrayObjs init) [product1; product2] (items init).
Proof.
  assert (ProductRepository.fetchAll sample_payload init
          = (Return [product1; product2], shop)) as H by reflexivity.
  exact (conj H (proj1 successful_fetchAll_replaces_catalog _ _ _ _ H)).
Defined.

(** C10: [getById] compares identifiers with [===]. The product it returns
    is in the catalog and its identifier is strictly equal to the argument,
    of the same type and the same value; it is the first such product, and
    there is none when it returns [undefined]. So in a catalog whose
    identifiers are all numbers a string is never found, [addToCart] with it
    changes nothing, and the number 1 and the string "1" are different
    identifiers. *)
Theorem getById_is_strict :
  (forall s id p,
      fst (ProductRepository.getById id s) = Return (Some p) ->
      In p (products s) /\ strict_eq (Product.id p) id = true /\ Product.id p = id) /\
  (forall s id,
      fst (ProductRepository.getById id s) = Return None ->
      Forall (fun p => strict_eq (Product.id p) id = false /\ Product.id p <> id)
             (products s)) /\
  (forall s str,
      Forall (fun p => exists n, Product.id p = IdNum n) (products s) ->
      ProductRepository.getById (IdStr str) s = (Return None, s) /\
      ShoppingCartUseCase.addToCart (IdStr str) s = (Return tt, s)) /\
  (forall n str, strict_eq (IdNum n) (IdStr str) = false) /\
  fst (ProductRepository.getById (IdNum 1) shop) = Return (Some product1) /\
  fst (ProductRepository.getById (IdStr "1") shop) = Return None /\
  ShoppingCartUseCase.addToCart (IdStr "1") shop = (Return tt, shop).
Proof.
  split; [|split; [|split; [|split]]].
  - intros s id p. rewrite getById_run. cbn [fst]. intros [= Hfind].
    apply find_some in Hfind as [Hin Heq].
    split; [done|]. split; [done | by apply strict_eq_true].
  - intros s id. rewrite getById_run. cbn [fst]. intros [= Hfind].
    apply Forall_forall. intros p Hp. apply list_elem_of_In in Hp.
    pose proof (find_none _ _ Hfind p Hp) as Hne. cbn beta in Hne.
    split; [done | by apply strict_eq_false].
  - intros s str Hnum.
    assert (List.find (fun p => strict_eq (Product.id p) (IdStr str)) (products s) = None)
      as Hfind.
    { induction Hnum as [|p ps [n Hp] _ IH]; [done|].
      simpl. by rewrite Hp. }
    split; [by rewrite getById_run, Hfind | by apply addToCart_not_found].
  - done.
  - vm_compute. done.
Qed.

(** The third part on the sample catalog, whose identifiers are 1 and 2. *)
Lemma getById_is_strict_witness :
  Forall (fun p => exists n, Product.id p = IdNum n) (products shop) /\
  ProductRepository.getById (IdStr "2") shop = (Return None, shop) /\
  ShoppingCartUseCase.addToCart (IdStr "2") shop = (Return tt, shop).
Proof.
  assert (Forall (fun p => exists n, Product.id p = IdNum n) (products shop)) as H.
  { repeat constructor; eexists; reflexivity. }
  exact (conj H (proj1 (proj2 (proj2 getById_is_strict)) shop "2" H)).
Defined.

(** * Further properties of the cart and the catalog *)

(** ** Sums over changed lists of lines *)

Lemma spec_itemCount_app ls1 ls2 :
  spec_itemCount (ls1 ++ ls2) = spec_itemCount ls1 + spec_itemCount ls2.
Proof. induction ls1 as [|o ls1 IH]; simpl; [done|]. rewrite IH. lia. Qed.

Lemma spec_total_app ls1 ls2 :
  (spec_total (ls1 ++ ls2) == spec_total ls1 + spec_total ls2)%Q.
Proof. induction ls1 as [|o ls1 IH]; simpl; [ring|]. rewrite IH. ring. Qed.

Lemma spec_itemCount_delete ls i o :
  ls !! i = Some o ->
  spec_itemCount (delete i ls) = spec_itemCount ls - CartItem.quantity o.
Proof.
  revert i. induction ls as [|a ls IH]; intros [|i] Hi; simpl in *; try done.
  - injection Hi as ->. lia.
  - rewrite (IH i Hi). lia.
Qed.

Lemma spec_total_delete ls i o :
  ls !! i = Some o ->
  (spec_total (delete i ls)
   == spec_total ls
      - Product.price (CartItem.product o) * inject_Z (CartItem.quantity o))%Q.
Proof.
  revert i. induction ls as [|a ls IH]; intros [|i] Hi; simpl in *; try done.
  - injection Hi as ->. ring.
  - rewrite (IH i Hi). ring.
Qed.

Lemma spec_itemCount_insert ls i o o' :
  ls !! i = Some o ->
  spec_itemCount (<[i := o']> ls)
  = spec_itemCount ls - CartItem.quantity o + CartItem.quantity o'.
Proof.
  revert i. induction ls as [|a ls IH]; intros [|i] Hi; simpl in *; try done.
  - injection Hi as ->. lia.
  - rewrite (IH i Hi). lia.
Qed.

Lemma spec_total_insert ls i o o' :
  ls !! i = Some o ->
  (spec_total (<[i := o']> ls)
   == spec_total ls
      - Product.price (CartItem.product o) * inject_Z (CartItem.quantity o)
      + Product.price (CartItem.product o') * inject_Z (CartItem.quantity o'))%Q.
Proof.
  revert i. induction ls as [|a ls IH]; intros [|i] Hi; simpl in *; try done.
  - injection Hi as ->. ring.
  - rewrite (IH i Hi). ring.
Qed.

(** The aggregates of a state, read through the methods. *)
Lemma getItemCount_spec s ls :
  cart_lines s = Some ls ->
  CartRepository.getItemCount s = (Return (spec_itemCount ls), s).
Proof.
  intros Hls. by rewrite (getItemCount_run _ _ Hls), fold_left_itemCount.
Qed.

Lemma delete_only_line_with_id (ls : list CartItem.t) i o :
  NoDup (line_id <$> ls) -> ls !! i = Some o ->
  Forall (fun o' => line_id o' <> line_id o) (delete i ls).
Proof.
  intros Hnd Hi.
  rewrite <- (filter_neq_delete ls (line_id o) i o Hnd Hi eq_refl).
  apply Forall_forall. intros x Hx. apply list_elem_of_In in Hx.
  apply filter_In in Hx as [_ Hx]. by apply strict_neq_true.
Qed.

(** ** Removing a line *)

(** [removeFromCart] on the identifier of a line deletes that line with all
    its units: the other lines stay in order, no line with the identifier is
    left and the count drops by the quantity of the line. The total is then
    the total of the remaining lines, summed afresh in the arithmetic of
    doubles; it is the former total less price × quantity of the line when
    no step of the two sums rounds. Removing the identifier once more
    changes no line. *)
Theorem removeFromCart_deletes_the_line s ls productId i o :
  cart_lines s = Some ls -> NoDup (line_id <$> ls) ->
  ls !! i = Some o -> Product.id (CartItem.product o) = productId ->
  exists s' s'',
    ShoppingCartUseCase.removeFromCart productId s = (Return tt, s') /\
    cart_lines s' = Some (delete i ls) /\
    Forall (fun o' => Product.id (CartItem.product o') <> productId) (delete i ls) /\
    CartRepository.getItemCount s' =
      (Return (spec_itemCount ls - CartItem.quantity o), s') /\
    CartRepository.getTotal s = (Return (lines_total ls), s) /\
    CartRepository.getTotal s' = (Return (lines_total (delete i ls)), s') /\
    (exact_from 0 ls -> exact_from 0 (delete i ls) ->
       (lines_total (delete i ls)
        == lines_total ls
           - Product.price (CartItem.product o) * inject_Z (CartItem.quantity o))%Q) /\
    ShoppingCartUseCase.removeFromCart productId s' = (Return tt, s'') /\
    cart_lines s'' = Some (delete i ls).
Proof.
  intros Hls Hnd Hi Hid. unfold ShoppingCartUseCase.removeFromCart.
  destruct (removeItem_run s ls productId Hls) as (s' & Hrun & Hls' & _).
  rewrite (filter_neq_delete ls productId i o Hnd Hi Hid) in Hls'.
  pose proof (delete_only_line_with_id ls i o Hnd Hi) as Hgone.
  fold (line_id o) in Hid. rewrite Hid in Hgone.
  destruct (removeItem_run s' _ productId Hls') as (s'' & Hrun' & Hls'' & _).
  rewrite filter_all_kept in Hls''.
  2:{ eapply Forall_impl; [exact Hgone|]. intros x Hx. by apply strict_neq_true. }
  exists s', s''. repeat split; try done.
  - by rewrite (getItemCount_spec _ _ Hls'), (spec_itemCount_delete _ _ _ Hi).
  - by apply getTotal_run.
  - by apply getTotal_run.
  - intros Hexact Hexact'.
    by rewrite (lines_total_exact _ Hexact'), (lines_total_exact _ Hexact),
               (spec_total_delete _ _ _ Hi).
Qed.

(** Product 1 (two units at 10.00) removed from the cart with two lines:
    no sum rounds, 25 less 20 is 5. *)
Lemma removeFromCart_deletes_the_line_witness :
  cart_lines cart_two_lines = Some [CartItem.mk product1 2; CartItem.mk product2 1] /\
  exists s',
    ShoppingCartUseCase.removeFromCart (IdNum 1) cart_two_lines = (Return tt, s') /\
    cart_lines s' = Some [CartItem.mk product2 1] /\
    CartRepository.getItemCount s' = (Return 1, s') /\
    CartRepository.getTotal s' = (Return (lines_total [CartItem.mk product2 1]), s') /\
    (lines_total [CartItem.mk product2 1]
     == lines_total [CartItem.mk product1 2; CartItem.mk product2 1] - (10 # 1) * 2)%Q.
Proof.
  assert (cart_lines cart_two_lines
          = Some [CartItem.mk product1 2; CartItem.mk product2 1]) as H
    by (vm_compute; reflexivity).
  assert (NoDup (line_id <$> [CartItem.mk product1 2; CartItem.mk product2 1])) as Hnd.
  { apply NoDup_cons. split; [|apply NoDup_singleton].
    intros Hin. apply list_elem_of_singleton in Hin. discriminate. }
  destruct (removeFromCart_deletes_the_line _ _ (IdNum 1) 0%nat (CartItem.mk product1 2)
              H Hnd eq_refl eq_refl)
    as (s' & s'' & Hrun & Hls' & _ & Hc & _ & Ht' & Heq & _).
  split; [exact H|]. exists s'.
  split; [exact Hrun|]. split; [exact Hls'|]. split; [exact Hc|]. split; [exact Ht'|].
  apply Heq; vm_compute; repeat split.
Defined.

(** ** Adding and removing compose *)

Lemma filter_app_fresh (ls : list CartItem.t) n pid :
  line_id n = pid ->
  Forall (fun o => line_id o <> pid) ls ->
  List.filter (fun item => strict_neq (line_id item) pid) (ls ++ [n]) = ls.
Proof.
  intros Hn Hfresh. rewrite List.filter_app. simpl.
  replace (strict_neq (line_id n) pid) with false
    by (symmetry; by apply strict_neq_false).
  rewrite app_nil_r. apply filter_all_kept.
  eapply Forall_impl; [exact Hfresh|]. intros o Ho. by apply strict_neq_true.
Qed.

(** [addToCart] of a product that the cart has no line for, followed by
    [removeFromCart] of its identifier, gives back the lines the cart had,
    in their order, and with them the total and the count. *)
Theorem addToCart_then_removeFromCart_restores s ls productId p :
  cart_lines s = Some ls ->
  fst (ProductRepository.getById productId s) = Return (Some p) ->
  Forall (fun o => Product.id (CartItem.product o) <> productId) ls ->
  exists s1 s2,
    ShoppingCartUseCase.addToCart productId s = (Return tt, s1) /\
    cart_lines s1 = Some (ls ++ [CartItem.mk p 1]) /\
    ShoppingCartUseCase.removeFromCart productId s1 = (Return tt, s2) /\
    cart_lines s2 = Some ls /\
    fst (CartRepository.getTotal s2) = fst (CartRepository.getTotal s) /\
    fst (CartRepository.getItemCount s2) = fst (CartRepository.getItemCount s).
Proof.
  intros Hls Hget Hfresh. rewrite getById_run in Hget. cbn [fst] in Hget.
  injection Hget as Hfind.
  pose proof (find_some _ _ Hfind) as [_ Hid]. apply strict_eq_true in Hid.
  subst productId.
  destruct (add_new_fresh s ls p Hls Hfresh) as (s1 & Hrun & Hls1 & _).
  destruct (removeItem_run s1 _ (Product.id p) Hls1) as (s2 & Hrun2 & Hls2 & _).
  rewrite (filter_app_fresh ls (CartItem.mk p 1) (Product.id p) eq_refl Hfresh) in Hls2.
  exists s1, s2. rewrite (addToCart_found _ _ _ Hfind).
  repeat split; try done.
  - by rewrite (getTotal_run _ _ Hls2), (getTotal_run _ _ Hls).
  - by rewrite (getItemCount_run _ _ Hls2), (getItemCount_run _ _ Hls).
Qed.

(** Product 2 added to the cart that holds product 1 only, then removed. *)
Lemma addToCart_then_removeFromCart_restores_witness :
  cart_lines cart_two_of_1 = Some [CartItem.mk product1 2] /\
  fst (ProductRepository.getById (IdNum 2) cart_two_of_1) = Return (Some product2) /\
  exists s1 s2,
    ShoppingCartUseCase.addToCart (IdNum 2) cart_two_of_1 = (Return tt, s1) /\
    cart_lines s1 = Some ([CartItem.mk product1 2] ++ [CartItem.mk product2 1]) /\
    ShoppingCartUseCase.removeFromCart (IdNum 2) s1 = (Return tt, s2) /\
    cart_lines s2 = Some [CartItem.mk product1 2] /\
    fst (CartRepository.getTotal s2) = fst (CartRepository.getTotal cart_two_of_1) /\
    fst (CartRepository.getItemCount s2) = fst (CartRepository.getItemCount cart_two_of_1).
Proof.
  assert (cart_lines cart_two_of_1 = Some [CartItem.mk product1 2]) as H
    by (vm_compute; reflexivity).
  assert (fst (ProductRepository.getById (IdNum 2) cart_two_of_1)
          = Return (Some product2)) as Hget by reflexivity.
  split; [exact H|]. split; [exact Hget|].
  apply (addToCart_then_removeFromCart_restores _ _ _ _ H Hget).
  repeat constructor. discriminate.
Defined.

(** ** Quantity changes compose while the line lives *)

Lemma delete_insert_same {A} (l : list A) i x : delete i (<[i := x]> l) = delete i l.
Proof.
  revert i. induction l as [|a l IH]; intros [|i]; simpl; try done.
  by rewrite IH.
Qed.

(** Two [changeQuantity] calls on a line add up to one call with the sum of
    the deltas as long as the first leaves the line in the cart. When the
    first drives the quantity to zero or below, the line is gone and the
    second call finds nothing: no later delta brings the units back. *)
Theorem changeQuantity_composes s ls productId d1 d2 i o :
  cart_lines s = Some ls -> NoDup (line_id <$> ls) ->
  ls !! i = Some o -> Product.id (CartItem.product o) = productId ->
  exists s1 s2 s12,
    ShoppingCartUseCase.changeQuantity productId d1 s = (Return tt, s1) /\
    ShoppingCartUseCase.changeQuantity productId d2 s1 = (Return tt, s2) /\
    ShoppingCartUseCase.changeQuantity productId (d1 + d2) s = (Return tt, s12) /\
    (0 < CartItem.quantity o + d1 -> cart_lines s2 = cart_lines s12) /\
    (CartItem.quantity o + d1 <= 0 -> s2 = s1 /\ cart_lines s2 = Some (delete i ls)).
Proof.
  intros Hls Hnd Hi Hid. unfold ShoppingCartUseCase.changeQuantity.
  fold (line_id o) in Hid.
  destruct (updateQuantity_found s ls productId d1 i o Hls Hnd Hi Hid)
    as (s1 & Hrun1 & Hls1 & _).
  destruct (updateQuantity_found s ls productId (d1 + d2) i o Hls Hnd Hi Hid)
    as (s12 & Hrun12 & Hls12 & _).
  destruct (Z.leb_spec (CartItem.quantity o + d1) 0) as [Hle|Hgt].
  - pose proof (delete_only_line_with_id ls i o Hnd Hi) as Hgone.
    rewrite Hid in Hgone.
    pose proof (updateQuantity_absent s1 _ productId d2 Hls1 Hgone) as Hrun2.
    exists s1, s1, s12. do 3 (split; [done|]). split; [lia | done].
  - set (o1 := CartItem.mk (CartItem.product o) (CartItem.quantity o + d1)) in *.
    assert (NoDup (line_id <$> <[i := o1]> ls)) as Hnd1.
    { rewrite list_fmap_insert. unfold line_id at 1. cbn [CartItem.product o1].
      rewrite list_insert_id; [done|]. by rewrite list_lookup_fmap, Hi. }
    assert (<[i := o1]> ls !! i = Some o1) as Hi1.
    { apply list_lookup_insert_eq. by eapply lookup_lt_Some. }
    destruct (updateQuantity_found s1 _ productId d2 i o1 Hls1 Hnd1 Hi1 Hid)
      as (s2 & Hrun2 & Hls2 & _).
    exists s1, s2, s12. do 3 (split; [done|]). split; [|lia].
    intros _. rewrite Hls2, Hls12. cbn [CartItem.quantity CartItem.product o1].
    rewrite delete_insert_same, list_insert_insert_eq.
    by replace (CartItem.quantity o + d1 + d2) with (CartItem.quantity o + (d1 + d2)) by lia.
Qed.

(** On the line of two units: +3 then -4 is -1 at once (one unit left);
    -2 then +5 leaves no line. *)
Lemma changeQuantity_composes_witness :
  cart_lines cart_two_of_1 = Some [CartItem.mk product1 2] /\
  (exists s1 s2 s12,
     ShoppingCartUseCase.changeQuantity (IdNum 1) 3 cart_two_of_1 = (Return tt, s1) /\
     ShoppingCartUseCase.changeQuantity (IdNum 1) (-4) s1 = (Return tt, s2) /\
     ShoppingCartUseCase.changeQuantity (IdNum 1) (-1) cart_two_of_1 = (Return tt, s12) /\
     cart_lines s2 = cart_lines s12) /\
  (exists s1 s2,
     ShoppingCartUseCase.changeQuantity (IdNum 1) (-2) cart_two_of_1 = (Return tt, s1) /\
     ShoppingCartUseCase.changeQuantity (IdNum 1) 5 s1 = (Return tt, s2) /\
     cart_lines s2 = Some []).
Proof.
  assert (cart_lines cart_two_of_1 = Some [CartItem.mk product1 2]) as H
    by (vm_compute; reflexivity).
  assert (NoDup (line_id <$> [CartItem.mk product1 2])) as Hnd
    by (apply NoDup_singleton).
  split; [exact H|]. split.
  - destruct (changeQuantity_composes _ _ (IdNum 1) 3 (-4) 0%nat _ H Hnd eq_refl eq_refl)
      as (s1 & s2 & s12 & H1 & H2 & H12 & Hpos & _).
    exists s1, s2, s12. split; [exact H1|]. split; [exact H2|]. split; [exact H12|].
    apply Hpos. reflexivity.
  - destruct (changeQuantity_composes _ _ (IdNum 1) (-2) 5 0%nat _ H Hnd eq_refl eq_refl)
      as (s1 & s2 & s12 & H1 & H2 & _ & _ & Hneg).
    exists s1, s2. split; [exact H1|]. split; [exact H2|].
    apply Hneg. discriminate.
Defined.

(** ** What one [addToCart] adds to the aggregates *)

(** A resolved [addToCart] raises the count by exactly 1. For an existing
    line the quantity of that line rises and the line keeps the [Product]
    recorded when it was created, whatever price the catalog lists for the
    identifier now; for a new line the product just resolved is appended
    with one unit. The total is then the total of those lines, summed
    afresh in the arithmetic of doubles: for a new line the former total
    plus the product of its price and 1, rounded; for an existing line the
    former total plus the price of its recorded product when no step of the
    two sums rounds. *)
Theorem addToCart_adds_one_unit s ls productId p :
  cart_lines s = Some ls -> NoDup (line_id <$> ls) ->
  fst (ProductRepository.getById productId s) = Return (Some p) ->
  exists s' ls',
    ShoppingCartUseCase.addToCart productId s = (Return tt, s') /\
    cart_lines s' = Some ls' /\
    CartRepository.getItemCount s' = (Return (spec_itemCount ls + 1), s') /\
    CartRepository.getTotal s = (Return (lines_total ls), s) /\
    CartRepository.getTotal s' = (Return (lines_total ls'), s') /\
    (forall i o,
        ls !! i = Some o -> Product.id (CartItem.product o) = productId ->
        ls' = <[i := CartItem.mk (CartItem.product o) (CartItem.quantity o + 1)]> ls /\
        (exact_from 0 ls -> exact_from 0 ls' ->
           (lines_total ls' == lines_total ls + Product.price (CartItem.product o))%Q)) /\
    (Forall (fun o => Product.id (CartItem.product o) <> productId) ls ->
        ls' = ls ++ [CartItem.mk p 1] /\
        lines_total ls' = js_add (lines_total ls) (js_mul (Product.price p) 1)).
Proof.
  intros Hls Hnd Hget. rewrite getById_run in Hget. cbn [fst] in Hget.
  injection Hget as Hfind.
  pose proof (find_some _ _ Hfind) as [_ Hid]. apply strict_eq_true in Hid.
  subst productId. rewrite (addToCart_found _ _ _ Hfind).
  destruct (find_line ls (Product.id p)) as [(i & o & Hi & Hio) | Hfresh].
  - destruct (add_new_existing s ls p i o Hls Hnd Hi Hio) as (s' & Hrun & Hls' & _).
    exists s'. eexists. split; [exact Hrun|]. split; [exact Hls'|].
    split; [|split; [by apply getTotal_run|split; [by apply getTotal_run|split]]].
    + rewrite (getItemCount_spec _ _ Hls'), (spec_itemCount_insert _ _ _ _ Hi).
      cbn [CartItem.quantity]. apply (f_equal (fun x : Z => (Return x, s'))). lia.
    + intros i' o' Hi' Hio'.
      assert (i' = i) as ->.
      { apply (NoDup_line_id_lookup ls i' i o' o Hnd Hi' Hi).
        unfold line_id in *. congruence. }
      assert (o' = o) as -> by congruence.
      split; [done|]. intros Hexact Hexact'.
      rewrite (lines_total_exact _ Hexact'), (lines_total_exact _ Hexact),
              (spec_total_insert _ _ _ _ Hi).
      cbn [CartItem.quantity CartItem.product]. rewrite inject_Z_plus. ring.
    + intros Hall. rewrite Forall_lookup in Hall. by destruct (Hall _ _ Hi).
  - destruct (add_new_fresh s ls p Hls Hfresh) as (s' & Hrun & Hls' & _).
    exists s'. eexists. split; [exact Hrun|]. split; [exact Hls'|].
    split; [|split; [by apply getTotal_run|split; [by apply getTotal_run|split]]].
    + rewrite (getItemCount_spec _ _ Hls'), spec_itemCount_app. simpl.
      apply (f_equal (fun x : Z => (Return x, s'))). lia.
    + intros i o Hi Hio. rewrite Forall_lookup in Hfresh. by destruct (Hfresh _ _ Hi).
    + intros _. split; [done|]. by rewrite lines_total_snoc.
Qed.

(** The third unit of product 1 is charged 10.00, not the 12.00 of the
    catalog: no sum rounds and the total goes from 20 to 30. *)
Lemma addToCart_adds_one_unit_witness :
  cart_lines cart_after_reprice = Some [CartItem.mk product1 2] /\
  fst (ProductRepository.getById (IdNum 1) cart_after_reprice)
    = Return (Some (Product.new (IdNum 1) "Mochila" (12 # 1) "img/1.png")) /\
  exists s',
    ShoppingCartUseCase.addToCart (IdNum 1) cart_after_reprice = (Return tt, s') /\
    cart_lines s' = Some [CartItem.mk product1 3] /\
    CartRepository.getItemCount s' = (Return 3, s') /\
    CartRepository.getTotal s' = (Return (lines_total [CartItem.mk product1 3]), s') /\
    (lines_total [CartItem.mk product1 3]
     == lines_total [CartItem.mk product1 2] + (10 # 1))%Q.
Proof.
  assert (cart_lines cart_after_reprice = Some [CartItem.mk product1 2]) as H
    by (vm_compute; reflexivity).
  assert (NoDup (line_id <$> [CartItem.mk product1 2])) as Hnd
    by (apply NoDup_singleton).
  assert (fst (ProductRepository.getById (IdNum 1) cart_after_reprice)
          = Return (Some (Product.new (IdNum 1) "Mochila" (12 # 1) "img/1.png")))
    as Hget by reflexivity.
  split; [exact H|]. split; [exact Hget|].
  destruct (addToCart_adds_one_unit _ _ _ _ H Hnd Hget)
    as (s' & ls' & Hrun & Hls' & Hc & _ & Ht' & Hold & _).
  destruct (Hold 0%nat (CartItem.mk product1 2) eq_refl eq_refl) as [-> Hsum].
  exists s'. split; [exact Hrun|]. split; [exact Hls'|]. split; [exact Hc|].
  split; [exact Ht'|].
  apply Hsum; vm_compute; repeat split.
Defined.

(** ** Looking up what was fetched *)

Lemma fetchAll_records_run ps s :
  ProductRepository.fetchAll (JsonResolves (JArray (record_of <$> ps))) s
  = (Return ps, mkState (cartItemObjs s) (arrayObjs s) ps (items s)).
Proof.
  destruct (fetchAll_cases (JsonResolves (JArray (record_of <$> ps))) s)
    as [(e & Hc & _) | (ps' & Hw & Hrun)].
  - by destruct (failure_cause_not_records _ _ ps Hc).
  - injection Hw as Hw. apply (inj (fmap record_of)) in Hw as ->. done.
Qed.

Lemma find_first {A} (f : A -> bool) (l : list A) x :
  List.find f l = Some x <->
  exists j, l !! j = Some x /\ f x = true /\
            forall k y, (k < j)%nat -> l !! k = Some y -> f y = false.
Proof.
  induction l as [|a l IH]; simpl.
  - split; [done | by intros (j & Hj & _)].
  - destruct (f a) eqn:Ha.
    + split.
      * intros [= <-]. exists 0%nat. repeat split; try done. intros; lia.
      * intros ([|j] & Hj & Hx & Hbefore).
        -- simpl in Hj. congruence.
        -- specialize (Hbefore 0%nat a). simpl in Hbefore.
           rewrite Hbefore in Ha; [done | lia | done].
    + rewrite IH. split.
      * intros (j & Hj & Hx & Hbefore). exists (S j). repeat split; try done.
        intros [|k] y Hk Hy; simpl in Hy; [congruence|]. apply (Hbefore k); [lia | done].
      * intros ([|j] & Hj & Hx & Hbefore); simpl in Hj; [congruence|].
        exists j. repeat split; try done.
        intros k y Hk Hy. apply (Hbefore (S k)); [lia | done].
Qed.

(** After a successful [fetchAll], [getById] answers from the fetched
    records: it returns the product of the first record that has the
    identifier, so a later record with the same identifier is never
    returned for it; it returns [undefined] exactly for the identifiers of
    no record; and when the identifiers are pairwise different, every
    fetched product is found under its own identifier. *)
Theorem getById_after_fetchAll ps s :
  exists s',
    ProductRepository.fetchAll (JsonResolves (JArray (record_of <$> ps))) s
      = (Return ps, s') /\
    (forall id p,
        fst (ProductRepository.getById id s') = Return (Some p) <->
        exists j, ps !! j = Some p /\ Product.id p = id /\
                  forall k q, (k < j)%nat -> ps !! k = Some q -> Product.id q <> id) /\
    (forall id,
        fst (ProductRepository.getById id s') = Return None <->
        Forall (fun p => Product.id p <> id) ps) /\
    (NoDup (Product.id <$> ps) ->
     forall p, In p ps -> fst (ProductRepository.getById (Product.id p) s') = Return (Some p)).
Proof.
  eexists. split; [apply fetchAll_records_run|].
  assert (forall id p,
    fst (ProductRepository.getById id
           (mkState (cartItemObjs s) (arrayObjs s) ps (items s))) = Return (Some p) <->
    exists j, ps !! j = Some p /\ Product.id p = id /\
              forall k q, (k < j)%nat -> ps !! k = Some q -> Product.id q <> id) as Hsome.
  { intros id p. rewrite getById_run. cbn [fst products]. split.
    - intros [= Hfind]. apply find_first in Hfind as (j & Hj & Hp & Hbefore).
      exists j. split; [done|]. split; [by apply strict_eq_true|].
      intros k q Hk Hq. apply strict_eq_false. by apply (Hbefore k).
    - intros (j & Hj & Hp & Hbefore). f_equal. apply find_first.
      exists j. split; [done|]. split; [by apply strict_eq_true|].
      intros k q Hk Hq. apply strict_eq_false. by apply (Hbefore k). }
  split; [exact Hsome|]. split.
  - intros id. rewrite getById_run. cbn [fst products]. split.
    + intros [= Hfind]. apply Forall_forall. intros p Hp.
      apply list_elem_of_In in Hp.
      apply strict_eq_false. apply (find_none _ _ Hfind p Hp).
    + intros Hall. f_equal.
      destruct (List.find _ ps) as [p|] eqn:Hfind; [|done].
      apply find_some in Hfind as [Hin Hp]. apply strict_eq_true in Hp.
      rewrite Forall_forall in Hall. apply list_elem_of_In in Hin.
      by destruct (Hall p Hin).
  - intros Hnd p Hin. apply Hsome.
    apply list_elem_of_In, list_elem_of_lookup_1 in Hin as [j Hj].
    exists j. split; [done|]. split; [done|].
    intros k q Hk Hq Heq.
    assert (k = j); [|lia].
    eapply NoDup_lookup; [exact Hnd| |].
    + by rewrite list_lookup_fmap, Hq.
    + rewrite list_lookup_fmap, Hj. simpl. by rewrite Heq.
Qed.

(** ** The count and the number of lines *)

Lemma length_le_spec_itemCount ls :
  Forall (fun o => 1 <= CartItem.quantity o) ls ->
  Z.of_nat (length ls) <= spec_itemCount ls.
Proof.
  induction 1 as [|o ls Ho _ IH]; [done|].
  rewrite length_cons, Nat2Z.inj_succ. cbn [spec_itemCount foldr].
  fold (spec_itemCount ls). lia.
Qed.

(** After every sequence of operations from the initial state,
    [getItemCount()] is at least the number of lines, and it is 0 exactly
    when the cart has no line: the badge of the cart shows 0 if and only if
    [checkout] would find the cart empty. *)
Theorem itemCount_is_zero_iff_no_line (os : list Op) :
  exists s ls c,
    run_ops os init = (Return tt, s) /\
    cart_lines s = Some ls /\
    CartRepository.getItemCount s = (Return c, s) /\
    Z.of_nat (length ls) <= c /\
    (c = 0 <-> ls = []).
Proof.
  destruct (cart_inv_run_ops os init [] cart_inv_init)
    as (s & ls & Hrun & [Hls Hnd Hpos] & _).
  exists s, ls, (spec_itemCount ls).
  pose proof (length_le_spec_itemCount ls Hpos) as Hlen.
  split; [done|]. split; [done|]. split; [by apply getItemCount_spec|].
  split; [done|]. split.
  - intros Hz. destruct ls; [done|].
    rewrite length_cons, Nat2Z.inj_succ in Hlen. lia.
  - by intros ->.
Qed.

(** ** What an array obtained from [getItems] shows later *)

Lemma lines_of_grown s s' a ls tail :
  cartItemObjs s' = cartItemObjs s -> arrayObjs s' = arrayObjs s ++ tail ->
  lines_of s a = Some ls -> lines_of s' a = Some ls.
Proof.
  intros Hobjs Harrs. rewrite !lines_of_Some, Hobjs, Harrs.
  intros (elems & Harr & Hderef). exists elems. split; [|done].
  by apply lookup_app_l_Some.
Qed.

Lemma add_new_same_array s ls p :
  cart_lines s = Some ls -> NoDup (line_id <$> ls) ->
  exists s', add_new p s = (Return tt, s') /\ items s' = items s.
Proof.
  intros Hls Hnd.
  destruct (new_CartItem_run s p) as (s1 & Hnew & Hobjs & Harrs & Hit & Hps).
  pose proof (cart_lines_alloc_item _ _ _ _ Hobjs Harrs Hit Hls) as Hls1.
  assert (cartItemObjs s1 !! length (cartItemObjs s) = Some (CartItem.mk p 1)) as Hn.
  { rewrite Hobjs. by apply list_lookup_middle. }
  unfold add_new. run_with Hnew.
  destruct (find_line ls (Product.id p)) as [(i & o & Hi & Hid) | Hfresh].
  - destruct (addItem_existing s1 ls _ _ i o Hls1 Hnd Hn Hi Hid)
      as (s' & Hrun & _ & Hit' & _).
    exists s'. split; [done | congruence].
  - destruct (addItem_fresh s1 ls _ _ Hls1 Hn Hfresh) as (s' & Hrun & _ & Hit' & _).
    exists s'. split; [done | congruence].
Qed.

(** Through the array that the cart had before [updateQuantity], the line
    is seen with the new quantity, whether the cart keeps the line or not. *)
Lemma updateQuantity_old_array s ls productId delta i o :
  cart_lines s = Some ls -> NoDup (line_id <$> ls) ->
  ls !! i = Some o -> line_id o = productId ->
  exists s',
    CartRepository.updateQuantity productId delta s = (Return tt, s') /\
    lines_of s' (items s) =
      Some (<[i := CartItem.mk (CartItem.product o) (CartItem.quantity o + delta)]> ls).
Proof.
  intros Hls Hnd Hi Hid.
  apply cart_lines_Some in Hls as (elems & Harr & Hderef).
  destruct (array_find_run
              (fun item => p ← get_product item; mret (strict_eq (Product.id p) productId))
              (fun o => strict_eq (line_id o) productId)
              elems s ls
              (fun r o => id_callback_run (fun i => strict_eq i productId) s r o) Hderef)
    as (res & Hfind & Hres).
  destruct (find_result_unique ls productId i o res elems Hnd Hi Hid Hres)
    as (r & -> & Hr).
  destruct (deref_lookup _ _ _ _ _ Hderef Hr) as (o' & Ho' & Hobj).
  assert (o' = o) as -> by congruence.
  set (o2 := CartItem.mk (CartItem.product o) (CartItem.quantity o + delta)).
  set (s1 := mkState (<[r := o2]> (cartItemObjs s)) (arrayObjs s) (products s) (items s)).
  assert (set_quantity r (CartItem.quantity o + delta) s = (Return tt, s1)) as Hwrite.
  { unfold set_quantity. by rewrite Hobj. }
  assert (cartItemObjs s1 !! r = Some o2) as Hobj1.
  { apply list_lookup_insert_eq. by eapply lookup_lt_Some. }
  assert (cart_lines s1 = Some (<[i := o2]> ls)) as Hls1.
  { apply cart_lines_Some. exists elems. split; [done|].
    apply deref_write; [done | by eapply deref_NoDup | done]. }
  unfold CartRepository.updateQuantity.
  run_refl. run_with (read_array_run _ _ _ Harr). run_with Hfind.
  run_with (get_quantity_run _ _ _ Hobj). run_with Hwrite.
  run_with (get_quantity_run _ _ _ Hobj1).
  cbn [CartItem.quantity o2].
  destruct (CartItem.quantity o + delta <=? 0).
  - destruct (removeItem_run s1 _ productId Hls1)
      as (s' & Hrun & _ & _ & Hobjs' & _ & kept & Harrs' & _).
    exists s'. split; [done|].
    by apply (lines_of_grown s1 s' (items s) _ [kept]).
  - exists s1. done.
Qed.

(** [getItems] returns the array of the repository, not a copy. Through a
    reference obtained before the next operation, an added line and a
    changed quantity are seen, also the quantity of zero or less of a line
    that [updateQuantity] then drops from the cart; a removal and a [clear]
    are not seen, the reference keeps every line it had. *)
Theorem getItems_returns_the_live_array s ls :
  cart_lines s = Some ls -> NoDup (line_id <$> ls) ->
  exists a,
    CartRepository.getItems s = (Return a, s) /\
    lines_of s a = Some ls /\
    (forall p, exists s',
        (cartItem ← CartItemClass.new p None; CartRepository.addItem cartItem) s
          = (Return tt, s') /\
        lines_of s' a = cart_lines s' /\
        (forall i o,
            ls !! i = Some o -> Product.id (CartItem.product o) = Product.id p ->
            lines_of s' a =
              Some (<[i := CartItem.mk (CartItem.product o) (CartItem.quantity o + 1)]> ls)) /\
        (Forall (fun o => Product.id (CartItem.product o) <> Product.id p) ls ->
            lines_of s' a = Some (ls ++ [CartItem.mk p 1]))) /\
    (forall productId delta i o,
        ls !! i = Some o -> Product.id (CartItem.product o) = productId ->
        exists s',
          CartRepository.updateQuantity productId delta s = (Return tt, s') /\
          lines_of s' a =
            Some (<[i := CartItem.mk (CartItem.product o) (CartItem.quantity o + delta)]> ls) /\
          (CartItem.quantity o + delta <= 0 -> cart_lines s' = Some (delete i ls))) /\
    (forall productId, exists s',
        CartRepository.removeItem productId s = (Return tt, s') /\
        lines_of s' a = Some ls) /\
    lines_of (snd (CartRepository.clear s)) a = Some ls.
Proof.
  intros Hls Hnd. exists (items s). split; [done|]. split; [done|].
  split; [|split; [|split]].
  - intros p. fold (add_new p).
    destruct (add_new_same_array s ls p Hls Hnd) as (s' & Hrun & Hit).
    exists s'. split; [done|].
    assert (lines_of s' (items s) = cart_lines s') as Hsame
        by (unfold cart_lines; by rewrite Hit).
    split; [done|]. rewrite Hsame. split.
    + intros i o Hi Hid.
      destruct (add_new_existing s ls p i o Hls Hnd Hi Hid) as (s2 & Hrun2 & Hls2 & _).
      rewrite Hrun in Hrun2. by injection Hrun2 as <-.
    + intros Hfresh.
      destruct (add_new_fresh s ls p Hls Hfresh) as (s2 & Hrun2 & Hls2 & _).
      rewrite Hrun in Hrun2. by injection Hrun2 as <-.
  - intros productId delta i o Hi Hid.
    destruct (updateQuantity_old_array s ls productId delta i o Hls Hnd Hi Hid)
      as (s' & Hrun & Hview).
    exists s'. split; [done|]. split; [done|]. intros Hle.
    destruct (updateQuantity_found s ls productId delta i o Hls Hnd Hi Hid)
      as (s2 & Hrun2 & Hls2 & _).
    rewrite Hrun in Hrun2. injection Hrun2 as <-. rewrite Hls2.
    by destruct (Z.leb_spec (CartItem.quantity o + delta) 0); [|lia].
  - intros productId.
    destruct (removeItem_run s ls productId Hls)
      as (s' & Hrun & _ & _ & Hobjs' & _ & kept & Harrs' & _).
    exists s'. split; [done|]. by apply (lines_of_grown s s' (items s) _ [kept]).
  - by apply lines_of_clear.
Qed.

(** The array of the cart with one line of two units, obtained before
    [changeQuantity(1, -2)]: afterwards the cart is empty and the array
    shows the line with quantity 0. *)
Lemma getItems_returns_the_live_array_witness :
  cart_lines cart_two_of_1 = Some [CartItem.mk product1 2] /\
  exists a s',
    CartRepository.getItems cart_two_of_1 = (Return a, cart_two_of_1) /\
    CartRepository.updateQuantity (IdNum 1) (-2) cart_two_of_1 = (Return tt, s') /\
    lines_of s' a = Some [CartItem.mk product1 0] /\
    cart_lines s' = Some [].
Proof.
  assert (cart_lines cart_two_of_1 = Some [CartItem.mk product1 2]) as H
    by (vm_compute; reflexivity).
  assert (NoDup (line_id <$> [CartItem.mk product1 2])) as Hnd
    by (apply NoDup_singleton).
  split; [exact H|].
  destruct (getItems_returns_the_live_array _ _ H Hnd)
    as (a & Hget & _ & _ & Hupd & _).
  destruct (Hupd (IdNum 1) (-2) 0%nat (CartItem.mk product1 2) eq_refl eq_refl)
    as (s' & Hrun & Hview & Hcart).
  exists a, s'. split; [exact Hget|]. split; [exact Hrun|]. split; [exact Hview|].
  apply Hcart. discriminate.
Defined.

(** * Properties of the checkout page *)

(** ** Running code in the window *)

Lemma bindW_Return {A B} (m : W A) (f : A -> W B) w a w' :
  m w = (Return a, w') -> (m ≫= f) w = f a w'.
Proof. intros H. unfold mbind, W_bind. by rewrite H. Qed.

Lemma bindW_Throw {A B} (m : W A) (f : A -> W B) w e w' :
  m w = (Throw e, w') -> (m ≫= f) w = (Throw e, w').
Proof. intros H. unfold mbind, W_bind. by rewrite H. Qed.

Ltac runW_with H := rewrite (bindW_Return _ _ _ _ _ H).

Lemma lift_run {A} (m : M A) w c s :
  m (app w) = (c, s) ->
  lift m w = (c, mkWindow s (checkoutPages w) (currentCheckoutInstance w)
                          (checkout_document w) (alerts w) (location_href w)).
Proof. intros H. unfold lift. by rewrite H. Qed.

Lemma read_page_run w this page :
  checkoutPages w !! this = Some page -> read_page this w = (Return page, w).
Proof. intros H. unfold read_page. by rewrite H. Qed.

Lemma update_dom_run f w d :
  checkout_document w = Some d ->
  update_dom f w =
    (Return tt, mkWindow (app w) (checkoutPages w) (currentCheckoutInstance w)
                         (Some (f d)) (alerts w) (location_href w)).
Proof. intros H. unfold update_dom. by rewrite H. Qed.

Ltac run_dom :=
  match goal with
  | |- context [ (update_dom ?f ≫= _) ?w ] =>
      let H := fresh in
      eassert (update_dom f w = _) as H
        by (apply update_dom_run; first [eassumption | reflexivity]);
      rewrite (bindW_Return _ _ _ _ _ H); clear H
  end.

Ltac end_dom :=
  match goal with
  | |- context [ update_dom ?f ?w ] =>
      let H := fresh in
      eassert (update_dom f w = _) as H
        by (apply update_dom_run; first [eassumption | reflexivity]);
      rewrite H; clear H
  end.

(** [updateTotals] on a page whose shipping is a number. *)
Lemma updateTotals_run w this page x d :
  checkoutPages w !! this = Some page -> CheckoutPage.shipping page = VNum x ->
  checkout_document w = Some d ->
  CheckoutPageClass.updateTotals this w =
    (Return tt,
     mkWindow (app w) (checkoutPages w) (currentCheckoutInstance w)
       (Some (mkCheckoutDom (cart_summary d) (rua_value d) (bairro_value d)
                (cidade_value d) (uf_value d)
                (ToFixed2 (CheckoutPage.total page)) (ToFixed2 x)
                (ToFixed2 (js_add (CheckoutPage.total page) x)) (body_scripts d)))
       (alerts w) (location_href w)).
Proof.
  intros Hpage Hship Hd. unfold CheckoutPageClass.updateTotals.
  runW_with (read_page_run _ _ _ Hpage).
  unfold set_subtotal_text. run_dom.
  rewrite Hship. unfold set_shipping_text, set_total_text.
  run_dom. end_dom. reflexivity.
Qed.

(** [updateTotals] on a page whose shipping is an inherited object. *)
Lemma updateTotals_throws w this page key d :
  checkoutPages w !! this = Some page -> CheckoutPage.shipping page = VObject key ->
  checkout_document w = Some d ->
  CheckoutPageClass.updateTotals this w =
    (Throw (TypeError "this.shipping.toFixed is not a function"),
     mkWindow (app w) (checkoutPages w) (currentCheckoutInstance w)
       (Some (mkCheckoutDom (cart_summary d) (rua_value d) (bairro_value d)
                (cidade_value d) (uf_value d)
                (ToFixed2 (CheckoutPage.total page)) (shipping_text d)
                (total_text d) (body_scripts d)))
       (alerts w) (location_href w)).
Proof.
  intros Hpage Hship Hd. unfold CheckoutPageClass.updateTotals.
  runW_with (read_page_run _ _ _ Hpage).
  unfold set_subtotal_text. run_dom.
  by rewrite Hship.
Qed.

(** ** The rates *)

Lemma own_property_shippingRates state :
  own_property shippingRates state =
    if String.eqb state "SP" then Some (10 # 1)%Q
    else if String.eqb state "RJ" then Some (15 # 1)%Q
    else if String.eqb state "MG" then Some (20 # 1)%Q
    else None.
Proof.
  unfold shippingRates. cbn [own_property].
  rewrite !(String.eqb_sym _ state). reflexivity.
Qed.

Lemma existsb_eqb_In key keys :
  existsb (String.eqb key) keys = true <-> In key keys.
Proof.
  rewrite existsb_exists. split.
  - intros (x & Hin & Heq). apply String.eqb_eq in Heq. by subst.
  - intros Hin. exists key. split; [done | apply String.eqb_refl].
Qed.

Lemma keys_are_not_rates key :
  In key Object_prototype_keys -> own_property shippingRates key = None.
Proof.
  intros Hin. unfold Object_prototype_keys in Hin. simpl in Hin.
  repeat (destruct Hin as [<-|Hin]; [reflexivity|]). done.
Qed.

(** The value that [shippingRates[state] || 30] gives. *)
Lemma shipping_value_plain state :
  ~ In state Object_prototype_keys ->
  js_or (object_get shippingRates state) (VNum (30 # 1)) = VNum (rate_of state).
Proof.
  intros Hnot. unfold object_get, rate_of. rewrite own_property_shippingRates.
  destruct (String.eqb state "SP"); [done|].
  destruct (String.eqb state "RJ"); [done|].
  destruct (String.eqb state "MG"); [done|].
  destruct (existsb _ _) eqn:Hex; [|done].
  by apply existsb_eqb_In in Hex.
Qed.

Lemma shipping_value_inherited state :
  In state Object_prototype_keys ->
  js_or (object_get shippingRates state) (VNum (30 # 1)) = VObject state.
Proof.
  intros Hin. unfold object_get. rewrite (keys_are_not_rates _ Hin).
  apply existsb_eqb_In in Hin. by rewrite Hin.
Qed.

Lemma rate_of_cases state :
  In (rate_of state) [0 # 1; 10 # 1; 15 # 1; 20 # 1; 30 # 1]%Q.
Proof.
  unfold rate_of. simpl.
  destruct (String.eqb state "SP"); [tauto|].
  destruct (String.eqb state "RJ"); [tauto|].
  destruct (String.eqb state "MG"); tauto.
Qed.

Lemma set_shipping_run w this page v :
  checkoutPages w !! this = Some page ->
  set_shipping this v w =
    (Return tt,
     mkWindow (app w)
       (<[this := CheckoutPage.mk (CheckoutPage.cartItems page) (CheckoutPage.total page) v]>
          (checkoutPages w))
       (currentCheckoutInstance w) (checkout_document w) (alerts w) (location_href w)).
Proof. intros H. unfold set_shipping. by rewrite H. Qed.

Lemma calculateShipping_run_plain w this page d state :
  checkoutPages w !! this = Some page -> checkout_document w = Some d ->
  ~ In state Object_prototype_keys ->
  CheckoutPageClass.calculateShipping this state w =
    (Return tt,
     mkWindow (app w)
       (<[this := CheckoutPage.mk (CheckoutPage.cartItems page) (CheckoutPage.total page)
                                  (VNum (rate_of state))]> (checkoutPages w))
       (currentCheckoutInstance w)
       (Some (mkCheckoutDom (cart_summary d) (rua_value d) (bairro_value d)
                (cidade_value d) (uf_value d)
                (ToFixed2 (CheckoutPage.total page)) (ToFixed2 (rate_of state))
                (ToFixed2 (js_add (CheckoutPage.total page) (rate_of state))) (body_scripts d)))
       (alerts w) (location_href w)).
Proof.
  intros Hpage Hd Hplain. unfold CheckoutPageClass.calculateShipping.
  rewrite (shipping_value_plain _ Hplain).
  runW_with (set_shipping_run _ _ _ (VNum (rate_of state)) Hpage).
  rewrite (updateTotals_run _ this
             (CheckoutPage.mk (CheckoutPage.cartItems page) (CheckoutPage.total page)
                              (VNum (rate_of state))) (rate_of state) d);
    [reflexivity | | reflexivity | exact Hd].
  cbn [checkoutPages]. apply list_lookup_insert_eq. by eapply lookup_lt_Some.
Qed.

Lemma calculateShipping_run_inherited w this page d state :
  checkoutPages w !! this = Some page -> checkout_document w = Some d ->
  In state Object_prototype_keys ->
  CheckoutPageClass.calculateShipping this state w =
    (Throw (TypeError "this.shipping.toFixed is not a function"),
     mkWindow (app w)
       (<[this := CheckoutPage.mk (CheckoutPage.cartItems page) (CheckoutPage.total page)
                                  (VObject state)]> (checkoutPages w))
       (currentCheckoutInstance w)
       (Some (mkCheckoutDom (cart_summary d) (rua_value d) (bairro_value d)
                (cidade_value d) (uf_value d)
                (ToFixed2 (CheckoutPage.total page)) (shipping_text d)
                (total_text d) (body_scripts d)))
       (alerts w) (location_href w)).
Proof.
  intros Hpage Hd Hin. unfold CheckoutPageClass.calculateShipping.
  rewrite (shipping_value_inherited _ Hin).
  runW_with (set_shipping_run _ _ _ (VObject state) Hpage).
  rewrite (updateTotals_throws _ this
             (CheckoutPage.mk (CheckoutPage.cartItems page) (CheckoutPage.total page)
                              (VObject state)) state d);
    [reflexivity | | reflexivity | exact Hd].
  cbn [checkoutPages]. apply list_lookup_insert_eq. by eapply lookup_lt_Some.
Qed.

(** A code of two characters, as every state code is, names no property of
    [Object.prototype]. *)
Lemma two_letter_codes_are_plain state :
  String.length state = 2%nat -> ~ In state Object_prototype_keys.
Proof.
  intros Hlen Hin. unfold Object_prototype_keys in Hin. simpl in Hin.
  repeat (destruct Hin as [<-|Hin]; [discriminate Hlen|]). done.
Qed.

(** [calculateShipping] for a state code that is not the name of a property
    of [Object.prototype] (no code of two letters is): the shipping of the
    page becomes 10 for SP, 15 for RJ, 20 for MG and 30 for every other
    code, lower-case spellings included; the page shows the subtotal, that
    rate and their sum; the address, the summary, the alerts and the cart
    are left as they were. *)
Theorem calculateShipping_sets_the_rate w this page d state :
  checkoutPages w !! this = Some page -> checkout_document w = Some d ->
  ~ In state Object_prototype_keys ->
  exists w' d',
    CheckoutPageClass.calculateShipping this state w = (Return tt, w') /\
    checkoutPages w' !! this =
      Some (CheckoutPage.mk (CheckoutPage.cartItems page) (CheckoutPage.total page)
              (VNum (if String.eqb state "SP" then 10 # 1
                     else if String.eqb state "RJ" then 15 # 1
                     else if String.eqb state "MG" then 20 # 1
                     else 30 # 1))) /\
    checkout_document w' = Some d' /\
    subtotal_text d' = ToFixed2 (CheckoutPage.total page) /\
    shipping_text d' = ToFixed2 (rate_of state) /\
    total_text d' = ToFixed2 (js_add (CheckoutPage.total page) (rate_of state)) /\
    (rua_value d', bairro_value d', cidade_value d', uf_value d')
      = (rua_value d, bairro_value d, cidade_value d, uf_value d) /\
    cart_summary d' = cart_summary d /\ body_scripts d' = body_scripts d /\
    alerts w' = alerts w /\ app w' = app w.
Proof.
  intros Hpage Hd Hplain. eexists _, _.
  split; [by apply calculateShipping_run_plain|].
  cbn [checkoutPages checkout_document alerts app subtotal_text shipping_text total_text
       rua_value bairro_value cidade_value uf_value cart_summary body_scripts].
  split; [apply list_lookup_insert_eq; by eapply lookup_lt_Some|].
  by do 8 (split; [reflexivity|]).
Qed.

Lemma checkout_window_page :
  checkoutPages checkout_window !! 0%nat
    = Some (CheckoutPage.mk (items cart_two_lines) (25 # 1) (VNum (0 # 1))) /\
  currentCheckoutInstance checkout_window = Some 0%nat /\
  checkout_document checkout_window =
    Some (mkCheckoutDom
            [mkSummaryItem "img/1.png" "Mochila" 2 (ToFixed2 (20 # 1));
             mkSummaryItem "img/2.png" "Camiseta" 1 (ToFixed2 (5 # 1))]
            "" "" "" "" (ToFixed2 (25 # 1)) (ToFixed2 (0 # 1)) (ToFixed2 (25 # 1)) []).
Proof. vm_compute. done. Qed.

(** The page of the sample checkout and the state code RJ: 25 + 15. *)
Lemma calculateShipping_sets_the_rate_witness :
  ~ In "RJ"%string Object_prototype_keys /\
  exists w' d',
    CheckoutPageClass.calculateShipping 0%nat "RJ" checkout_window = (Return tt, w') /\
    checkoutPages w' !! 0%nat
      = Some (CheckoutPage.mk (items cart_two_lines) (25 # 1) (VNum (15 # 1))) /\
    checkout_document w' = Some d' /\
    subtotal_text d' = ToFixed2 (25 # 1) /\
    shipping_text d' = ToFixed2 (15 # 1) /\
    total_text d' = ToFixed2 (js_add (25 # 1) (15 # 1)).
Proof.
  destruct checkout_window_page as (Hpage & _ & Hd).
  assert (~ In "RJ"%string Object_prototype_keys) as Hplain
    by (by apply two_letter_codes_are_plain).
  split; [exact Hplain|].
  destruct (calculateShipping_sets_the_rate _ _ _ _ "RJ" Hpage Hd Hplain)
    as (w' & d' & Hrun & Hp & Hd' & Hsub & Hship & Htot & _).
  exists w', d'. repeat split; assumption.
Defined.

(** [calculateShipping] for a state code that names a property of
    [Object.prototype], such as [constructor] or [toString]: the lookup in
    the table finds the inherited object, which is truthy, so the field
    [shipping] holds that object and no rate; [updateTotals] then throws a
    [TypeError] after it has written the subtotal, and the shipping and the
    total that the page shows keep their former text. *)
Theorem calculateShipping_inherited_key_throws w this page d state :
  checkoutPages w !! this = Some page -> checkout_document w = Some d ->
  In state Object_prototype_keys ->
  exists w' d',
    CheckoutPageClass.calculateShipping this state w
      = (Throw (TypeError "this.shipping.toFixed is not a function"), w') /\
    checkoutPages w' !! this =
      Some (CheckoutPage.mk (CheckoutPage.cartItems page) (CheckoutPage.total page)
                            (VObject state)) /\
    checkout_document w' = Some d' /\
    subtotal_text d' = ToFixed2 (CheckoutPage.total page) /\
    shipping_text d' = shipping_text d /\
    total_text d' = total_text d.
Proof.
  intros Hpage Hd Hin. eexists _, _.
  split; [by apply calculateShipping_run_inherited|].
  cbn [checkoutPages checkout_document subtotal_text shipping_text total_text].
  split; [apply list_lookup_insert_eq; by eapply lookup_lt_Some|].
  by do 3 (split; [reflexivity|]).
Qed.

Lemma calculateShipping_inherited_key_throws_witness :
  In "constructor"%string Object_prototype_keys /\
  exists w' d',
    CheckoutPageClass.calculateShipping 0%nat "constructor" checkout_window
      = (Throw (TypeError "this.shipping.toFixed is not a function"), w') /\
    checkoutPages w' !! 0%nat
      = Some (CheckoutPage.mk (items cart_two_lines) (25 # 1) (VObject "constructor")) /\
    checkout_document w' = Some d' /\
    subtotal_text d' = ToFixed2 (25 # 1) /\
    shipping_text d' = ToFixed2 (0 # 1) /\
    total_text d' = ToFixed2 (25 # 1).
Proof.
  destruct checkout_window_page as (Hpage & _ & Hd).
  assert (In "constructor"%string Object_prototype_keys) as Hin by (by left).
  split; [exact Hin|].
  exact (calculateShipping_inherited_key_throws _ _ _ _ "constructor" Hpage Hd Hin).
Defined.

(** ** The postal code *)

Lemma remove_non_digits_digits_of valor :
  remove_non_digits valor = String.string_of_list_ascii (digits_of valor).
Proof.
  unfold digits_of. induction valor as [|c rest IH]; simpl; [done|].
  destruct (is_digit c); simpl; by rewrite IH.
Qed.

Lemma digits_of_are_digits valor : Forall (fun c => is_digit c = true) (digits_of valor).
Proof.
  unfold digits_of. apply Forall_forall. intros c Hc.
  apply list_elem_of_In, filter_In in Hc. tauto.
Qed.

Lemma digits_then_end_length l n :
  Forall (fun c => is_digit c = true) l ->
  digits_then_end n (String.string_of_list_ascii l) = (length l =? n)%nat.
Proof.
  intros Hl. revert n. induction Hl as [|c l Hc _ IH]; intros [|n]; simpl; try done.
  by rewrite Hc, IH.
Qed.

Lemma validacep_test_digits valor :
  validacep_test (remove_non_digits valor) = (length (digits_of valor) =? 8)%nat.
Proof.
  unfold validacep_test. rewrite remove_non_digits_digits_of.
  apply digits_then_end_length, digits_of_are_digits.
Qed.

Lemma no_digits_empty valor :
  String.eqb (remove_non_digits valor) "" = true <-> digits_of valor = [].
Proof.
  rewrite remove_non_digits_digits_of.
  destruct (digits_of valor); simpl; split; congruence.
Qed.

Lemma set_address_run w d r b c u :
  checkout_document w = Some d ->
  (set_rua r;; set_bairro b;; set_cidade c;; set_uf u) w
  = (Return tt, with_document w (with_address d r b c u)).
Proof.
  intros Hd. unfold set_rua, set_bairro, set_cidade, set_uf.
  do 3 run_dom. end_dom. reflexivity.
Qed.

Lemma limpa_formulario_cep_run w d :
  checkout_document w = Some d ->
  CheckoutPageClass.limpa_formulario_cep w
  = (Return tt, with_document w (with_address d "" "" "" "")).
Proof. apply set_address_run. Qed.

Lemma pesquisacep_run w d this valor :
  checkout_document w = Some d ->
  exists w',
    CheckoutPageClass.pesquisacep this valor w = (Return tt, w') /\
    (w' = with_document w
            (with_script (with_address d "..." "..." "..." "...")
               (viacep_url (String.string_of_list_ascii (digits_of valor)))) \/
     w' = with_alert (with_document w (with_address d "" "" "" ""))
                     "Formato de CEP inválido." \/
     w' = with_document w (with_address d "" "" "" "")).
Proof.
  intros Hd. unfold CheckoutPageClass.pesquisacep.
  destruct (negb (String.eqb (remove_non_digits valor) "")).
  - destruct (validacep_test (remove_non_digits valor)).
    + eexists. split.
      * unfold set_rua, set_bairro, set_cidade, set_uf, append_script.
        do 4 run_dom. end_dom. reflexivity.
      * left. by rewrite remove_non_digits_digits_of.
    + eexists. split.
      * runW_with (limpa_formulario_cep_run _ _ Hd). reflexivity.
      * right. by left.
  - eexists. split; [by apply limpa_formulario_cep_run|]. right. by right.
Qed.

(** [pesquisacep] looks only at the digits of what was typed. With exactly
    eight of them it shows "..." in the four address fields and appends one
    script whose address is the fixed one of the service with those eight
    digits, in their order, in the place of the code: no other character of
    the input reaches it. With any other number of digits it appends no
    script and empties the four address fields, and it alerts
    "Formato de CEP inválido." unless there is no digit at all. The pages,
    the amounts shown and the cart are never touched. *)
Theorem pesquisacep_looks_up_eight_digits w d this valor :
  checkout_document w = Some d ->
  exists w',
    CheckoutPageClass.pesquisacep this valor w = (Return tt, w') /\
    (length (digits_of valor) = 8%nat ->
       w' = with_document w
              (with_script (with_address d "..." "..." "..." "...")
                 (viacep_url (String.string_of_list_ascii (digits_of valor))))) /\
    (length (digits_of valor) <> 8%nat -> digits_of valor <> [] ->
       w' = with_alert (with_document w (with_address d "" "" "" ""))
                       "Formato de CEP inválido.") /\
    (digits_of valor = [] ->
       w' = with_document w (with_address d "" "" "" "")).
Proof.
  intros Hd. unfold CheckoutPageClass.pesquisacep.
  rewrite validacep_test_digits.
  destruct (String.eqb (remove_non_digits valor) "") eqn:Hempty; cbn [negb].
  - apply no_digits_empty in Hempty.
    eexists. split; [by apply limpa_formulario_cep_run|].
    rewrite Hempty. split; [done|]. split; done.
  - assert (digits_of valor <> []) as Hne.
    { intros Hnil. apply no_digits_empty in Hnil. congruence. }
    destruct (Nat.eqb_spec (length (digits_of valor)) 8) as [Hlen|Hlen].
    + eexists. split.
      * unfold set_rua, set_bairro, set_cidade, set_uf, append_script.
        do 4 run_dom. end_dom. reflexivity.
      * rewrite remove_non_digits_digits_of. split; [done|]. split; [done|].
        intros Hnil. rewrite Hnil in Hlen. discriminate.
    + eexists. split.
      * runW_with (limpa_formulario_cep_run _ _ Hd). reflexivity.
      * split; [done|]. split; done.
Qed.

(** A postal code typed with its hyphen, one with a digit too many, and a
    field left with blanks only. *)
Lemma pesquisacep_looks_up_eight_digits_witness :
  (exists d, checkout_document checkout_window = Some d) /\
  (exists w' d',
     CheckoutPageClass.pesquisacep 0%nat "01001-000" checkout_window = (Return tt, w') /\
     checkout_document w' = Some d' /\
     body_scripts d' =
       ["https://viacep.com.br/ws/01001000/json/?callback=checkoutPage.meu_callback"%string] /\
     alerts w' = []) /\
  (exists w' d',
     CheckoutPageClass.pesquisacep 0%nat "010010001" checkout_window = (Return tt, w') /\
     checkout_document w' = Some d' /\
     body_scripts d' = [] /\
     alerts w' = ["Formato de CEP inválido."%string]) /\
  (exists w' d',
     CheckoutPageClass.pesquisacep 0%nat "  -  " checkout_window = (Return tt, w') /\
     checkout_document w' = Some d' /\
     body_scripts d' = [] /\
     alerts w' = []).
Proof.
  destruct checkout_window_page as (_ & _ & Hd).
  split; [by eexists|]. split; [|split].
  - destruct (pesquisacep_looks_up_eight_digits _ _ 0%nat "01001-000" Hd)
      as (w' & Hrun & Hreq & _).
    rewrite (Hreq eq_refl) in Hrun. eexists _, _.
    split; [exact Hrun|]. repeat split.
  - destruct (pesquisacep_looks_up_eight_digits _ _ 0%nat "010010001" Hd)
      as (w' & Hrun & _ & Hbad & _).
    rewrite Hbad in Hrun; [|discriminate..]. eexists _, _.
    split; [exact Hrun|]. repeat split.
  - destruct (pesquisacep_looks_up_eight_digits _ _ 0%nat "  -  " Hd)
      as (w' & Hrun & _ & _ & Hnone).
    rewrite (Hnone eq_refl) in Hrun. eexists _, _.
    split; [exact Hrun|]. repeat split.
Defined.

(** ** The checkout of the user interface *)

Lemma array_map_run {B} (callback : ref -> M B) (g : CartItem.t -> B) elems s ls :
  (forall r o, cartItemObjs s !! r = Some o -> callback r s = (Return (g o), s)) ->
  deref (cartItemObjs s) elems = Some ls ->
  array_map callback elems s = (Return (g <$> ls), s).
Proof.
  intros Hcb. revert ls. induction elems as [|r elems IH]; intros ls H.
  - by injection H as <-.
  - apply deref_cons in H as (o & ls' & -> & Hr & Hrest).
    cbn [array_map]. run_with (Hcb _ _ Hr). run_with (IH _ Hrest). done.
Qed.

Lemma summary_callback_run s r o :
  cartItemObjs s !! r = Some o ->
  (p ← get_product r;
   n ← get_quantity r;
   t ← CartItemClass.total r;
   mret (mkSummaryItem (Product.image p) (Product.title p) n (ToFixed2 t))) s
  = (Return (summary_of o), s).
Proof.
  intros Hr. run_with (get_product_run _ _ _ Hr).
  run_with (get_quantity_run _ _ _ Hr). by run_with (total_run _ _ _ Hr).
Qed.

(** The page that [new CheckoutPage(cartItems, total)] builds from an array
    with lines [ls]. *)
Lemma CheckoutPage_new_run w a total elems ls :
  arrayObjs (app w) !! a = Some elems ->
  deref (cartItemObjs (app w)) elems = Some ls ->
  CheckoutPageClass.new a total w =
    (Return (length (checkoutPages w)),
     mkWindow (app w) (checkoutPages w ++ [CheckoutPage.mk a total (VNum (0 # 1))])
       (currentCheckoutInstance w)
       (Some (mkCheckoutDom (summary_of <$> ls) "" "" "" ""
                (ToFixed2 total) (ToFixed2 (0 # 1)) (ToFixed2 (js_add total (0 # 1))) []))
       (alerts w) (location_href w)).
Proof.
  intros Harr Hderef. unfold CheckoutPageClass.new.
  set (page := CheckoutPage.mk a total (VNum (0 # 1))).
  set (w1 := mkWindow (app w) (checkoutPages w ++ [page]) (currentCheckoutInstance w)
                      (checkout_document w) (alerts w) (location_href w)).
  assert (alloc_page page w = (Return (length (checkoutPages w)), w1)) as Halloc
    by reflexivity.
  runW_with Halloc.
  assert (checkoutPages w1 !! length (checkoutPages w) = Some page) as Hpage
    by (by apply list_lookup_middle).
  set (w2 := mkWindow (app w) (checkoutPages w ++ [page]) (currentCheckoutInstance w)
                      (Some blank_dom) (alerts w) (location_href w)).
  assert (CheckoutPageClass.initPage (length (checkoutPages w)) w1
          = (Return tt,
             mkWindow (app w) (checkoutPages w ++ [page]) (currentCheckoutInstance w)
               (Some (mkCheckoutDom (summary_of <$> ls) "" "" "" ""
                        (ToFixed2 total) (ToFixed2 (0 # 1))
                        (ToFixed2 (js_add total (0 # 1))) []))
               (alerts w) (location_href w))) as Hinit.
  { unfold CheckoutPageClass.initPage.
    assert (build_document w1 = (Return tt, w2)) as Hbuild by reflexivity.
    runW_with Hbuild.
    set (d3 := mkCheckoutDom (summary_of <$> ls) "" "" "" "" NoText NoText NoText []).
    set (w3 := mkWindow (app w) (checkoutPages w ++ [page]) (currentCheckoutInstance w)
                        (Some d3) (alerts w) (location_href w)).
    assert (CheckoutPageClass.renderCartSummary (length (checkoutPages w)) w2
            = (Return tt, w3)) as Hrender.
    { unfold CheckoutPageClass.renderCartSummary.
      runW_with (read_page_run w2 _ _ Hpage).
      runW_with (lift_run _ w2 _ _ (read_array_run _ _ _ Harr)).
      erewrite bindW_Return.
      2:{ apply lift_run. cbn [app].
          apply (array_map_run _ summary_of elems (app w) ls); [|done].
          intros r o Hr. by apply summary_callback_run. }
      unfold set_cart_summary. end_dom. reflexivity. }
    runW_with Hrender.
    by rewrite (updateTotals_run w3 _ page (0 # 1) d3 Hpage eq_refl eq_refl). }
  runW_with Hinit. reflexivity.
Qed.

(** [checkout()] of the user interface. On a cart without lines it alerts
    that the cart is empty and builds nothing: no page, no document, the
    current page as before. On a cart with lines it builds a page that holds
    the array of those lines and the total of the cart, with shipping 0;
    the summary has one entry per line, in order, with the quantity and the
    line total; the amounts shown are the total, 0 and their sum; the page
    becomes the current one and nothing is alerted. Either way the cart is
    empty afterwards. *)
Theorem ui_checkout_builds_the_page w ls :
  cart_lines (app w) = Some ls ->
  exists t w',
    CartRepository.getTotal (app w) = (Return t, app w) /\
    ShoppingCartUI.checkout w = (Return tt, w') /\
    cart_lines (app w') = Some [] /\
    location_href w' = location_href w /\
    (ls = [] ->
       alerts w' = alerts w ++ ["Seu carrinho está vazio!"%string] /\
       checkoutPages w' = checkoutPages w /\
       currentCheckoutInstance w' = currentCheckoutInstance w /\
       checkout_document w' = checkout_document w) /\
    (ls <> [] ->
       exists this,
         currentCheckoutInstance w' = Some this /\
         checkoutPages w' !! this
           = Some (CheckoutPage.mk (items (app w)) t (VNum (0 # 1))) /\
         lines_of (app w') (items (app w)) = Some ls /\
         checkout_document w' =
           Some (mkCheckoutDom (summary_of <$> ls) "" "" "" ""
                   (ToFixed2 t) (ToFixed2 (0 # 1)) (ToFixed2 (js_add t (0 # 1))) []) /\
         amounts_agree w' this t (summary_of <$> ls) /\
         alerts w' = alerts w).
Proof.
  intros Hls.
  pose proof (checkout_run _ _ Hls) as Hco.
  pose proof (getTotal_run _ _ Hls) as Ht.
  set (t := lines_total ls) in *.
  set (s1 := snd (CartRepository.clear (app w))) in *.
  pose proof (lines_of_clear _ _ _ Hls) as Hsnap. fold s1 in Hsnap.
  apply lines_of_Some in Hsnap as (elems & Harr & Hderef).
  pose proof (deref_lookup (cartItemObjs s1) elems ls) as Hlook.
  assert (length ls = length elems) as Hlen.
  { unfold deref in Hderef. symmetry. by eapply length_mapM. }
  unfold ShoppingCartUI.checkout.
  runW_with (lift_run _ w _ _ Hco). cbn [fst snd].
  set (w1 := mkWindow s1 (checkoutPages w) (currentCheckoutInstance w)
                      (checkout_document w) (alerts w) (location_href w)).
  runW_with (lift_run _ w1 _ _ (read_array_run _ _ _ Harr)).
  destruct ls as [|o ls'].
  - destruct elems; [|done]. cbn [length Nat.eqb].
    exists t. eexists. split; [done|]. split; [reflexivity|].
    split; [apply cart_lines_clear|]. split; [reflexivity|]. split; [done|]. done.
  - destruct elems as [|r elems']; [done|]. cbn [length Nat.eqb].
    erewrite bindW_Return.
    2:{ apply (CheckoutPage_new_run _ (items (app w)) t (r :: elems') (o :: ls'));
        [exact Harr | exact Hderef]. }
    exists t. eexists. split; [done|]. split; [reflexivity|].
    cbn [app alerts location_href currentCheckoutInstance checkoutPages checkout_document].
    split; [apply cart_lines_clear|]. split; [reflexivity|]. split; [done|].
    intros _. exists (length (checkoutPages w)).
    assert ((checkoutPages w ++ [CheckoutPage.mk (items (app w)) t (VNum (0 # 1))])
              !! length (checkoutPages w)
            = Some (CheckoutPage.mk (items (app w)) t (VNum (0 # 1)))) as Hpage
      by (by apply list_lookup_middle).
    split; [done|]. split; [done|]. split.
    { apply lines_of_Some. eauto. }
    split; [done|]. split; [|done].
    exists (items (app w)), (0 # 1)%Q. eexists.
    cbn [currentCheckoutInstance checkoutPages checkout_document].
    split; [done|]. split; [done|]. split; [by left|]. split; [reflexivity|].
    by repeat split.
Qed.

(** The cart with two lines and the empty cart of the sample shop. *)
Lemma ui_checkout_builds_the_page_witness :
  cart_lines (app (window_of cart_two_lines))
    = Some [CartItem.mk product1 2; CartItem.mk product2 1] /\
  (exists w' this,
     ShoppingCartUI.checkout (window_of cart_two_lines) = (Return tt, w') /\
     currentCheckoutInstance w' = Some this /\
     checkoutPages w' !! this
       = Some (CheckoutPage.mk (items cart_two_lines) (25 # 1) (VNum (0 # 1))) /\
     cart_lines (app w') = Some [] /\
     alerts w' = []) /\
  (exists w',
     ShoppingCartUI.checkout (window_of shop) = (Return tt, w') /\
     alerts w' = ["Seu carrinho está vazio!"%string] /\
     checkoutPages w' = [] /\ checkout_document w' = None).
Proof.
  assert (cart_lines (app (window_of cart_two_lines))
          = Some [CartItem.mk product1 2; CartItem.mk product2 1]) as H
    by (vm_compute; reflexivity).
  split; [exact H|]. split.
  - destruct (ui_checkout_builds_the_page _ _ H)
      as (t & w' & Ht & Hrun & Hempty & _ & _ & Hfull).
    destruct Hfull as (this & Hcur & Hpage & _ & _ & _ & Hal); [discriminate|].
    assert (CartRepository.getTotal (app (window_of cart_two_lines))
            = (Return (25 # 1)%Q, app (window_of cart_two_lines))) as Ht0
      by (vm_compute; reflexivity).
    rewrite Ht0 in Ht. injection Ht as <-.
    exists w', this. repeat split; assumption.
  - assert (cart_lines (app (window_of shop)) = Some []) as H0 by reflexivity.
    destruct (ui_checkout_builds_the_page _ _ H0)
      as (t & w' & _ & Hrun & _ & _ & Hnone & _).
    destruct (Hnone eq_refl) as (Hal & Hpages & _ & Hdoc).
    exists w'. repeat split; assumption.
Defined.

(** ** The answers of the postal-code service *)

Lemma meu_callback_address_run w this page d logradouro bairro localidade uf :
  checkoutPages w !! this = Some page -> checkout_document w = Some d ->
  ~ In uf Object_prototype_keys ->
  CheckoutPageClass.meu_callback this (CepAddress logradouro bairro localidade uf) w =
    (Return tt,
     mkWindow (app w)
       (<[this := CheckoutPage.mk (CheckoutPage.cartItems page) (CheckoutPage.total page)
                                  (VNum (rate_of uf))]> (checkoutPages w))
       (currentCheckoutInstance w)
       (Some (mkCheckoutDom (cart_summary d) logradouro bairro localidade uf
                (ToFixed2 (CheckoutPage.total page)) (ToFixed2 (rate_of uf))
                (ToFixed2 (js_add (CheckoutPage.total page) (rate_of uf))) (body_scripts d)))
       (alerts w) (location_href w)).
Proof.
  intros Hpage Hd Hplain. unfold CheckoutPageClass.meu_callback.
  unfold set_rua, set_bairro, set_cidade, set_uf. do 4 run_dom.
  erewrite calculateShipping_run_plain; cycle 1.
  { exact Hpage. } { reflexivity. } { exact Hplain. }
  reflexivity.
Qed.

Lemma meu_callback_erro_run w this d :
  checkout_document w = Some d ->
  CheckoutPageClass.meu_callback this CepErro w =
    (Return tt,
     with_alert (with_document w (with_address d "" "" "" "")) "CEP não encontrado.").
Proof.
  intros Hd. unfold CheckoutPageClass.meu_callback.
  by runW_with (limpa_formulario_cep_run _ _ Hd).
Qed.

(** What an answer of the service does, through
    [window.checkoutPage.meu_callback]. While no checkout page is current
    the answer is ignored. An address (whose state code names no property of
    [Object.prototype]) fills the four address fields, sets the shipping of
    the current page to the rate of the state and shows subtotal, rate and
    sum. An answer with [erro] empties the four fields and alerts
    "CEP não encontrado."; it does not reset the shipping: the page and the
    amounts shown stay those of the last address found. *)
Theorem answer_fills_the_form_and_sets_shipping w :
  (currentCheckoutInstance w = None ->
     forall conteudo, window_checkoutPage_meu_callback conteudo w = (Return tt, w)) /\
  (forall this page d,
     currentCheckoutInstance w = Some this ->
     checkoutPages w !! this = Some page -> checkout_document w = Some d ->
     (forall logradouro bairro localidade uf,
        ~ In uf Object_prototype_keys ->
        exists w' d',
          window_checkoutPage_meu_callback (CepAddress logradouro bairro localidade uf) w
            = (Return tt, w') /\
          checkoutPages w' !! this =
            Some (CheckoutPage.mk (CheckoutPage.cartItems page) (CheckoutPage.total page)
                                  (VNum (rate_of uf))) /\
          checkout_document w' = Some d' /\
          (rua_value d', bairro_value d', cidade_value d', uf_value d')
            = (logradouro, bairro, localidade, uf) /\
          (subtotal_text d', shipping_text d', total_text d')
            = (ToFixed2 (CheckoutPage.total page), ToFixed2 (rate_of uf),
               ToFixed2 (js_add (CheckoutPage.total page) (rate_of uf))) /\
          alerts w' = alerts w) /\
     window_checkoutPage_meu_callback CepErro w =
       (Return tt,
        with_alert (with_document w (with_address d "" "" "" "")) "CEP não encontrado.")).
Proof.
  split.
  - intros Hnone conteudo. unfold window_checkoutPage_meu_callback.
    assert (get_currentCheckoutInstance w = (Return None, w)) as Hget
      by (unfold get_currentCheckoutInstance; by rewrite Hnone).
    by runW_with Hget.
  - intros this page d Hcur Hpage Hd.
    assert (get_currentCheckoutInstance w = (Return (Some this), w)) as Hget
      by (unfold get_currentCheckoutInstance; by rewrite Hcur).
    unfold window_checkoutPage_meu_callback. split.
    + intros logradouro bairro localidade uf Hplain. runW_with Hget.
      eexists _, _. split; [by apply meu_callback_address_run|].
      cbn [checkoutPages checkout_document alerts rua_value bairro_value cidade_value
           uf_value subtotal_text shipping_text total_text].
      split; [apply list_lookup_insert_eq; by eapply lookup_lt_Some|].
      by repeat split.
    + runW_with Hget. by apply meu_callback_erro_run.
Qed.

(** On the sample page: an address in São Paulo, then an answer with
    [erro]: the fields are empty again, the shipping stays 10. *)
Lemma answer_fills_the_form_and_sets_shipping_witness :
  exists w1 w2 d1 d2,
    window_checkoutPage_meu_callback
        (CepAddress "Praça da Sé" "Sé" "São Paulo" "SP") checkout_window
      = (Return tt, w1) /\
    checkout_document w1 = Some d1 /\
    (rua_value d1, uf_value d1, shipping_text d1, total_text d1)
      = ("Praça da Sé"%string, "SP"%string, ToFixed2 (10 # 1),
         ToFixed2 (js_add (25 # 1) (10 # 1))) /\
    window_checkoutPage_meu_callback CepErro w1 = (Return tt, w2) /\
    checkout_document w2 = Some d2 /\
    (rua_value d2, uf_value d2, shipping_text d2, total_text d2)
      = (""%string, ""%string, ToFixed2 (10 # 1), ToFixed2 (js_add (25 # 1) (10 # 1))) /\
    checkoutPages w2 !! 0%nat
      = Some (CheckoutPage.mk (items cart_two_lines) (25 # 1) (VNum (10 # 1))) /\
    alerts w2 = ["CEP não encontrado."%string].
Proof.
  destruct checkout_window_page as (Hpage & Hcur & Hd).
  destruct (answer_fills_the_form_and_sets_shipping checkout_window) as [_ Hsome].
  destruct (Hsome _ _ _ Hcur Hpage Hd) as [Haddr _].
  destruct (Haddr "Praça da Sé" "Sé" "São Paulo" "SP"
              (two_letter_codes_are_plain "SP" eq_refl))%string
    as (w1 & d1 & Hrun1 & Hpage1 & Hd1 & Hfields & Hamounts & Hal).
  assert (currentCheckoutInstance w1 = Some 0%nat) as Hcur1.
  { assert (w1 = snd (window_checkoutPage_meu_callback
                        (CepAddress "Praça da Sé" "Sé" "São Paulo" "SP") checkout_window))
      as -> by (by rewrite Hrun1).
    vm_compute. reflexivity. }
  destruct (answer_fills_the_form_and_sets_shipping w1) as [_ Hsome1].
  destruct (Hsome1 _ _ _ Hcur1 Hpage1 Hd1) as [_ Herro].
  exists w1. eexists. exists d1. eexists.
  split; [exact Hrun1|]. split; [exact Hd1|].
  injection Hfields as Hrua _ _ Huf. injection Hamounts as _ Hship Htot.
  split; [by rewrite Hrua, Huf, Hship, Htot|].
  split; [exact Herro|]. split; [reflexivity|].
  cbn [with_alert with_document with_address checkout_document checkoutPages alerts
       rua_value uf_value shipping_text total_text].
  split; [by rewrite Hship, Htot|]. split; [exact Hpage1|].
  by rewrite Hal.
Defined.

(** ** The amounts on the page, event after event *)

Lemma amounts_agree_document w this total summary d d' :
  amounts_agree w this total summary ->
  checkout_document w = Some d ->
  cart_summary d' = cart_summary d ->
  subtotal_text d' = subtotal_text d ->
  shipping_text d' = shipping_text d ->
  total_text d' = total_text d ->
  amounts_agree (with_document w d') this total summary.
Proof.
  intros (ci & x & d0 & Hcur & Hpage & Hx & Hd0 & Hsum & Hsub & Hship & Htot)
         Hd Hs1 Hs2 Hs3 Hs4.
  assert (d0 = d) as -> by congruence.
  exists ci, x, d'. cbn [with_document currentCheckoutInstance checkoutPages
                         checkout_document].
  repeat split; try done; congruence.
Qed.

Lemma amounts_agree_alert w this total summary msg :
  amounts_agree w this total summary ->
  amounts_agree (with_alert w msg) this total summary.
Proof.
  intros (ci & x & d & H). by exists ci, x, d.
Qed.

Lemma amounts_agree_event w this total summary e :
  amounts_agree w this total summary -> plain_event e ->
  exists w', handle_event this e w = (Return tt, w') /\
             amounts_agree w' this total summary.
Proof.
  intros Hagree Hplain.
  pose proof Hagree as (ci & x & d & Hcur & Hpage & Hx & Hd & Hsum & Hsub & Hship & Htot).
  destruct e as [valor|[|logradouro bairro localidade uf]|]; cbn [handle_event].
  - destruct (pesquisacep_run w d this valor Hd) as (w' & Hrun & Hcases).
    exists w'. split; [done|].
    destruct Hcases as [-> | [-> | ->]].
    + by apply (amounts_agree_document _ _ _ _ d).
    + apply amounts_agree_alert. by apply (amounts_agree_document _ _ _ _ d).
    + by apply (amounts_agree_document _ _ _ _ d).
  - assert (get_currentCheckoutInstance w = (Return (Some this), w)) as Hget
      by (unfold get_currentCheckoutInstance; by rewrite Hcur).
    unfold window_checkoutPage_meu_callback. runW_with Hget.
    eexists. split; [by apply meu_callback_erro_run|].
    apply amounts_agree_alert. by apply (amounts_agree_document _ _ _ _ d).
  - assert (get_currentCheckoutInstance w = (Return (Some this), w)) as Hget
      by (unfold get_currentCheckoutInstance; by rewrite Hcur).
    unfold window_checkoutPage_meu_callback. runW_with Hget.
    eexists. split; [by eapply meu_callback_address_run|].
    exists ci, (rate_of uf). eexists.
    cbn [currentCheckoutInstance checkoutPages checkout_document CheckoutPage.cartItems
         CheckoutPage.total].
    split; [done|].
    split; [apply list_lookup_insert_eq; by eapply lookup_lt_Some|].
    split; [apply rate_of_cases|]. split; [reflexivity|]. by repeat split.
  - eexists. split; [reflexivity|]. by exists ci, x, d.
Qed.

(** From a page whose amounts agree with its fields, as the page that
    [checkout] builds does, every sequence of events (postal codes typed,
    answers of the service, submissions) in which no answer carries a state
    code that names a property of [Object.prototype] runs without an
    exception, and afterwards the amounts still agree: the subtotal shown
    is the total taken at checkout, the shipping is 0 or one of the four
    rates, and the total shown is their sum; the summary is as it was
    built. *)
Theorem amounts_agree_after_events w this total summary es :
  amounts_agree w this total summary -> Forall plain_event es ->
  exists w', handle_events this es w = (Return tt, w') /\
             amounts_agree w' this total summary.
Proof.
  intros Hagree Hplain. revert w Hagree.
  induction Hplain as [|e es He _ IH]; intros w Hagree.
  - by exists w.
  - destruct (amounts_agree_event w this total summary e Hagree He) as (w1 & Hrun & H1).
    destruct (IH w1 H1) as (w' & Hrun' & H').
    exists w'. cbn [handle_events]. by runW_with Hrun.
Qed.

(** On the sample page: a code with seven digits, a good one, the answer
    for Minas Gerais, an answer with [erro], the submission. *)
Lemma amounts_agree_after_events_witness :
  amounts_agree checkout_window 0%nat (25 # 1)
    [mkSummaryItem "img/1.png" "Mochila" 2 (ToFixed2 (20 # 1));
     mkSummaryItem "img/2.png" "Camiseta" 1 (ToFixed2 (5 # 1))] /\
  exists w',
    handle_events 0%nat
      [Blur "3013000"; Blur "30130-000";
       Answer (CepAddress "Avenida Afonso Pena" "Centro" "Belo Horizonte" "MG");
       Answer CepErro; Submit] checkout_window = (Return tt, w') /\
    amounts_agree w' 0%nat (25 # 1)
      [mkSummaryItem "img/1.png" "Mochila" 2 (ToFixed2 (20 # 1));
       mkSummaryItem "img/2.png" "Camiseta" 1 (ToFixed2 (5 # 1))].
Proof.
  destruct checkout_window_page as (Hpage & Hcur & Hd).
  assert (amounts_agree checkout_window 0%nat (25 # 1)
            [mkSummaryItem "img/1.png" "Mochila" 2 (ToFixed2 (20 # 1));
             mkSummaryItem "img/2.png" "Camiseta" 1 (ToFixed2 (5 # 1))]) as H.
  { exists (items cart_two_lines), (0 # 1)%Q. eexists.
    split; [exact Hcur|]. split; [exact Hpage|]. split; [by left|].
    split; [exact Hd|]. by repeat split. }
  split; [exact H|].
  apply (amounts_agree_after_events _ _ _ _ _ H).
  repeat constructor. by apply two_letter_codes_are_plain.
Defined.

(** * Properties of the product list and the cart panel *)

Lemma bindU_Return {A B} (m : U A) (f : A -> U B) u a u' :
  m u = (Return a, u') -> (m ≫= f) u = f a u'.
Proof. intros Hm. unfold mbind, U_bind. by rewrite Hm. Qed.

Lemma bindU_Throw {A B} (m : U A) (f : A -> U B) u e u' :
  m u = (Throw e, u') -> (m ≫= f) u = (Throw e, u').
Proof. intros Hm. unfold mbind, U_bind. by rewrite Hm. Qed.

Ltac runU_with H := rewrite (bindU_Return _ _ _ _ _ H).

Lemma liftU_run {A} (m : M A) u c s :
  m (ui_app u) = (c, s) ->
  liftU m u = (c, mkUi s (list_view u) (cart_panel u)).
Proof. intros Hm. unfold liftU. by rewrite Hm. Qed.

(** ** Slices and pages *)

Lemma array_slice_page {A} (l : list A) (page : Z) (n : nat) :
  page = Z.of_nat (S n) ->
  array_slice l ((page - 1) * itemsPerPage) ((page - 1) * itemsPerPage + itemsPerPage)
  = take 8 (drop (8 * n) l).
Proof.
  intros ->. unfold array_slice, itemsPerPage. cbv zeta.
  replace ((Z.of_nat (S n) - 1) * 8) with (Z.of_nat (8 * n)) by lia.
  destruct (Z.ltb_spec (Z.of_nat (8 * n)) 0) as [?|_]; [lia|].
  destruct (Z.ltb_spec (Z.of_nat (8 * n) + 8) 0) as [?|_]; [lia|].
  destruct (decide (length l <= 8 * n)%nat) as [Hge|Hlt].
  - rewrite (drop_ge l (8 * n)) by done.
    rewrite (Z.min_r (Z.of_nat (8 * n))) by lia.
    rewrite Nat2Z.id, drop_ge by done.
    by rewrite !take_nil.
  - rewrite (Z.min_l (Z.of_nat (8 * n))) by lia. rewrite Nat2Z.id.
    destruct (decide (length l <= 8 * n + 8)%nat) as [Hge'|Hlt'].
    + rewrite Z.min_r by lia.
      rewrite !take_ge; [done| |]; rewrite length_drop; lia.
    + rewrite Z.min_l by lia. f_equal. lia.
Qed.

Lemma pages_shown_next ps n t t' :
  (8 * n < length ps)%nat ->
  List.filter (fun c => negb (is_trigger t c)) (pages_shown ps n t)
    ++ (ProductElement <$> take 8 (drop (8 * n) ps))
    ++ (if (8 * S n <? length ps)%nat then [LoadMoreTrigger t'] else [])
  = pages_shown ps (S n) t'.
Proof.
  intros Hlt. unfold pages_shown.
  apply Nat.ltb_lt in Hlt as ->.
  rewrite List.filter_app. cbn [List.filter is_trigger]. rewrite Nat.eqb_refl.
  cbn [negb]. rewrite app_nil_r.
  assert (forall l : list Product.t,
            List.filter (fun c => negb (is_trigger t c)) (ProductElement <$> l)
            = ProductElement <$> l) as ->.
  { induction l as [|x l IH]; [done|]. cbn. by rewrite IH. }
  rewrite app_assoc, <- fmap_app, take_take_drop.
  by replace (8 * n + 8)%nat with (8 * S n)%nat by lia.
Qed.

Lemma pages_shown_all ps n m t t' :
  (length ps <= 8 * n)%nat -> (n <= m)%nat ->
  pages_shown ps n t = pages_shown ps m t'.
Proof.
  intros Hn Hm. unfold pages_shown.
  destruct (Nat.ltb_spec (8 * n) (length ps)) as [?|_]; [lia|].
  destruct (Nat.ltb_spec (8 * m) (length ps)) as [?|_]; [lia|].
  by rewrite !take_ge by lia.
Qed.

Lemma live_trigger_pages u ps n t :
  productsElement (list_view u) = pages_shown ps n t ->
  live_trigger u = if (8 * n <? length ps)%nat then Some t else None.
Proof.
  intros Hc. unfold live_trigger. rewrite Hc. unfold pages_shown.
  generalize (take (8 * n) ps) as l.
  induction l as [|x l IH]; [|exact IH].
  by destruct (8 * n <? length ps)%nat.
Qed.

(** ** The methods of the list, run *)

Lemma displayProducts_run u fp :
  this_filteredProducts (list_view u) = Some fp ->
  let v := list_view u in
  let more := this_currentPage v * itemsPerPage <? Z.of_nat (length fp) in
  ShoppingCartUIClass.displayProducts u =
    (Return tt,
     mkUi (ui_app u)
       (mkListView (this_products v) (Some fp) (this_currentPage v)
          ((if this_currentPage v =? 1 then [] else productsElement v)
           ++ (ProductElement <$>
                 array_slice fp ((this_currentPage v - 1) * itemsPerPage)
                                ((this_currentPage v - 1) * itemsPerPage + itemsPerPage))
           ++ (if more then [LoadMoreTrigger (triggers_created v)] else []))
          (if more then S (triggers_created v) else triggers_created v)
          (if more
           then (if bool_decide (triggers_created v ∈ observed v) then observed v
                 else observed v ++ [triggers_created v])
           else observed v)
          (loading_display v) (loading_textContent v)
          (searchInput_value v) (sortSelect_value v))
       (cart_panel u)).
Proof.
  intros Hfp v more. subst more v.
  destruct u as [s [ps0 fp0 page children created obs ld lt search sortv] c].
  cbn in Hfp. subst fp0.
  unfold ShoppingCartUIClass.displayProducts, mbind, U_bind, get_view.
  cbn.
  destruct (page =? 1); cbn;
    destruct (page * itemsPerPage <? _); cbn;
    rewrite ?app_nil_r, <- ?app_assoc; reflexivity.
Qed.

Lemma more_pages (page : Z) (n len : nat) :
  page = Z.of_nat n ->
  (page * itemsPerPage <? Z.of_nat len) = (8 * n <? len)%nat.
Proof.
  intros ->. unfold itemsPerPage.
  destruct (Z.ltb_spec (Z.of_nat n * 8) (Z.of_nat len)),
           (Nat.ltb_spec (8 * n) len); (done || lia).
Qed.

Lemma displayProducts_first_page u fp :
  this_filteredProducts (list_view u) = Some fp ->
  this_currentPage (list_view u) = 1 ->
  exists u', ShoppingCartUIClass.displayProducts u = (Return tt, u') /\
             shows_pages u' fp 1 /\ same_inputs u u'.
Proof.
  intros Hfp Hpage. eexists. split; [by apply displayProducts_run|].
  cbn [list_view ui_app cart_panel]. rewrite Hpage.
  split; [|done].
  split; [done|]. split; [done|]. split; [lia|].
  cbn [productsElement]. exists (triggers_created (list_view u)).
  change (1 =? 1) with true. cbn [app].
  rewrite (array_slice_page fp 1 0 eq_refl), (more_pages 1 1 _ eq_refl).
  unfold pages_shown. by rewrite drop_0.
Qed.

Lemma displayProducts_next_page u fp n t :
  this_filteredProducts (list_view u) = Some fp ->
  this_currentPage (list_view u) = Z.of_nat (S (S n)) ->
  productsElement (list_view u)
    = List.filter (fun c => negb (is_trigger t c)) (pages_shown fp (S n) t) ->
  (8 * S n < length fp)%nat ->
  exists u', ShoppingCartUIClass.displayProducts u = (Return tt, u') /\
             shows_pages u' fp (S (S n)) /\ same_inputs u u'.
Proof.
  intros Hfp Hpage Hc Hlt. eexists. split; [by apply displayProducts_run|].
  cbn [list_view ui_app cart_panel]. rewrite Hpage.
  split; [|done].
  split; [done|]. split; [done|]. split; [lia|].
  cbn [productsElement]. exists (triggers_created (list_view u)).
  destruct (Z.eqb_spec (Z.of_nat (S (S n))) 1) as [?|_]; [lia|].
  rewrite (array_slice_page fp _ (S n) eq_refl), (more_pages _ (S (S n)) _ eq_refl), Hc.
  by apply pages_shown_next.
Qed.

Section list_runs.
Context `{StringPrototype}.

Lemma filterAndSortProducts_run u ps :
  this_products (list_view u) = Some ps ->
  exists u',
    ShoppingCartUIClass.filterAndSortProducts u = (Return tt, u') /\
    shows_pages u'
      (ShoppingCartUIClass.filtered_and_sorted ps (searchInput_value (list_view u))
                                               (sortSelect_value (list_view u))) 1 /\
    same_inputs u u'.
Proof.
  intros Hps.
  unfold ShoppingCartUIClass.filterAndSortProducts.
  erewrite bindU_Return by reflexivity. rewrite Hps.
  erewrite bindU_Return by reflexivity.
  erewrite bindU_Return by reflexivity.
  edestruct displayProducts_first_page as (u' & -> & Hshow & Hsame);
    [reflexivity..|].
  exists u'. split; [done|]. split; [exact Hshow|].
  destruct Hsame as (? & ? & ? & ? & ? & ? & ?). by repeat split.
Qed.

Lemma filterAndSortProducts_throws u :
  this_products (list_view u) = None ->
  ShoppingCartUIClass.filterAndSortProducts u = (Throw undefined_access, u).
Proof.
  intros Hps. unfold ShoppingCartUIClass.filterAndSortProducts.
  erewrite bindU_Return by reflexivity. by rewrite Hps.
Qed.
End list_runs.

Lemma same_inputs_refl u : same_inputs u u.
Proof. by repeat split. Qed.

Lemma same_inputs_trans u1 u2 u3 :
  same_inputs u1 u2 -> same_inputs u2 u3 -> same_inputs u1 u3.
Proof.
  intros (? & ? & ? & ? & ? & ? & ?) (? & ? & ? & ? & ? & ? & ?).
  repeat split; congruence.
Qed.

Lemma trigger_seen_run u fp n :
  shows_pages u fp n ->
  exists u',
    trigger_seen u = (Return tt, u') /\ same_inputs u u' /\
    ((8 * n < length fp)%nat /\ shows_pages u' fp (S n) \/
     (length fp <= 8 * n)%nat /\ u' = u).
Proof.
  intros (Hfp & Hpage & Hn & t & Hc).
  unfold trigger_seen. rewrite (live_trigger_pages _ _ _ _ Hc).
  destruct (Nat.ltb_spec (8 * n) (length fp)) as [Hlt|Hge].
  - destruct n as [|n]; [lia|].
    destruct u as [s [ps0 fp0 page children created obs ld lt search sortv] c].
    cbn [list_view this_filteredProducts this_currentPage productsElement]
      in Hfp, Hpage, Hc.
    subst fp0 page children.
    destruct (displayProducts_next_page
                (mkUi s
                   (mkListView ps0 (Some fp) (Z.of_nat (S (S n)))
                      (List.filter (fun c => negb (is_trigger t c))
                                   (pages_shown fp (S n) t))
                      created
                      (List.filter (fun t' => negb (t' =? t)%nat) obs)
                      ld lt search sortv) c) fp n t)
      as (u' & Hrun & Hshow & Hsame); [reflexivity..|exact Hlt|].
    exists u'. split; [|split; [exact Hsame|left; by split]].
    cbn [ShoppingCartUIClass.handleIntersection isIntersecting target].
    unfold mbind, U_bind, unobserve, remove_trigger, get_view,
      set_this_currentPage, update_view.
    cbn -[ShoppingCartUIClass.displayProducts Z.of_nat Z.add pages_shown].
    replace (Z.of_nat (S n) + 1) with (Z.of_nat (S (S n))) by lia.
    by rewrite Hrun.
  - exists u. split; [done|]. split; [apply same_inputs_refl|]. right. by split.
Qed.

Lemma times_trigger_seen k : forall u fp n,
  shows_pages u fp n ->
  exists u' n',
    times k trigger_seen u = (Return tt, u') /\
    shows_pages u' fp n' /\ same_inputs u u' /\
    (n' = n + k \/ n' <= n + k /\ length fp <= 8 * n')%nat.
Proof.
  induction k as [|k IH]; intros u fp n Hshow.
  - exists u, n. split; [done|]. split; [done|].
    split; [apply same_inputs_refl|]. left. lia.
  - destruct (trigger_seen_run u fp n Hshow) as (u1 & Hrun & Hsame & Hcase).
    cbn [times]. runU_with Hrun.
    destruct Hcase as [[Hlt Hshow1]|[Hge ->]].
    + destruct (IH u1 fp (S n) Hshow1) as (u' & n' & Hrun' & Hshow' & Hsame' & Hn').
      exists u', n'. split; [done|]. split; [done|].
      split; [by eapply same_inputs_trans|]. lia.
    + destruct (IH u fp n Hshow) as (u' & n' & Hrun' & Hshow' & Hsame' & Hn').
      exists u', n'. split; [done|]. split; [done|]. split; [done|].
      right. destruct Hn' as [->|[? ?]]; lia.
Qed.

(** After [filterAndSortProducts], however often the visitor then reaches
    the end of the list, the list holds the cards of the first pages of the
    filtered products, in their order and each once: after [k] times the
    first [8 * (k + 1)] of them, all of them if they are fewer. The trigger
    follows the cards exactly when products remain, and no skeleton is
    left. *)
Theorem list_shows_whole_pages `{StringPrototype} u ps k :
  this_products (list_view u) = Some ps ->
  exists u' t,
    (ShoppingCartUIClass.filterAndSortProducts;; times k trigger_seen) u
      = (Return tt, u') /\
    this_filteredProducts (list_view u')
      = Some (ShoppingCartUIClass.filtered_and_sorted ps
                (searchInput_value (list_view u)) (sortSelect_value (list_view u))) /\
    productsElement (list_view u')
      = pages_shown (ShoppingCartUIClass.filtered_and_sorted ps
                       (searchInput_value (list_view u)) (sortSelect_value (list_view u)))
                    (S k) t /\
    same_inputs u u'.
Proof.
  intros Hps.
  destruct (filterAndSortProducts_run u ps Hps) as (u1 & Hrun & Hshow & Hsame).
  destruct (times_trigger_seen k u1 _ 1 Hshow)
    as (u' & n' & Hrun' & (Hfp & _ & Hn1 & t & Hc) & Hsame' & Hn').
  exists u', t. split; [by runU_with Hrun|]. split; [exact Hfp|].
  split; [|by eapply same_inputs_trans].
  rewrite Hc. destruct Hn' as [->|[Hle Hall]]; [done|].
  by apply pages_shown_all.
Qed.

(** Twenty products, all of them shirts: after one more page sixteen cards
    and the trigger. *)
Lemma list_shows_whole_pages_witness :
  exists u' t,
    (ShoppingCartUIClass.filterAndSortProducts (H := ascii_strings);;
     times 1 trigger_seen)
      (mkUi init (mkListView (Some catalog20) None 1 (replicate 8 Skeleton) 0 [] "" ""
                             "Shirt" "price-asc")
            (mkCartPanel [] NoText None))
      = (Return tt, u') /\
    this_filteredProducts (list_view u')
      = Some (ShoppingCartUIClass.filtered_and_sorted (H := ascii_strings)
                catalog20 "Shirt" "price-asc") /\
    productsElement (list_view u')
      = pages_shown (ShoppingCartUIClass.filtered_and_sorted (H := ascii_strings)
                       catalog20 "Shirt" "price-asc") 2 t /\
    same_inputs
      (mkUi init (mkListView (Some catalog20) None 1 (replicate 8 Skeleton) 0 [] "" ""
                             "Shirt" "price-asc")
            (mkCartPanel [] NoText None)) u'.
Proof.
  apply (list_shows_whole_pages (H := ascii_strings)
           (mkUi init (mkListView (Some catalog20) None 1 (replicate 8 Skeleton) 0 [] "" ""
                                  "Shirt" "price-asc")
                 (mkCartPanel [] NoText None)) catalog20 1).
  reflexivity.
Defined.

(** ** The sort *)

Lemma Qle_bool_minus (a b : Q) : Qle_bool (a - b) 0 = true <-> (a <= b)%Q.
Proof.
  rewrite Qle_bool_iff. unfold Qle, Qminus, Qplus, Qopp. simpl. lia.
Qed.

Section sorting.
Context {A : Type} (compare : A -> A -> Q) (R : A -> A -> Prop).
Hypothesis compare_R : forall x y, Qle_bool (compare x y) 0 = true <-> R x y.
Hypothesis R_total : forall x y, R x y \/ R y x.
Hypothesis R_trans : forall x y z, R x y -> R y z -> R x z.

Lemma sort_insert_perm x l : sort_insert compare x l ≡ₚ x :: l.
Proof.
  induction l as [|y l IH]; [done|]. cbn [sort_insert].
  destruct (Qle_bool (compare x y) 0); [done|].
  rewrite IH. apply Permutation_swap.
Qed.

Lemma array_sort_perm l : array_sort compare l ≡ₚ l.
Proof.
  induction l as [|x l IH]; [done|]. cbn [array_sort].
  by rewrite sort_insert_perm, IH.
Qed.

Lemma sort_insert_sorted x l :
  StronglySorted R l -> StronglySorted R (sort_insert compare x l).
Proof.
  induction 1 as [|y l Hsorted IH Hy]; cbn [sort_insert].
  - repeat constructor.
  - destruct (Qle_bool (compare x y) 0) eqn:Hc.
    + apply compare_R in Hc. constructor; [by constructor|].
      constructor; [done|]. eapply Forall_impl; [exact Hy|].
      intros z Hz. by eapply R_trans.
    + constructor; [exact IH|]. rewrite sort_insert_perm.
      constructor; [|done].
      destruct (R_total x y) as [Hxy|Hyx]; [|done].
      apply compare_R in Hxy. congruence.
Qed.

Lemma array_sort_sorted l : StronglySorted R (array_sort compare l).
Proof.
  induction l as [|x l IH]; [constructor|]. by apply sort_insert_sorted.
Qed.

Lemma sort_insert_filter (P : A -> bool) x l :
  (forall y, P x = true -> P y = true -> R x y) ->
  List.filter P (sort_insert compare x l) = List.filter P (x :: l).
Proof.
  intros HP. induction l as [|y l IH]; [done|]. cbn [sort_insert].
  destruct (Qle_bool (compare x y) 0) eqn:Hc; [done|].
  cbn [List.filter] in *. rewrite IH.
  destruct (P x) eqn:Hx, (P y) eqn:Hy; try done.
  assert (R x y) as HR by (by apply HP).
  apply compare_R in HR. congruence.
Qed.

Lemma array_sort_filter (P : A -> bool) l :
  (forall x y, P x = true -> P y = true -> R x y) ->
  List.filter P (array_sort compare l) = List.filter P l.
Proof.
  intros HP. induction l as [|x l IH]; [done|]. cbn [array_sort].
  rewrite sort_insert_filter by (intros y; apply HP).
  cbn [List.filter]. by rewrite IH.
Qed.
End sorting.

Lemma priced_same_price q a b :
  priced q a = true -> priced q b = true ->
  (Product.price a <= Product.price b)%Q.
Proof.
  unfold priced. rewrite !Qeq_bool_iff. intros -> ->. apply Qle_refl.
Qed.

(** [filterAndSortProducts] assigns to [filteredProducts] the products of
    the catalog that match the search, each as often as the catalog has it:
    by rising price for [price-asc], by falling price for [price-desc], in
    the order of the catalog for any other value of the select; products of
    one price keep the order of the catalog in every case. The array of the
    catalog itself is not reordered, and the current page is 1 again. *)
Theorem filterAndSortProducts_orders_the_matches `{StringPrototype} u ps :
  this_products (list_view u) = Some ps ->
  exists u' fp,
    ShoppingCartUIClass.filterAndSortProducts u = (Return tt, u') /\
    this_filteredProducts (list_view u') = Some fp /\
    this_products (list_view u') = Some ps /\
    this_currentPage (list_view u') = 1 /\
    fp ≡ₚ List.filter (matches (searchInput_value (list_view u))) ps /\
    (sortSelect_value (list_view u) = "price-asc" ->
       StronglySorted (fun a b => Product.price a <= Product.price b)%Q fp) /\
    (sortSelect_value (list_view u) = "price-desc" ->
       StronglySorted (fun a b => Product.price b <= Product.price a)%Q fp) /\
    (sortSelect_value (list_view u) <> "price-asc" ->
     sortSelect_value (list_view u) <> "price-desc" ->
       fp = List.filter (matches (searchInput_value (list_view u))) ps) /\
    (forall q,
       List.filter (priced q) fp
       = List.filter (priced q)
           (List.filter (matches (searchInput_value (list_view u))) ps)).
Proof.
  intros Hps.
  destruct (filterAndSortProducts_run u ps Hps)
    as (u' & Hrun & (Hfp & Hpage & _) & (_ & _ & Hps' & _)).
  exists u'. eexists. split; [exact Hrun|]. split; [exact Hfp|].
  split; [congruence|]. split; [exact Hpage|].
  unfold ShoppingCartUIClass.filtered_and_sorted.
  fold (matches (searchInput_value (list_view u))).
  set (l := List.filter (matches (searchInput_value (list_view u))) ps).
  pose proof (array_sort_perm
                (fun a b => Product.price a - Product.price b)%Q l) as Hasc_perm.
  pose proof (array_sort_perm
                (fun a b => Product.price b - Product.price a)%Q l) as Hdesc_perm.
  assert (StronglySorted (fun a b => Product.price a <= Product.price b)%Q
            (array_sort (fun a b => Product.price a - Product.price b)%Q l)) as Hasc.
  { apply array_sort_sorted.
    - intros x y. apply Qle_bool_minus.
    - intros x y. destruct (Qlt_le_dec (Product.price y) (Product.price x));
        [right; by apply Qlt_le_weak|by left].
    - intros x y z. apply Qle_trans. }
  assert (StronglySorted (fun a b => Product.price b <= Product.price a)%Q
            (array_sort (fun a b => Product.price b - Product.price a)%Q l)) as Hdesc.
  { apply array_sort_sorted.
    - intros x y. apply Qle_bool_minus.
    - intros x y. destruct (Qlt_le_dec (Product.price y) (Product.price x));
        [left; by apply Qlt_le_weak|by right].
    - intros x y z ? ?. by eapply Qle_trans. }
  assert (forall q,
            List.filter (priced q)
              (array_sort (fun a b => Product.price a - Product.price b)%Q l)
            = List.filter (priced q) l) as Hasc_stable.
  { intros q.
    apply (array_sort_filter _ (fun a b => Product.price a <= Product.price b)%Q).
    - intros x y. apply Qle_bool_minus.
    - apply priced_same_price. }
  assert (forall q,
            List.filter (priced q)
              (array_sort (fun a b => Product.price b - Product.price a)%Q l)
            = List.filter (priced q) l) as Hdesc_stable.
  { intros q.
    apply (array_sort_filter _ (fun a b => Product.price b <= Product.price a)%Q).
    - intros x y. apply Qle_bool_minus.
    - intros x y Hx Hy. by apply (priced_same_price q). }
  destruct (String.eqb_spec (sortSelect_value (list_view u)) "price-asc") as [Ha|Ha].
  { rewrite Ha. repeat split; try done. }
  destruct (String.eqb_spec (sortSelect_value (list_view u)) "price-desc") as [Hd|Hd].
  { rewrite Hd. repeat split; try done. }
  repeat split; done.
Qed.

(** The twenty shirts by falling price. *)
Lemma filterAndSortProducts_orders_the_matches_witness :
  exists u' fp,
    ShoppingCartUIClass.filterAndSortProducts (H := ascii_strings)
      (mkUi init (mkListView (Some catalog20) None 3 [] 0 [] "none" ""
                             "RED" "price-desc")
            (mkCartPanel [] NoText None)) = (Return tt, u') /\
    this_filteredProducts (list_view u') = Some fp /\
    this_products (list_view u') = Some catalog20 /\
    this_currentPage (list_view u') = 1 /\
    fp ≡ₚ List.filter (matches (H := ascii_strings) "RED") catalog20 /\
    StronglySorted (fun a b => Product.price b <= Product.price a)%Q fp /\
    (forall q,
       List.filter (priced q) fp
       = List.filter (priced q)
           (List.filter (matches (H := ascii_strings) "RED") catalog20)).
Proof.
  destruct (filterAndSortProducts_orders_the_matches (H := ascii_strings)
              (mkUi init (mkListView (Some catalog20) None 3 [] 0 [] "none" ""
                                     "RED" "price-desc")
                    (mkCartPanel [] NoText None)) catalog20 eq_refl)
    as (u' & fp & Hrun & Hfp & Hps & Hpage & Hperm & _ & Hdesc & _ & Hstable).
  exists u', fp. repeat split; try done. by apply Hdesc.
Defined.

(** ** Loading the catalog *)

(** When the retrieval fails on a page that has loaded nothing yet,
    [loadProducts] itself returns normally: the list keeps the eight
    skeleton cards, the loading element tells of the error and stays
    displayed as it was, and [products] stays undefined, so that every
    later change of the search text or of the sort order throws a type
    error and leaves the page as it is. *)
Theorem failed_load_leaves_skeletons `{StringPrototype} u w e :
  failure_cause w e ->
  this_products (list_view u) = None ->
  exists u',
    ShoppingCartUIClass.loadProducts w u = (Return tt, u') /\
    productsElement (list_view u') = replicate 8 Skeleton /\
    loading_textContent (list_view u')
      = "Erro ao carregar produtos. Por favor, tente novamente mais tarde."%string /\
    loading_display (list_view u') = loading_display (list_view u) /\
    this_products (list_view u') = None /\
    ui_app u' = ui_app u /\
    cart_panel u' = cart_panel u /\
    ShoppingCartUIClass.filterAndSortProducts u' = (Throw undefined_access, u').
Proof.
  intros Hfail Hnone.
  destruct (fetchAll_cases w (ui_app u)) as [(e' & _ & Hrun)|(ps & -> & _)];
    [|by destruct (failure_cause_not_records _ _ ps Hfail)].
  eexists. split.
  { unfold ShoppingCartUIClass.loadProducts.
    erewrite bindU_Return by reflexivity.
    unfold ShoppingCartUIClass.loadProducts_resume, try_catchU.
    erewrite bindU_Throw; [|apply liftU_run; exact Hrun]. reflexivity. }
  cbn [list_view ui_app cart_panel productsElement loading_textContent
       loading_display this_products].
  do 6 (split; [done|]).
  by apply filterAndSortProducts_throws.
Qed.

(** The network is down when the page opens. *)
Lemma failed_load_leaves_skeletons_witness :
  exists u',
    ShoppingCartUIClass.loadProducts (H := ascii_strings)
      (FetchRejects (NetworkError "Failed to fetch")) (opened init "" "") = (Return tt, u') /\
    productsElement (list_view u') = replicate 8 Skeleton /\
    loading_textContent (list_view u')
      = "Erro ao carregar produtos. Por favor, tente novamente mais tarde."%string /\
    loading_display (list_view u') = ""%string /\
    this_products (list_view u') = None /\
    ui_app u' = init /\
    cart_panel u' = mkCartPanel [] NoText None /\
    ShoppingCartUIClass.filterAndSortProducts (H := ascii_strings) u'
      = (Throw undefined_access, u').
Proof.
  apply (failed_load_leaves_skeletons (H := ascii_strings) (opened init "" "")
           (FetchRejects (NetworkError "Failed to fetch"))
           (NetworkError "Failed to fetch")).
  - constructor.
  - reflexivity.
Defined.

(** When the retrieval delivers the records of [ps], [loadProducts] makes
    [ps] the catalog of the repository and of the page, shows the first
    page of the products that match the search, sorted as the select says,
    with no skeleton left, and hides the loading element; the cart and its
    panel are as before. *)
Theorem successful_load_shows_first_page `{StringPrototype} u ps :
  exists u' t,
    ShoppingCartUIClass.loadProducts (JsonResolves (JArray (record_of <$> ps))) u
      = (Return tt, u') /\
    products (ui_app u') = ps /\
    this_products (list_view u') = Some ps /\
    productsElement (list_view u')
      = pages_shown (ShoppingCartUIClass.filtered_and_sorted ps
                       (searchInput_value (list_view u)) (sortSelect_value (list_view u)))
                    1 t /\
    loading_display (list_view u') = "none"%string /\
    loading_textContent (list_view u') = loading_textContent (list_view u) /\
    cart_lines (ui_app u') = cart_lines (ui_app u) /\
    cart_panel u' = cart_panel u.
Proof.
  pose proof (fetchAll_records_run ps (ui_app u)) as Hfetch.
  set (v := list_view u).
  set (u2 := mkUi (mkState (cartItemObjs (ui_app u)) (arrayObjs (ui_app u)) ps
                           (items (ui_app u)))
                  (mkListView (Some ps) (this_filteredProducts v) (this_currentPage v)
                     (replicate (Z.to_nat itemsPerPage) Skeleton)
                     (triggers_created v) (observed v)
                     (loading_display v) (loading_textContent v)
                     (searchInput_value v) (sortSelect_value v))
                  (cart_panel u)).
  destruct (filterAndSortProducts_run u2 ps eq_refl)
    as (u3 & Hrun & (_ & _ & _ & t & Hc) & (Happ & Hpanel & Hps & _ & _ & Hld & Hlt)).
  cbn [u2 list_view ui_app cart_panel this_products searchInput_value sortSelect_value
       loading_display loading_textContent] in Hrun, Hc, Happ, Hpanel, Hps, Hld, Hlt.
  eexists. exists t. split.
  { unfold ShoppingCartUIClass.loadProducts.
    erewrite bindU_Return by reflexivity.
    unfold ShoppingCartUIClass.loadProducts_resume, try_catchU.
    erewrite bindU_Return; [|apply liftU_run; exact Hfetch].
    erewrite bindU_Return by reflexivity.
    erewrite bindU_Return; [|exact Hrun].
    reflexivity. }
  cbn [list_view ui_app cart_panel productsElement loading_textContent
       loading_display this_products].
  rewrite Happ. by repeat split.
Qed.

(** ** The cart panel *)

Lemma row_callback_run s r o :
  cartItemObjs s !! r = Some o ->
  (p ← get_product r;
   n ← get_quantity r;
   t ← CartItemClass.total r;
   mret (mkCartRow (Product.image p) (Product.title p) (Product.id p) n (ToFixed2 t))) s
  = (Return (row_of o), s).
Proof.
  intros Hr. run_with (get_product_run _ _ _ Hr).
  run_with (get_quantity_run _ _ _ Hr). by run_with (total_run _ _ _ Hr).
Qed.

Lemma updateCart_run s v c ls :
  cart_lines s = Some ls ->
  ShoppingCartUIClass.updateCart (mkUi s v c) =
    (Return tt,
     mkUi s v
       (mkCartPanel (row_of <$> ls)
          (ToFixed2 (lines_total ls))
          (Some (List.fold_left (fun count item => count + CartItem.quantity item) ls 0)))).
Proof.
  intros Hls. pose proof Hls as (elems & Harr & Hderef)%cart_lines_Some.
  unfold ShoppingCartUIClass.updateCart.
  erewrite bindU_Return by reflexivity.
  erewrite bindU_Return; [|apply liftU_run; by apply read_array_run].
  erewrite bindU_Return;
    [|apply liftU_run; apply (array_map_run _ row_of _ _ ls);
      [intros r o Hr; by apply row_callback_run|exact Hderef]].
  erewrite bindU_Return by reflexivity.
  erewrite bindU_Return; [|apply liftU_run; by apply getTotal_run].
  erewrite bindU_Return by reflexivity.
  erewrite bindU_Return; [|apply liftU_run; by apply getItemCount_run].
  reflexivity.
Qed.

Lemma use_case_step_products (m : M unit) s ls :
  cart_inv s ls ->
  (exists productId, m = ShoppingCartUseCase.addToCart productId) \/
  (exists productId, m = ShoppingCartUseCase.removeFromCart productId) \/
  (exists productId delta, m = ShoppingCartUseCase.changeQuantity productId delta) ->
  exists s' ls', m s = (Return tt, s') /\ cart_inv s' ls' /\ products s' = products s.
Proof.
  intros Hinv [(productId & ->)|[(productId & ->)|(productId & delta & ->)]].
  - destruct (cart_inv_run_op (AddToCart productId) s ls Hinv)
      as (s' & ls' & Hrun & Hinv' & _).
    exists s', ls'. split; [exact Hrun|]. split; [exact Hinv'|].
    cbn [run_op] in Hrun.
    destruct (List.find (fun q => strict_eq (Product.id q) productId) (products s))
      as [p|] eqn:Hfind.
    + rewrite (addToCart_found _ _ _ Hfind) in Hrun.
      destruct (find_line ls (Product.id p)) as [(i & o & Hi & Hid)|Hfresh].
      * destruct (add_new_existing s ls p i o (inv_lines _ _ Hinv) (inv_unique _ _ Hinv)
                    Hi Hid) as (s1 & Hrun1 & _ & Hprod & _).
        congruence.
      * destruct (add_new_fresh s ls p (inv_lines _ _ Hinv) Hfresh)
          as (s1 & Hrun1 & _ & Hprod & _).
        congruence.
    + rewrite (addToCart_not_found _ _ Hfind) in Hrun. congruence.
  - destruct (cart_inv_run_op (RemoveItem productId) s ls Hinv)
      as (s' & ls' & Hrun & Hinv' & _).
    exists s', ls'. split; [exact Hrun|]. split; [exact Hinv'|].
    cbn [run_op] in Hrun.
    destruct (removeItem_run s ls productId (inv_lines _ _ Hinv))
      as (s1 & Hrun1 & _ & Hprod & _).
    congruence.
  - destruct (cart_inv_run_op (AdjustQuantity productId delta) s ls Hinv)
      as (s' & ls' & Hrun & Hinv' & _).
    exists s', ls'. split; [exact Hrun|]. split; [exact Hinv'|].
    cbn [run_op] in Hrun.
    destruct (find_line ls productId) as [(i & o & Hi & Hid)|Habsent].
    + destruct (updateQuantity_found s ls productId delta i o (inv_lines _ _ Hinv)
                  (inv_unique _ _ Hinv) Hi Hid) as (s1 & Hrun1 & _ & Hprod & _).
      congruence.
    + rewrite (updateQuantity_absent s ls productId delta (inv_lines _ _ Hinv) Habsent)
        in Hrun.
      congruence.
Qed.

(** Each of the methods [addToCart], [removeFromCart] and [changeQuantity]
    of the user interface, called with any identifier on a cart that is
    well formed: the call returns, the cart is well formed again, and the
    panel shows that cart, a row for each line in the order of the lines,
    the total that [getTotal] computes over those lines in the arithmetic
    of doubles and the number of units. The list and the catalog are not
    touched. *)
Theorem panel_shows_the_cart o u ls :
  cart_inv (ui_app u) ls ->
  exists u' ls',
    run_panel_op o u = (Return tt, u') /\
    cart_inv (ui_app u') ls' /\
    cartItemsElement (cart_panel u') = row_of <$> ls' /\
    cartTotalElement (cart_panel u') = ToFixed2 (lines_total ls') /\
    CartRepository.getTotal (ui_app u') = (Return (lines_total ls'), ui_app u') /\
    cartCountElement (cart_panel u') = Some (spec_itemCount ls') /\
    list_view u' = list_view u /\
    products (ui_app u') = products (ui_app u).
Proof.
  intros Hinv. destruct u as [s v c]. cbn [ui_app] in Hinv.
  assert (exists m : M unit,
            (exists s' ls', m s = (Return tt, s') /\ cart_inv s' ls' /\
                            products s' = products s) /\
            run_panel_op o = (liftU m;; ShoppingCartUIClass.updateCart))
    as (m & (s' & ls' & Hrun & Hinv' & Hprod) & ->).
  { destruct o as [productId|productId|productId delta].
    - exists (ShoppingCartUseCase.addToCart productId). split; [|done].
      eapply use_case_step_products; [exact Hinv|]. left. by exists productId.
    - exists (ShoppingCartUseCase.removeFromCart productId). split; [|done].
      eapply use_case_step_products; [exact Hinv|]. right. left. by exists productId.
    - exists (ShoppingCartUseCase.changeQuantity productId delta). split; [|done].
      eapply use_case_step_products; [exact Hinv|]. right. right.
      by exists productId, delta. }
  exists (mkUi s' v
            (mkCartPanel (row_of <$> ls') (ToFixed2 (lines_total ls'))
               (Some (List.fold_left
                        (fun count item => count + CartItem.quantity item) ls' 0)))),
         ls'.
  split.
  { erewrite bindU_Return; [|apply liftU_run; exact Hrun].
    apply updateCart_run, Hinv'. }
  cbn [ui_app cart_panel list_view cartItemsElement cartTotalElement cartCountElement].
  split; [done|]. split; [done|]. split; [reflexivity|].
  split; [apply getTotal_run, Hinv'|].
  split; [by rewrite fold_left_itemCount|]. by split.
Qed.

(** The cart with two Mochilas and [changeQuantity(1, 1)] on the page that
    has just been opened. *)
Lemma panel_shows_the_cart_witness :
  cart_inv cart_two_of_1 [CartItem.mk product1 2] /\
  exists u' ls',
    run_panel_op (PanelChange (IdNum 1) 1) (opened cart_two_of_1 "" "") = (Return tt, u') /\
    cart_inv (ui_app u') ls' /\
    cartItemsElement (cart_panel u') = row_of <$> ls' /\
    cartTotalElement (cart_panel u') = ToFixed2 (lines_total ls') /\
    CartRepository.getTotal (ui_app u') = (Return (lines_total ls'), ui_app u') /\
    cartCountElement (cart_panel u') = Some (spec_itemCount ls') /\
    list_view u' = list_view (opened cart_two_of_1 "" "") /\
    products (ui_app u') = products cart_two_of_1.
Proof.
  assert (cart_inv cart_two_of_1 [CartItem.mk product1 2]) as Hinv.
  { split; [reflexivity| |].
    - apply NoDup_singleton.
    - constructor; [cbn; lia|constructor]. }
  split; [exact Hinv|].
  exact (panel_shows_the_cart (PanelChange (IdNum 1) 1) (opened cart_two_of_1 "" "")
           [CartItem.mk product1 2] Hinv).
Defined.

